(** * myRTOS: a shallow embedding of the task / scheduler / synchronisation core

    The kernel keeps its state in a handful of process-wide objects
    ([taskPool], the TCBs, the synchronisation primitives, [timerList]).
    They are gathered here in one record [kernel]; every C function becomes
    a function on that record.  Pointers to statically allocated objects are
    addresses ([nat]); a pointer that may be [NULL] is an [option].

    A call that can give the processor away ([taskYield], [taskBlock] and
    whatever calls them) is a resumption: it runs up to its first suspension
    point and hands back the code that runs once the task is scheduled
    again, on whatever the kernel state is by then.  Between two suspension
    points a call is taken to run without interference. *)

From Stdlib Require Import ZArith Lia Bool List.
From stdpp Require Import base tactics option list functions.

Local Open Scope Z_scope.

(** ** task/task.h *)

Definition TASK_LOWEST_PRIORITY : Z := 255.
Definition TASK_HIGHEST_PRIORITY : Z := 0.
Definition TASK_NO_WAIT : Z := 0.
Definition TASK_MAX_WAIT : Z := 4294967295.

Definition taskId := nat.

Inductive taskStatusType :=
| TASK_STATUS_READY
| TASK_STATUS_RUNNING
| TASK_STATUS_BLOCKED
| TASK_STATUS_SUSPENDED.

Inductive blockedReasonType :=
| BLOCK_REASON_NONE
| SLEEP
| WAIT_FOR_SEMAPHORE
| WAIT_FOR_MUTEX
| WAIT_FOR_MSG_QUEUE_DATA
| WAIT_FOR_MSG_QUEUE_SPACE
| WAIT_FOR_COND_VAR
| WAIT_FOR_TIMER_TIMEOUT.

Inductive wakeupReasonType :=
| WAKEUP_REASON_NONE
| WAIT_TIMEOUT
| SLEEP_TIME_TIMEOUT
| SEMAPHORE_TAKEN
| MUTEX_LOCKED
| MSG_QUEUE_DATA_AVAILABLE
| MSG_QUEUE_SPACE_AVAILABE
| COND_VAR_SIGNALLED
| TIMER_TIMEOUT
| RESUME.

#[global] Instance taskStatusType_eq_dec : EqDecision taskStatusType.
Proof. solve_decision. Defined.
#[global] Instance blockedReasonType_eq_dec : EqDecision blockedReasonType.
Proof. solve_decision. Defined.
#[global] Instance wakeupReasonType_eq_dec : EqDecision wakeupReasonType.
Proof. solve_decision. Defined.

(** The task control block.  [stackPointer] and [remainingSleepTicks] are
    [uint32_t], [priority] is [uint8_t]; [taskEntry] and [params] are opaque
    addresses. *)
Record taskHandleType := mkTask {
  stackPointer : Z;
  taskEntry : nat;
  params : nat;
  remainingSleepTicks : Z;
  status : taskStatusType;
  blockedReason : blockedReasonType;
  wakeupReason : wakeupReasonType;
  priority : Z
}.

Definition set_remainingSleepTicks (v : Z) (t : taskHandleType) : taskHandleType :=
  mkTask (stackPointer t) (taskEntry t) (params t) v
         (status t) (blockedReason t) (wakeupReason t) (priority t).

Definition set_status (v : taskStatusType) (t : taskHandleType) : taskHandleType :=
  mkTask (stackPointer t) (taskEntry t) (params t) (remainingSleepTicks t)
         v (blockedReason t) (wakeupReason t) (priority t).

Definition set_blockedReason (v : blockedReasonType) (t : taskHandleType) : taskHandleType :=
  mkTask (stackPointer t) (taskEntry t) (params t) (remainingSleepTicks t)
         (status t) v (wakeupReason t) (priority t).

Definition set_wakeupReason (v : wakeupReasonType) (t : taskHandleType) : taskHandleType :=
  mkTask (stackPointer t) (taskEntry t) (params t) (remainingSleepTicks t)
         (status t) (blockedReason t) v (priority t).

Definition set_priority (v : Z) (t : taskHandleType) : taskHandleType :=
  mkTask (stackPointer t) (taskEntry t) (params t) (remainingSleepTicks t)
         (status t) (blockedReason t) (wakeupReason t) v.

(** ** taskQueue/taskQueue.h

    A queue is the sequence of the tasks its nodes point to, head first. *)

Definition taskQueueType := list taskId.

(** Modelled from the spec: taskQueue.c is missing.  "empty-test". *)
Definition taskQueueEmpty (q : taskQueueType) : bool :=
  match q with [] => true | _ :: _ => false end.

(** Modelled from the spec: taskQueue.c is missing.  "peek returns head". *)
Definition taskQueuePeek (q : taskQueueType) : option taskId := head q.

(** Modelled from the spec: taskQueue.c is missing.  "pop removes head";
    the callers test the result against [NULL], which is what an empty
    queue gives. *)
Definition taskQueueGet (q : taskQueueType) : option taskId * taskQueueType :=
  match q with
  | [] => (None, [])
  | t :: q' => (Some t, q')
  end.

(** Modelled from the spec: taskQueue.c is missing.  "an added task is
    placed after all tasks of strictly better (numerically lower) priority
    and after all equal-priority tasks already present".  The priorities
    are those the TCBs hold when the task is added. *)
Fixpoint taskQueueAdd (tcb : taskId -> taskHandleType)
    (q : taskQueueType) (t : taskId) : taskQueueType :=
  match q with
  | [] => [t]
  | h :: q' =>
      if priority (tcb h) <=? priority (tcb t)
      then h :: taskQueueAdd tcb q' t
      else t :: h :: q'
  end.

(** Modelled from the spec: taskQueue.c is missing.  "remove(node) unlinks
    a specific node": the first node of the task, if there is one. *)
Fixpoint taskQueueRemove (q : taskQueueType) (t : taskId) : taskQueueType :=
  match q with
  | [] => []
  | h :: q' => if decide (h = t) then q' else h :: taskQueueRemove q' t
  end.

(** ** The synchronisation primitives and the timers *)

(** Modelled from the spec: retCodes.h is missing; the codes are distinct
    constants and are kept symbolic.  The message queue returns [SUCCESS]
    and the negated [E...] codes. *)
Inductive retCodeType :=
| RET_SUCCESS
| RET_BUSY
| RET_TIMEOUT
| RET_NOTOWNER
| RET_NOTLOCKED
| RET_NOSEM
| SUCCESS
| neg_EINVAL
| neg_ENOSPACE
| neg_ENODATA
| neg_ETIMEOUT.

#[global] Instance retCodeType_eq_dec : EqDecision retCodeType.
Proof. solve_decision. Defined.

(** Modelled from the spec: mutex.h is missing.  "{ locked: bool,
    ownerTask: TCB | none, ownerDefaultPriority: int (-1 sentinel for "not
    boosted"), waitQueue }". *)
Record mutexHandleType := mkMutex {
  locked : bool;
  ownerTask : option taskId;
  ownerDefaultPriority : Z;
  waitQueue : taskQueueType
}.

(** Modelled from the spec: semaphore.h is missing.  "{ count: int,
    maxCount: int, waitQueue }". *)
Record semaphoreHandleType := mkSemaphore {
  count : Z;
  maxCount : Z;
  semWaitQueue : taskQueueType
}.

(** Modelled from the spec: conditionVariable.h is missing.  "{ pMutex:
    mutex ref, waitQueue }"; [condVarWait] tests [pMutex] against [NULL]. *)
Record condVarHandleType := mkCondVar {
  pMutex : option nat;
  condVarWaitQueue : taskQueueType
}.

(** Modelled from the spec: messageQueue.h is missing.  "{ buffer: byte
    array of length queueLength*itemSize, readIndex, writeIndex, itemCount,
    itemSize, queueLength, producerWaitQueue, consumerWaitQueue }".  The
    sizes and indices are unsigned and index the buffer. *)
Record msgQueueHandleType := mkMsgQueue {
  buffer : list Byte.byte;
  queueLength : nat;
  itemSize : nat;
  itemCount : nat;
  readIndex : nat;
  writeIndex : nat;
  producerWaitQueue : taskQueueType;
  consumerWaitQueue : taskQueueType
}.

Inductive timerModeType :=
| TIMER_MODE_SINGLE_SHOT
| TIMER_MODE_PERIODIC.

#[global] Instance timerModeType_eq_dec : EqDecision timerModeType.
Proof. solve_decision. Defined.

(** A handler is a function pointer; only its address matters here. *)
Definition timeoutHandlerType := nat.

(** Modelled from the spec: timer.h is missing.  "{ intervalTicks,
    ticksToExpire, mode, isRunning, handler }, linked into a singly-linked
    list timerList".  The link is kept in [timerList] below. *)
Record timerNodeType := mkTimer {
  timeoutHandler : timeoutHandlerType;
  intervalTicks : Z;
  ticksToExpire : Z;
  mode : timerModeType;
  isRunning : bool
}.

(** ** The kernel state *)

Record kernel := mkKernel {
  (* the TCBs, by address *)
  tcb : taskId -> taskHandleType;
  (* taskPool *)
  readyQueue : taskQueueType;
  blockedQueue : taskQueueType;
  taskPool_currentTask : taskId;
  (* the two globals the context-switch handler reads *)
  currentTask : option taskId;
  nextTask : option taskId;
  (* SCB->ICSR, bit PENDSVSET *)
  pendSV : bool;
  (* the primitives, by address *)
  mutexes : nat -> mutexHandleType;
  semaphores : nat -> semaphoreHandleType;
  condVars : nat -> condVarHandleType;
  msgQueues : nat -> msgQueueHandleType;
  (* timer.c *)
  timers : nat -> timerNodeType;
  timerList : list nat;
  timeoutHandlerQueue : list timeoutHandlerType
}.

Definition with_tcb (v : taskId -> taskHandleType) (k : kernel) : kernel :=
  mkKernel v (readyQueue k) (blockedQueue k) (taskPool_currentTask k)
           (currentTask k) (nextTask k) (pendSV k) (mutexes k) (semaphores k)
           (condVars k) (msgQueues k) (timers k) (timerList k)
           (timeoutHandlerQueue k).

Definition with_readyQueue (v : taskQueueType) (k : kernel) : kernel :=
  mkKernel (tcb k) v (blockedQueue k) (taskPool_currentTask k)
           (currentTask k) (nextTask k) (pendSV k) (mutexes k) (semaphores k)
           (condVars k) (msgQueues k) (timers k) (timerList k)
           (timeoutHandlerQueue k).

Definition with_blockedQueue (v : taskQueueType) (k : kernel) : kernel :=
  mkKernel (tcb k) (readyQueue k) v (taskPool_currentTask k)
           (currentTask k) (nextTask k) (pendSV k) (mutexes k) (semaphores k)
           (condVars k) (msgQueues k) (timers k) (timerList k)
           (timeoutHandlerQueue k).

Definition with_taskPool_currentTask (v : taskId) (k : kernel) : kernel :=
  mkKernel (tcb k) (readyQueue k) (blockedQueue k) v
           (currentTask k) (nextTask k) (pendSV k) (mutexes k) (semaphores k)
           (condVars k) (msgQueues k) (timers k) (timerList k)
           (timeoutHandlerQueue k).

Definition with_currentTask (v : option taskId) (k : kernel) : kernel :=
  mkKernel (tcb k) (readyQueue k) (blockedQueue k) (taskPool_currentTask k)
           v (nextTask k) (pendSV k) (mutexes k) (semaphores k)
           (condVars k) (msgQueues k) (timers k) (timerList k)
           (timeoutHandlerQueue k).

Definition with_nextTask (v : option taskId) (k : kernel) : kernel :=
  mkKernel (tcb k) (readyQueue k) (blockedQueue k) (taskPool_currentTask k)
           (currentTask k) v (pendSV k) (mutexes k) (semaphores k)
           (condVars k) (msgQueues k) (timers k) (timerList k)
           (timeoutHandlerQueue k).

Definition with_pendSV (v : bool) (k : kernel) : kernel :=
  mkKernel (tcb k) (readyQueue k) (blockedQueue k) (taskPool_currentTask k)
           (currentTask k) (nextTask k) v (mutexes k) (semaphores k)
           (condVars k) (msgQueues k) (timers k) (timerList k)
           (timeoutHandlerQueue k).

Definition with_mutexes (v : nat -> mutexHandleType) (k : kernel) : kernel :=
  mkKernel (tcb k) (readyQueue k) (blockedQueue k) (taskPool_currentTask k)
           (currentTask k) (nextTask k) (pendSV k) v (semaphores k)
           (condVars k) (msgQueues k) (timers k) (timerList k)
           (timeoutHandlerQueue k).

Definition with_semaphores (v : nat -> semaphoreHandleType) (k : kernel) : kernel :=
  mkKernel (tcb k) (readyQueue k) (blockedQueue k) (taskPool_currentTask k)
           (currentTask k) (nextTask k) (pendSV k) (mutexes k) v
           (condVars k) (msgQueues k) (timers k) (timerList k)
           (timeoutHandlerQueue k).

Definition with_condVars (v : nat -> condVarHandleType) (k : kernel) : kernel :=
  mkKernel (tcb k) (readyQueue k) (blockedQueue k) (taskPool_currentTask k)
           (currentTask k) (nextTask k) (pendSV k) (mutexes k) (semaphores k)
           v (msgQueues k) (timers k) (timerList k)
           (timeoutHandlerQueue k).

Definition with_msgQueues (v : nat -> msgQueueHandleType) (k : kernel) : kernel :=
  mkKernel (tcb k) (readyQueue k) (blockedQueue k) (taskPool_currentTask k)
           (currentTask k) (nextTask k) (pendSV k) (mutexes k) (semaphores k)
           (condVars k) v (timers k) (timerList k)
           (timeoutHandlerQueue k).

Definition with_timers (v : nat -> timerNodeType) (k : kernel) : kernel :=
  mkKernel (tcb k) (readyQueue k) (blockedQueue k) (taskPool_currentTask k)
           (currentTask k) (nextTask k) (pendSV k) (mutexes k) (semaphores k)
           (condVars k) (msgQueues k) v (timerList k)
           (timeoutHandlerQueue k).

Definition with_timerList (v : list nat) (k : kernel) : kernel :=
  mkKernel (tcb k) (readyQueue k) (blockedQueue k) (taskPool_currentTask k)
           (currentTask k) (nextTask k) (pendSV k) (mutexes k) (semaphores k)
           (condVars k) (msgQueues k) (timers k) v
           (timeoutHandlerQueue k).

Definition with_timeoutHandlerQueue (v : list timeoutHandlerType) (k : kernel) : kernel :=
  mkKernel (tcb k) (readyQueue k) (blockedQueue k) (taskPool_currentTask k)
           (currentTask k) (nextTask k) (pendSV k) (mutexes k) (semaphores k)
           (condVars k) (msgQueues k) (timers k) (timerList k) v.

(** [pTask->field = v] *)
Definition updTask (t : taskId) (f : taskHandleType -> taskHandleType)
    (k : kernel) : kernel :=
  with_tcb (<[t := f (tcb k t)]> (tcb k)) k.

(** ** task/task.c: waking a task *)

Definition mutexUnwait (t : taskId) (m : mutexHandleType) : mutexHandleType :=
  mkMutex (locked m) (ownerTask m) (ownerDefaultPriority m)
          (taskQueueRemove (waitQueue m) t).

Definition semaphoreUnwait (t : taskId) (s : semaphoreHandleType) : semaphoreHandleType :=
  mkSemaphore (count s) (maxCount s) (taskQueueRemove (semWaitQueue s) t).

Definition condVarUnwait (t : taskId) (c : condVarHandleType) : condVarHandleType :=
  mkCondVar (pMutex c) (taskQueueRemove (condVarWaitQueue c) t).

Definition msgQueueUnwait (t : taskId) (q : msgQueueHandleType) : msgQueueHandleType :=
  mkMsgQueue (buffer q) (queueLength q) (itemSize q) (itemCount q)
             (readIndex q) (writeIndex q)
             (taskQueueRemove (producerWaitQueue q) t)
             (taskQueueRemove (consumerWaitQueue q) t).

(** "if t is on any primitive wait queue, remove it" *)
Definition waitQueuesRemove (t : taskId) (k : kernel) : kernel :=
  with_msgQueues (fun i => msgQueueUnwait t (msgQueues k i))
   (with_condVars (fun i => condVarUnwait t (condVars k i))
    (with_semaphores (fun i => semaphoreUnwait t (semaphores k i))
     (with_mutexes (fun i => mutexUnwait t (mutexes k i)) k))).

(** Modelled from the spec: task.c is missing.  "taskSetReady(t,
    wakeReason): if t is on the blocked-timeout list, remove it; clear
    remainingSleepTicks; if t is on any primitive wait queue, remove it;
    set status=READY, wakeupReason=wakeReason; insert in ready queue." *)
Definition taskSetReady (t : taskId) (wakeReason : wakeupReasonType)
    (k : kernel) : kernel :=
  let k1 := with_blockedQueue (taskQueueRemove (blockedQueue k) t) k in
  let k2 := updTask t (set_remainingSleepTicks 0) k1 in
  let k3 := waitQueuesRemove t k2 in
  let k4 := updTask t (set_status TASK_STATUS_READY) k3 in
  let k5 := updTask t (set_wakeupReason wakeReason) k4 in
  with_readyQueue (taskQueueAdd (tcb k5) (readyQueue k5) t) k5.

(** ** scheduler/scheduler.c *)

Definition triggerPendSV (k : kernel) : kernel := with_pendSV true k.

(** The guarded block of [scheduleNextTask] for a current task that is
    RUNNING: [None] is the early [return]. *)
Definition requeueCurrent (k : kernel) : option kernel :=
  match taskQueuePeek (readyQueue k) with
  | Some nextReadyTask =>
      if priority (tcb k nextReadyTask) <=? priority (tcb k (taskPool_currentTask k))
      then
        let k1 := updTask (taskPool_currentTask k) (set_status TASK_STATUS_READY) k in
        Some (with_readyQueue
                (taskQueueAdd (tcb k1) (readyQueue k1) (taskPool_currentTask k1)) k1)
      else None
  | None => None
  end.

Definition scheduleNextTask (k : kernel) : kernel :=
  if negb (taskQueueEmpty (readyQueue k)) then
    let guarded :=
      if decide (status (tcb k (taskPool_currentTask k)) = TASK_STATUS_RUNNING)
      then requeueCurrent k
      else Some k in
    match guarded with
    | None => k
    | Some k1 =>
        let k2 := with_currentTask (Some (taskPool_currentTask k1)) k1 in
        match taskQueueGet (readyQueue k2) with
        | (Some next, q) =>
            let k3 := with_nextTask (Some next) (with_readyQueue q k2) in
            let k4 := with_taskPool_currentTask next k3 in
            let k5 := updTask next (set_status TASK_STATUS_RUNNING) k4 in
            triggerPendSV k5
        | (None, _) => k2
        end
    end
  else k.

(** *** Calls that may give the processor away

    A call runs on the kernel state until it returns or reaches a
    suspension point; [Suspended c] carries the rest of the call, to be run
    on the kernel state found when the task is scheduled again.  [Halted]
    is a failed [assert]. *)

#[warnings="-register-all"]
Inductive res (R : Type) : Type :=
| Returned (r : R)
| Suspended (resume : kernel -> kernel * res R)
| Halted.

Arguments Returned {R} r.
Arguments Suspended {R} resume.
Arguments Halted {R}.

Definition call (R : Type) : Type := kernel -> kernel * res R.

Fixpoint res_bind {A B : Type} (f : A -> call B) (r : res A) (k : kernel)
    : kernel * res B :=
  match r with
  | Returned a => f a k
  | Suspended c =>
      (k, Suspended (fun k' => let (k'', r') := c k' in res_bind f r' k''))
  | Halted => (k, Halted)
  end.

Definition halt {R : Type} : call R := fun k => (k, Halted).

#[global] Instance call_ret : MRet call := fun R r k => (k, Returned r).

#[global] Instance call_bind : MBind call :=
  fun A B f m k => let (k', r) := m k in res_bind f r k'.

(** Reading and updating the kernel objects inside a call. *)
Definition gets {R : Type} (f : kernel -> R) : call R :=
  fun k => (k, Returned (f k)).

Definition modify (f : kernel -> kernel) : call unit :=
  fun k => (f k, Returned tt).

(** A function that runs to its end without giving the processor away. *)
Definition lift {R : Type} (f : kernel -> kernel * R) : call R :=
  fun k => let (k', r) := f k in (k', Returned r).

(** [run c k resumes] runs the call to its end: each time it suspends, the
    task is resumed on the next state of [resumes].  The result is the
    state at the return and the value returned; [None] when the call does
    not suspend exactly [length resumes] times. *)
Fixpoint run {R : Type} (c : call R) (k : kernel) (resumes : list kernel)
    : option (kernel * R) :=
  match c k, resumes with
  | (k', Returned r), [] => Some (k', r)
  | (_, Suspended c'), e :: rest => run c' e rest
  | _, _ => None
  end.

(** [taskYield]: with privileged tasks it calls [scheduleNextTask] under
    disabled interrupts; otherwise it raises the supervisor call, whose
    handler [SVC_Handler] does the same.  When the scheduler has chosen
    another task the caller is switched out as soon as interrupts are
    enabled again, and goes on when it is chosen again. *)
Definition SVC_Handler (k : kernel) : kernel := scheduleNextTask k.

Definition taskYield : call unit :=
  fun k =>
    let k' := scheduleNextTask k in
    if decide (taskPool_currentTask k' = taskPool_currentTask k)
    then (k', Returned tt)
    else (k', Suspended (fun k'' => (k'', Returned tt))).

(** Modelled from the spec: task.c is missing.  "taskBlock(t, reason,
    ticks): set status=BLOCKED, blockedReason=reason,
    remainingSleepTicks=ticks (ticks==MAX means "no timeout"), insert in
    blocked-timeout list, yield", with "a task blocked with "no timeout" has
    remainingSleepTicks == 0 at block time". *)
Definition taskBlockMark (t : taskId) (reason : blockedReasonType) (ticks : Z)
    (k : kernel) : kernel :=
  let k1 := updTask t (set_status TASK_STATUS_BLOCKED) k in
  let k2 := updTask t (set_blockedReason reason) k1 in
  let k3 :=
    updTask t (set_remainingSleepTicks
                 (if ticks =? TASK_MAX_WAIT then 0 else ticks)) k2 in
  with_blockedQueue (taskQueueAdd (tcb k3) (blockedQueue k3) t) k3.

Definition taskBlock (t : taskId) (reason : blockedReasonType) (ticks : Z)
    : call unit :=
  modify (taskBlockMark t reason ticks);;
  taskYield.

(** The wake-up reason [checkTimeout] delivers to a task. *)
Definition timeoutReason (x : taskHandleType) : wakeupReasonType :=
  if decide (blockedReason x = SLEEP) then SLEEP_TIME_TIMEOUT else WAIT_TIMEOUT.

(** One turn of the loop of [checkTimeout], on the node of task [t]. *)
Definition checkTimeoutNode (t : taskId) (k : kernel) : kernel :=
  if 0 <? remainingSleepTicks (tcb k t) then
    let k1 := updTask t (set_remainingSleepTicks (remainingSleepTicks (tcb k t) - 1)) k in
    if remainingSleepTicks (tcb k1 t) =? 0 then
      if decide (blockedReason (tcb k1 t) = SLEEP)
      then taskSetReady t SLEEP_TIME_TIMEOUT k1
      else taskSetReady t WAIT_TIMEOUT k1
    else k1
  else k.

(** The walk along the nodes.  The successor of a node is read before the
    node is handled, and handling a node unlinks no other node, so the walk
    visits the nodes that are linked when it starts. *)
Fixpoint checkTimeoutWalk (nodes : list taskId) (k : kernel) : kernel :=
  match nodes with
  | [] => k
  | t :: rest => checkTimeoutWalk rest (checkTimeoutNode t k)
  end.

Definition checkTimeout (k : kernel) : kernel :=
  checkTimeoutWalk (blockedQueue k) k.

(** ** timer/timer.c *)

(** The TCBs that timer.c and scheduler.c define with [TASK_DEFINE]. *)
Definition timerTask : taskId := 0%nat.
Definition idleTask : taskId := 1%nat.

Definition updTimer (p : nat) (f : timerNodeType -> timerNodeType)
    (k : kernel) : kernel :=
  with_timers (<[p := f (timers k p)]> (timers k)) k.

Definition set_ticksToExpire (v : Z) (t : timerNodeType) : timerNodeType :=
  mkTimer (timeoutHandler t) (intervalTicks t) v (mode t) (isRunning t).

Definition set_intervalTicks (v : Z) (t : timerNodeType) : timerNodeType :=
  mkTimer (timeoutHandler t) v (ticksToExpire t) (mode t) (isRunning t).

Definition set_isRunning (v : bool) (t : timerNodeType) : timerNodeType :=
  mkTimer (timeoutHandler t) (intervalTicks t) (ticksToExpire t) (mode t) v.

(** The handler queue is a FIFO with a tail pointer: a push appends. *)
Definition timeoutHandlerQueuePush (q : list timeoutHandlerType)
    (h : timeoutHandlerType) : list timeoutHandlerType := q ++ [h].

Definition timerListNodeAdd (l : list nat) (p : nat) : list nat := p :: l.

(** Unlinks the node from the list it is on. *)
Fixpoint timerListNodeDelete (l : list nat) (p : nat) : list nat :=
  match l with
  | [] => []
  | h :: l' => if decide (p = h) then l' else h :: timerListNodeDelete l' p
  end.

Definition timerStart (p : nat) (ticks : Z) (k : kernel) : kernel :=
  if isRunning (timers k p) then k
  else
    let k1 := updTimer p (set_isRunning true) k in
    let k2 := updTimer p (set_intervalTicks ticks) k1 in
    let k3 := updTimer p (set_ticksToExpire ticks) k2 in
    with_timerList (timerListNodeAdd (timerList k3) p) k3.

Definition timerStop (p : nat) (k : kernel) : kernel :=
  if isRunning (timers k p) then
    let k1 := updTimer p (set_isRunning false) k in
    with_timerList (timerListNodeDelete (timerList k1) p) k1
  else k.

(** The ticks a timer has left once a tick has been taken off. *)
Definition ticksLeft (x : timerNodeType) : Z :=
  if 0 <? ticksToExpire x then ticksToExpire x - 1 else ticksToExpire x.

(** The handlers of the timers among [nodes] that expire at this tick, in
    the order of [nodes]. *)
Definition expiredHandlers (tm : nat -> timerNodeType) (nodes : list nat)
    : list timeoutHandlerType :=
  List.map (fun p => timeoutHandler (tm p))
           (List.filter (fun p => ticksLeft (tm p) =? 0) nodes).

(** The timer task is READY in the ready queue, woken by a timer. *)
Definition timerTaskWoken (k : kernel) : Prop :=
  status (tcb k timerTask) = TASK_STATUS_READY /\
  wakeupReason (tcb k timerTask) = TIMER_TIMEOUT /\
  In timerTask (readyQueue k).

(** [if (currentNode->ticksToExpire > 0) currentNode->ticksToExpire--;] *)
Definition timerTick (p : nat) (k : kernel) : kernel :=
  if 0 <? ticksToExpire (timers k p)
  then updTimer p (set_ticksToExpire (ticksToExpire (timers k p) - 1)) k
  else k.

(** [if (timerTask.status == TASK_STATUS_BLOCKED) taskSetReady(&timerTask,
    TIMER_TIMEOUT);] *)
Definition timerTaskNotify (k : kernel) : kernel :=
  if decide (status (tcb k timerTask) = TASK_STATUS_BLOCKED)
  then taskSetReady timerTask TIMER_TIMEOUT k
  else k.

(** The block of [processTimers] for a node whose [ticksToExpire] is 0. *)
Definition timerExpire (p : nat) (k : kernel) : kernel :=
  let k2 :=
    with_timeoutHandlerQueue
      (timeoutHandlerQueuePush (timeoutHandlerQueue k)
                               (timeoutHandler (timers k p))) k in
  let k3 := timerTaskNotify k2 in
  let k4 := updTimer p (set_ticksToExpire (intervalTicks (timers k3 p))) k3 in
  if decide (mode (timers k4 p) = TIMER_MODE_SINGLE_SHOT)
  then timerStop p k4
  else k4.

(** One turn of the loop of [processTimers], on the node at [p]. *)
Definition processTimerNode (p : nat) (k : kernel) : kernel :=
  let k1 := timerTick p k in
  if ticksToExpire (timers k1 p) =? 0 then timerExpire p k1 else k1.

(** The walk along [timerList]; as in [checkTimeoutWalk] the successor is
    read first, and [timerStop] unlinks the node at hand only. *)
Fixpoint processTimersWalk (nodes : list nat) (k : kernel) : kernel :=
  match nodes with
  | [] => k
  | p :: rest => processTimersWalk rest (processTimerNode p k)
  end.

Definition processTimers (k : kernel) : kernel :=
  processTimersWalk (timerList k) k.

(** The tick interrupt. *)
Definition SYSTICK_HANDLER (k : kernel) : kernel :=
  let k1 := processTimers k in
  let k2 := if negb (taskQueueEmpty (blockedQueue k1)) then checkTimeout k1 else k1 in
  scheduleNextTask k2.

(** ** mutex/mutex.c *)

Definition set_locked (v : bool) (m : mutexHandleType) : mutexHandleType :=
  mkMutex v (ownerTask m) (ownerDefaultPriority m) (waitQueue m).

Definition set_ownerTask (v : option taskId) (m : mutexHandleType) : mutexHandleType :=
  mkMutex (locked m) v (ownerDefaultPriority m) (waitQueue m).

Definition set_ownerDefaultPriority (v : Z) (m : mutexHandleType) : mutexHandleType :=
  mkMutex (locked m) (ownerTask m) v (waitQueue m).

Definition set_waitQueue (v : taskQueueType) (m : mutexHandleType) : mutexHandleType :=
  mkMutex (locked m) (ownerTask m) (ownerDefaultPriority m) v.

Definition updMutex (p : nat) (f : mutexHandleType -> mutexHandleType)
    (k : kernel) : kernel :=
  with_mutexes (<[p := f (mutexes k p)]> (mutexes k)) k.

(** The priority-inheritance block of [mutexLock], compiled in when
    [MUTEX_USE_PRIORITY_INHERITANCE] is set. *)
Definition mutexInherit (MUTEX_USE_PRIORITY_INHERITANCE : bool)
    (pMutex : nat) (currentTask : taskId) (k : kernel) : kernel :=
  if MUTEX_USE_PRIORITY_INHERITANCE then
    match ownerTask (mutexes k pMutex) with
    | Some owner =>
        if priority (tcb k currentTask) <? priority (tcb k owner) then
          let k1 :=
            if ownerDefaultPriority (mutexes k pMutex) =? -1
            then updMutex pMutex (set_ownerDefaultPriority (priority (tcb k owner))) k
            else k in
          updTask owner (set_priority (priority (tcb k1 currentTask))) k1
        else k
    | None => k
    end
  else k.

(** What [mutexLock] does once [taskBlock] has returned. *)
Definition mutexLockWoken (pMutex : nat) (currentTask : taskId) : call retCodeType :=
  k ← gets id;
  if bool_decide (wakeupReason (tcb k currentTask) = MUTEX_LOCKED)
     && bool_decide (ownerTask (mutexes k pMutex) = Some currentTask)
  then mret RET_SUCCESS
  else mret RET_TIMEOUT.

Definition mutexLock (MUTEX_USE_PRIORITY_INHERITANCE : bool)
    (pMutex : nat) (waitTicks : Z) : call retCodeType :=
  currentTask ← gets taskPool_currentTask;
  modify (mutexInherit MUTEX_USE_PRIORITY_INHERITANCE pMutex currentTask);;
  isLocked ← gets (fun k => locked (mutexes k pMutex));
  if negb isLocked then
    modify (updMutex pMutex (set_locked true));;
    modify (updMutex pMutex (set_ownerTask (Some currentTask)));;
    mret RET_SUCCESS
  else if (waitTicks =? TASK_NO_WAIT) && isLocked then
    mret RET_BUSY
  else
    modify (fun k =>
      updMutex pMutex
        (set_waitQueue (taskQueueAdd (tcb k) (waitQueue (mutexes k pMutex)) currentTask)) k);;
    taskBlock currentTask WAIT_FOR_MUTEX waitTicks;;
    mutexLockWoken pMutex currentTask.

(** The restoring block of [mutexUnlock]; the store into the [uint8_t]
    priority keeps the low eight bits of the [int]. *)
Definition mutexRestore (MUTEX_USE_PRIORITY_INHERITANCE : bool)
    (pMutex : nat) (k : kernel) : kernel :=
  if MUTEX_USE_PRIORITY_INHERITANCE then
    if negb (ownerDefaultPriority (mutexes k pMutex) =? -1) then
      let k1 :=
        match ownerTask (mutexes k pMutex) with
        | Some owner =>
            updTask owner
              (set_priority (ownerDefaultPriority (mutexes k pMutex) mod 256)) k
        | None => k
        end in
      updMutex pMutex (set_ownerDefaultPriority (-1)) k1
    else k
  else k.

(** The critical section of [mutexUnlock]: the new state, [retCode] and
    [contextSwitchRequired]. *)
Definition mutexUnlockCritical (MUTEX_USE_PRIORITY_INHERITANCE : bool)
    (pMutex : nat) (k : kernel) : kernel * (retCodeType * bool) :=
  let currentTask := taskPool_currentTask k in
  if decide (ownerTask (mutexes k pMutex) = Some currentTask) then
    if locked (mutexes k pMutex) then
      let k1 := mutexRestore MUTEX_USE_PRIORITY_INHERITANCE pMutex k in
      let (nextOwner, q) := taskQueueGet (waitQueue (mutexes k1 pMutex)) in
      let k2 := updMutex pMutex (set_waitQueue q) k1 in
      let k3 := updMutex pMutex (set_ownerTask nextOwner) k2 in
      match nextOwner with
      | Some next =>
          let k4 := taskSetReady next MUTEX_LOCKED k3 in
          (k4, (RET_SUCCESS,
                priority (tcb k4 next) <=? priority (tcb k4 (taskPool_currentTask k4))))
      | None =>
          (updMutex pMutex (set_locked false) k3, (RET_SUCCESS, false))
      end
    else (k, (RET_NOTLOCKED, false))
  else (k, (RET_NOTOWNER, false)).

Definition mutexUnlock (MUTEX_USE_PRIORITY_INHERITANCE : bool) (pMutex : nat)
    : call retCodeType :=
  fun k =>
    let '(k', (retCode, contextSwitchRequired)) :=
      mutexUnlockCritical MUTEX_USE_PRIORITY_INHERITANCE pMutex k in
    (if contextSwitchRequired : bool
     then taskYield;; mret retCode
     else mret retCode) k'.

(** ** semaphore/semaphore.c *)

Definition set_count (v : Z) (s : semaphoreHandleType) : semaphoreHandleType :=
  mkSemaphore v (maxCount s) (semWaitQueue s).

Definition set_semWaitQueue (v : taskQueueType) (s : semaphoreHandleType)
    : semaphoreHandleType :=
  mkSemaphore (count s) (maxCount s) v.

Definition updSemaphore (p : nat) (f : semaphoreHandleType -> semaphoreHandleType)
    (k : kernel) : kernel :=
  with_semaphores (<[p := f (semaphores k p)]> (semaphores k)) k.

Definition semaphoreTake (pSem : nat) (waitTicks : Z) : call retCodeType :=
  c ← gets (fun k => count (semaphores k pSem));
  if negb (c =? 0) then
    modify (updSemaphore pSem (set_count (c - 1)));;
    mret RET_SUCCESS
  else if waitTicks =? TASK_NO_WAIT then
    mret RET_BUSY
  else
    currentTask ← gets taskPool_currentTask;
    modify (fun k =>
      updSemaphore pSem
        (set_semWaitQueue
           (taskQueueAdd (tcb k) (semWaitQueue (semaphores k pSem)) currentTask)) k);;
    taskBlock currentTask WAIT_FOR_SEMAPHORE waitTicks;;
    reason ← gets (fun k => wakeupReason (tcb k currentTask));
    if decide (reason = SEMAPHORE_TAKEN) then mret RET_SUCCESS else mret RET_TIMEOUT.

Definition semaphoreGive (pSem : nat) (k : kernel) : kernel * retCodeType :=
  if negb (count (semaphores k pSem) =? maxCount (semaphores k pSem)) then
    let (nextTask, q) := taskQueueGet (semWaitQueue (semaphores k pSem)) in
    let k1 := updSemaphore pSem (set_semWaitQueue q) k in
    match nextTask with
    | Some next => (taskSetReady next SEMAPHORE_TAKEN k1, RET_SUCCESS)
    | None =>
        (updSemaphore pSem (set_count (count (semaphores k1 pSem) + 1)) k1,
         RET_SUCCESS)
    end
  else (k, RET_NOSEM).

(** ** conditionVariable/conditionVariable.c *)

Definition set_condVarWaitQueue (v : taskQueueType) (c : condVarHandleType)
    : condVarHandleType :=
  mkCondVar (pMutex c) v.

Definition updCondVar (p : nat) (f : condVarHandleType -> condVarHandleType)
    (k : kernel) : kernel :=
  with_condVars (<[p := f (condVars k p)]> (condVars k)) k.

(** The two calls on [pCondVar->pMutex] read the field when they are
    made; both callees start with [assert(pMutex != NULL)]. *)
Definition condVarMutex (pCondVar : nat) (f : nat -> call retCodeType)
    : call unit :=
  m ← gets (fun k => pMutex (condVars k pCondVar));
  match m with
  | Some p => f p;; mret tt
  | None => halt
  end.

Definition condVarWait (MUTEX_USE_PRIORITY_INHERITANCE : bool)
    (pCondVar : nat) (waitTicks : Z) : call bool :=
  m ← gets (fun k => pMutex (condVars k pCondVar));
  if negb (bool_decide (is_Some m)) then mret false
  else
    condVarMutex pCondVar (mutexUnlock MUTEX_USE_PRIORITY_INHERITANCE);;
    currentTask ← gets taskPool_currentTask;
    modify (fun k =>
      updCondVar pCondVar
        (set_condVarWaitQueue
           (taskQueueAdd (tcb k) (condVarWaitQueue (condVars k pCondVar)) currentTask)) k);;
    taskBlock currentTask WAIT_FOR_COND_VAR waitTicks;;
    condVarMutex pCondVar
      (fun p => mutexLock MUTEX_USE_PRIORITY_INHERITANCE p TASK_MAX_WAIT);;
    reason ← gets (fun k => wakeupReason (tcb k currentTask));
    if decide (reason = WAIT_TIMEOUT) then mret false else mret true.

Definition condVarSignal (pCondVar : nat) (k : kernel) : kernel * bool :=
  let (nextSignalTask, q) := taskQueueGet (condVarWaitQueue (condVars k pCondVar)) in
  let k1 := updCondVar pCondVar (set_condVarWaitQueue q) k in
  match nextSignalTask with
  | Some t => (taskSetReady t COND_VAR_SIGNALLED k1, true)
  | None => (k1, false)
  end.

(** ** messageQueue/messageQueue.c *)

Definition updMsgQueue (p : nat) (f : msgQueueHandleType -> msgQueueHandleType)
    (k : kernel) : kernel :=
  with_msgQueues (<[p := f (msgQueues k p)]> (msgQueues k)) k.

Definition set_buffer (v : list Byte.byte) (q : msgQueueHandleType) : msgQueueHandleType :=
  mkMsgQueue v (queueLength q) (itemSize q) (itemCount q) (readIndex q)
             (writeIndex q) (producerWaitQueue q) (consumerWaitQueue q).

Definition set_itemCount (v : nat) (q : msgQueueHandleType) : msgQueueHandleType :=
  mkMsgQueue (buffer q) (queueLength q) (itemSize q) v (readIndex q)
             (writeIndex q) (producerWaitQueue q) (consumerWaitQueue q).

Definition set_readIndex (v : nat) (q : msgQueueHandleType) : msgQueueHandleType :=
  mkMsgQueue (buffer q) (queueLength q) (itemSize q) (itemCount q) v
             (writeIndex q) (producerWaitQueue q) (consumerWaitQueue q).

Definition set_writeIndex (v : nat) (q : msgQueueHandleType) : msgQueueHandleType :=
  mkMsgQueue (buffer q) (queueLength q) (itemSize q) (itemCount q) (readIndex q)
             v (producerWaitQueue q) (consumerWaitQueue q).

Definition set_producerWaitQueue (v : taskQueueType) (q : msgQueueHandleType)
    : msgQueueHandleType :=
  mkMsgQueue (buffer q) (queueLength q) (itemSize q) (itemCount q) (readIndex q)
             (writeIndex q) v (consumerWaitQueue q).

Definition set_consumerWaitQueue (v : taskQueueType) (q : msgQueueHandleType)
    : msgQueueHandleType :=
  mkMsgQueue (buffer q) (queueLength q) (itemSize q) (itemCount q) (readIndex q)
             (writeIndex q) (producerWaitQueue q) v.

(** Modelled from the spec: messageQueue.h is missing.  "0 <= itemCount <=
    queueLength": the queue is full when the count has reached the length. *)
Definition msgQueueFull (q : msgQueueHandleType) : bool :=
  (itemCount q =? queueLength q)%nat.

(** Modelled from the spec: messageQueue.h is missing.  The queue is empty
    when it holds no item. *)
Definition msgQueueEmpty (q : msgQueueHandleType) : bool :=
  (itemCount q =? 0)%nat.

(** [memcpy(&buffer[i], pItem, n)]: the first [n] bytes at [pItem] replace
    the bytes of the buffer from index [i] on. *)
Definition memcpy_to (buf : list Byte.byte) (i : nat) (item : list Byte.byte)
    (n : nat) : list Byte.byte :=
  list_inserts i (take n item) buf.

(** [memcpy(pItem, &buffer[i], n)]: the bytes that arrive at [pItem]. *)
Definition memcpy_from (buf : list Byte.byte) (i n : nat) : list Byte.byte :=
  take n (drop i buf).

Definition msgQueueBufferWrite (pQueueHandle : nat) (pItem : list Byte.byte)
    (k : kernel) : kernel :=
  let k1 :=
    updMsgQueue pQueueHandle
      (fun q => set_buffer (memcpy_to (buffer q) (writeIndex q) pItem (itemSize q)) q) k in
  let k2 :=
    updMsgQueue pQueueHandle
      (fun q => set_writeIndex
                  ((writeIndex q + itemSize q) mod (queueLength q * itemSize q))%nat q) k1 in
  let k3 := updMsgQueue pQueueHandle (fun q => set_itemCount (itemCount q + 1)%nat q) k2 in
  let (consumer, cq) := taskQueueGet (consumerWaitQueue (msgQueues k3 pQueueHandle)) in
  let k4 := updMsgQueue pQueueHandle (set_consumerWaitQueue cq) k3 in
  match consumer with
  | Some c => taskSetReady c MSG_QUEUE_DATA_AVAILABLE k4
  | None => k4
  end.

Definition msgQueueBufferRead (pQueueHandle : nat) (k : kernel)
    : kernel * list Byte.byte :=
  let q0 := msgQueues k pQueueHandle in
  let item := memcpy_from (buffer q0) (readIndex q0) (itemSize q0) in
  let k2 :=
    updMsgQueue pQueueHandle
      (fun q => set_readIndex
                  ((readIndex q + itemSize q) mod (queueLength q * itemSize q))%nat q) k in
  let k3 := updMsgQueue pQueueHandle (fun q => set_itemCount (itemCount q - 1)%nat q) k2 in
  let (producer, pq) := taskQueueGet (producerWaitQueue (msgQueues k3 pQueueHandle)) in
  let k4 := updMsgQueue pQueueHandle (set_producerWaitQueue pq) k3 in
  match producer with
  | Some p => (taskSetReady p MSG_QUEUE_SPACE_AVAILABE k4, item)
  | None => (k4, item)
  end.

Definition msgQueueSend (pQueueHandle : option nat) (pItem : list Byte.byte)
    (waitTicks : Z) : call retCodeType :=
  match pQueueHandle with
  | Some p =>
      full ← gets (fun k => msgQueueFull (msgQueues k p));
      if negb full then
        modify (msgQueueBufferWrite p pItem);;
        mret SUCCESS
      else if waitTicks =? TASK_NO_WAIT then
        mret neg_ENOSPACE
      else
        currentTask ← gets taskPool_currentTask;
        modify (fun k =>
          updMsgQueue p
            (fun q => set_producerWaitQueue
                        (taskQueueAdd (tcb k) (producerWaitQueue q) currentTask) q) k);;
        taskBlock currentTask WAIT_FOR_MSG_QUEUE_SPACE waitTicks;;
        k ← gets id;
        if bool_decide (wakeupReason (tcb k currentTask) = MSG_QUEUE_SPACE_AVAILABE)
           && negb (msgQueueFull (msgQueues k p))
        then
          modify (msgQueueBufferWrite p pItem);;
          mret SUCCESS
        else mret neg_ETIMEOUT
  | None => mret neg_EINVAL
  end.

(** The second component is what the call has stored at [pItem], if it has
    stored anything. *)
Definition msgQueueReceive (pQueueHandle : option nat) (waitTicks : Z)
    : call (retCodeType * option (list Byte.byte)) :=
  match pQueueHandle with
  | Some p =>
      empty ← gets (fun k => msgQueueEmpty (msgQueues k p));
      if negb empty then
        item ← lift (msgQueueBufferRead p);
        mret (SUCCESS, Some item)
      else if waitTicks =? TASK_NO_WAIT then
        mret (neg_ENODATA, None)
      else
        currentTask ← gets taskPool_currentTask;
        modify (fun k =>
          updMsgQueue p
            (fun q => set_consumerWaitQueue
                        (taskQueueAdd (tcb k) (consumerWaitQueue q) currentTask) q) k);;
        taskBlock currentTask WAIT_FOR_MSG_QUEUE_DATA waitTicks;;
        k ← gets id;
        if bool_decide (wakeupReason (tcb k currentTask) = MSG_QUEUE_DATA_AVAILABLE)
           && negb (msgQueueEmpty (msgQueues k p))
        then
          item ← lift (msgQueueBufferRead p);
          mret (SUCCESS, Some item)
        else mret (neg_ETIMEOUT, None)
  | None => mret (neg_EINVAL, None)
  end.



(** The call returns [r]: at once, or, when it has given the processor
    away, as soon as it is resumed and without changing the state then. *)
Definition returns {R : Type} (out : kernel * res R) (r : R) : Prop :=
  match snd out with
  | Returned r' => r' = r
  | Suspended c => forall e : kernel, c e = (e, Returned r)
  | Halted => False
  end.

(** ** A small system

    Five statically defined tasks: the timer task, the idle task, and three
    application tasks [taskL], [taskH], [taskM] of priorities 200, 100 and
    150 (scenario 3 of the testable properties).  The timer task waits for
    a timer, [taskL] runs, the idle task is ready. *)

(** [TASK_DEFINE(name, stackSize, taskEntryFunction, taskParams, taskPriority)] *)
Definition TASK_DEFINE (stackPointer : Z) (taskEntryFunction taskParams : nat)
    (taskPriority : Z) : taskHandleType :=
  mkTask stackPointer taskEntryFunction taskParams 0 TASK_STATUS_READY
         BLOCK_REASON_NONE WAKEUP_REASON_NONE taskPriority.

Definition taskL : taskId := 2%nat.
Definition taskH : taskId := 3%nat.
Definition taskM : taskId := 4%nat.

Definition exampleTcb (t : taskId) : taskHandleType :=
  match t with
  | 0%nat => set_blockedReason WAIT_FOR_TIMER_TIMEOUT
               (set_status TASK_STATUS_BLOCKED
                  (TASK_DEFINE 0 0 0 TASK_HIGHEST_PRIORITY))
  | 1%nat => TASK_DEFINE 0 1 0 TASK_LOWEST_PRIORITY
  | 2%nat => set_status TASK_STATUS_RUNNING (TASK_DEFINE 0 2 0 200)
  | 3%nat => TASK_DEFINE 0 3 0 100
  | _ => TASK_DEFINE 0 4 0 150
  end.

Definition zeroBuffer (n : nat) : list Byte.byte := replicate n Byte.x00.

Definition exampleKernel : kernel :=
  mkKernel exampleTcb [idleTask] [timerTask] taskL (Some taskL) (Some taskL) false
           (fun _ => mkMutex false None (-1) [])
           (fun _ => mkSemaphore 0 1 [])
           (fun _ => mkCondVar (Some 0%nat) [])
           (fun _ => mkMsgQueue (zeroBuffer 6) 3 2 0 0 0 [] [])
           (fun i => mkTimer i 0 0
                       (if decide (i = 0%nat) then TIMER_MODE_SINGLE_SHOT
                        else TIMER_MODE_PERIODIC) false)
           [] [].

(** [taskL] has locked mutex 0; then [taskH] has become ready and has
    preempted it. *)
Definition kernelLheld : kernel := fst (mutexLock true 0 5 exampleKernel).

Definition kernelHruns : kernel :=
  scheduleNextTask (taskSetReady taskH RESUME kernelLheld).

(** The timer task waits without time-out, [taskH] sleeps for one more
    tick, [taskM] waits for a semaphore for three more ticks. *)
Definition kernelSleepers : kernel :=
  with_blockedQueue [timerTask; taskH; taskM]
    (updTask taskH
       (fun x => set_remainingSleepTicks 1
                   (set_blockedReason SLEEP (set_status TASK_STATUS_BLOCKED x)))
       (updTask taskM
          (fun x => set_remainingSleepTicks 3
                      (set_blockedReason WAIT_FOR_SEMAPHORE
                         (set_status TASK_STATUS_BLOCKED x)))
          exampleKernel)).

(** Timer 0 (single shot) and timer 5 (periodic, every 4 ticks) expire at
    the next tick, timer 7 has 3 ticks left. *)
Definition kernelTimers : kernel :=
  with_timerList [7%nat; 0%nat; 5%nat]
    (updTimer 7 (fun x => set_isRunning true (set_ticksToExpire 3 (set_intervalTicks 9 x)))
       (updTimer 0 (fun x => set_isRunning true (set_ticksToExpire 1 (set_intervalTicks 6 x)))
          (updTimer 5 (fun x => set_isRunning true (set_ticksToExpire 1 (set_intervalTicks 4 x)))
             exampleKernel))).

(** The item in slot [i] of the buffer of a message queue. *)
Definition msgQueueSlot (q : msgQueueHandleType) (i : nat) : list Byte.byte :=
  memcpy_from (buffer q) (i * itemSize q) (itemSize q).

(** The items a message queue holds, oldest first, when its read index is
    at slot [r] and it holds [c] items. *)
Definition msgQueueItems (q : msgQueueHandleType) (r c : nat)
    : list (list Byte.byte) :=
  List.map (fun j => msgQueueSlot q ((r + j) mod queueLength q)%nat) (seq 0 c).

(** The fields of a message queue fit together: the buffer has
    [queueLength * itemSize] bytes, the read index is at slot [r], the queue
    holds [c] items and the write index is [c] slots further, cyclically. *)
Definition msgQueueAt (q : msgQueueHandleType) (r c : nat) : Prop :=
  (0 < itemSize q)%nat /\ (0 < queueLength q)%nat /\
  length (buffer q) = (queueLength q * itemSize q)%nat /\
  (r < queueLength q)%nat /\ (c <= queueLength q)%nat /\
  readIndex q = (r * itemSize q)%nat /\
  itemCount q = c /\
  writeIndex q = (((r + c) mod queueLength q) * itemSize q)%nat.

(** Message queue 0 (three items of two bytes) is empty, with both indices
    at its last slot. *)
Definition kernelMsgQueue : kernel :=
  updMsgQueue 0 (fun q => set_writeIndex 4 (set_readIndex 4 q)) exampleKernel.


(** The state a call leaves behind, returned or suspended, once it has
    been resumed on each state of [resumes] in turn. *)
Fixpoint stateLeft {R : Type} (c : call R) (k : kernel) (resumes : list kernel)
    : kernel :=
  match resumes with
  | [] => fst (c k)
  | e :: rest =>
      match snd (c k) with
      | Suspended c' => stateLeft c' e rest
      | _ => fst (c k)
      end
  end.

(** A wait on condition variable 0 that times out while the mutex is
    taken.  [taskH] preempts [taskL], locks mutex 0 and waits on the
    condition variable for at most two ticks; [taskL] runs and locks the
    mutex; two ticks pass and [taskH] is woken by the time-out; it blocks
    again on the mutex; [taskL] unlocks the mutex. *)
Definition cvHruns : kernel :=
  scheduleNextTask (taskSetReady taskH RESUME exampleKernel).

Definition cvHlocked : kernel := fst (mutexLock true 0 TASK_MAX_WAIT cvHruns).

Definition cvHwaits : kernel := stateLeft (condVarWait true 0 2) cvHlocked [].

Definition cvLlocked : kernel := fst (mutexLock true 0 TASK_NO_WAIT cvHwaits).

Definition cvTimedOut : kernel := SYSTICK_HANDLER (SYSTICK_HANDLER cvLlocked).

Definition cvHblocked : kernel :=
  stateLeft (condVarWait true 0 2) cvHlocked [cvTimedOut].

Definition cvLunlocked : kernel := fst (mutexUnlock true 0 cvHblocked).

(** ** The rest of the kernel *)

(** "locked <=> ownerTask != none" *)
Definition mutexInv (m : mutexHandleType) : Prop :=
  locked m = true <-> ownerTask m <> None.

(** The mutex as [MUTEX_DEFINE] leaves it: free, not boosted, nobody waiting. *)
Definition mutexFree (m : mutexHandleType) : Prop :=
  locked m = false /\ ownerTask m = None /\
  ownerDefaultPriority m = -1 /\ waitQueue m = [].

(** The loop of [condVarBroadcast]: a turn pops the head of the wait queue
    and stops on [NULL]; [fuel] bounds the number of turns. *)
Fixpoint condVarBroadcastLoop (fuel : nat) (pCondVar : nat) (k : kernel) : kernel :=
  match fuel with
  | O => k
  | S fuel' =>
      let (pTask, q) := taskQueueGet (condVarWaitQueue (condVars k pCondVar)) in
      match pTask with
      | Some t =>
          let k1 := updCondVar pCondVar (set_condVarWaitQueue q) k in
          let k2 :=
            if decide (status (tcb k1 t) <> TASK_STATUS_SUSPENDED)
            then taskSetReady t COND_VAR_SIGNALLED k1
            else k1 in
          condVarBroadcastLoop fuel' pCondVar k2
      | None => k
      end
  end.

(** Every turn of the loop unlinks a node, so the length of the wait queue
    is fuel enough. *)
Definition condVarBroadcast (pCondVar : nat) (k : kernel) : kernel * bool :=
  if negb (taskQueueEmpty (condVarWaitQueue (condVars k pCondVar))) then
    (condVarBroadcastLoop (length (condVarWaitQueue (condVars k pCondVar)))
                          pCondVar k, true)
  else (k, false).

(** Task [t] is READY in the ready queue with wake-up reason [wr]. *)
Definition wokenBy (wr : wakeupReasonType) (k : kernel) (t : taskId) : Prop :=
  status (tcb k t) = TASK_STATUS_READY /\
  wakeupReason (tcb k t) = wr /\
  In t (readyQueue k).

(** [taskH] and [taskM] wait on condition variable 0; [taskM] has been
    suspended meanwhile. *)
Definition kernelWaiters : kernel :=
  updCondVar 0 (set_condVarWaitQueue [taskH; taskM])
    (updTask taskH (set_status TASK_STATUS_BLOCKED)
       (updTask taskM (set_status TASK_STATUS_SUSPENDED) exampleKernel)).

(** What [condVarWait] does once [taskBlock] has returned. *)
Definition condVarWaitWoken (MUTEX_USE_PRIORITY_INHERITANCE : bool)
    (pCondVar : nat) (currentTask : taskId) : call bool :=
  condVarMutex pCondVar
    (fun p => mutexLock MUTEX_USE_PRIORITY_INHERITANCE p TASK_MAX_WAIT);;
  reason ← gets (fun k => wakeupReason (tcb k currentTask));
  if decide (reason = WAIT_TIMEOUT) then mret false else mret true.

(** Continuing from [cvHwaits]: [taskL] signals condition variable 0 and
    the next tick lets [taskH] run. *)
Definition cvSignalled : kernel :=
  SYSTICK_HANDLER (fst (condVarSignal 0 cvHwaits)).

(** The call has given the processor away. *)
Definition isSuspended {R : Type} (r : res R) : bool :=
  match r with Suspended _ => true | _ => false end.

(** What [msgQueueSend] does once [taskBlock] has returned. *)
Definition msgQueueSendWoken (p : nat) (pItem : list Byte.byte)
    (currentTask : taskId) : call retCodeType :=
  k ← gets id;
  if bool_decide (wakeupReason (tcb k currentTask) = MSG_QUEUE_SPACE_AVAILABE)
     && negb (msgQueueFull (msgQueues k p))
  then
    modify (msgQueueBufferWrite p pItem);;
    mret SUCCESS
  else mret neg_ETIMEOUT.

(** What [msgQueueReceive] does once [taskBlock] has returned. *)
Definition msgQueueReceiveWoken (p : nat) (currentTask : taskId)
    : call (retCodeType * option (list Byte.byte)) :=
  k ← gets id;
  if bool_decide (wakeupReason (tcb k currentTask) = MSG_QUEUE_DATA_AVAILABLE)
     && negb (msgQueueEmpty (msgQueues k p))
  then
    item ← lift (msgQueueBufferRead p);
    mret (SUCCESS, Some item)
  else mret (neg_ETIMEOUT, None).

(** Message queue 0 holding three items: full. *)
Definition kernelMsgQueueFull : kernel :=
  msgQueueBufferWrite 0 [Byte.x05; Byte.x06]
    (msgQueueBufferWrite 0 [Byte.x03; Byte.x04]
       (msgQueueBufferWrite 0 [Byte.x01; Byte.x02] kernelMsgQueue)).

(** [taskL] has called [msgQueueReceive] on the empty message queue 0 with
    a wait of five ticks, and waits. *)
Definition kernelMsgQueueWait : kernel :=
  fst (msgQueueReceive (Some 0%nat) 5 kernelMsgQueue).

(** [taskL] has called [msgQueueSend] on the full message queue 0 with a
    wait of five ticks, and waits. *)
Definition kernelMsgQueueFullWait : kernel :=
  fst (msgQueueSend (Some 0%nat) [Byte.x07; Byte.x08] 5 kernelMsgQueueFull).

(** The running timers are the timers of [timerList], each linked once. *)
Definition timerInv (k : kernel) : Prop :=
  NoDup (timerList k) /\
  forall p : nat, In p (timerList k) <-> isRunning (timers k p) = true.

(** The timers among [nodes] that expire at this tick. *)
Definition expiredTimers (tm : nat -> timerNodeType) (nodes : list nat)
    : list nat :=
  List.filter (fun p => ticksLeft (tm p) =? 0) nodes.

(** The ticks that pass before a timer started with [n] ticks expires: one
    tick is taken off at each call of [processTimers] while any is left. *)
Definition ticksBefore (n : Z) : nat := Z.to_nat (Z.max n 1 - 1).

(** Three timers started one after the other. *)
Definition kernelTimersStarted : kernel :=
  timerStart 7 9 (timerStart 0 6 (timerStart 5 4 exampleKernel)).

(** The kernel after [j] calls of [processTimers]. *)
Definition ticksPassed (j : nat) (k : kernel) : kernel :=
  Nat.iter j processTimers k.

(** The queue is in the order in which [taskQueueAdd] keeps it: no task
    is ahead of a task of numerically lower priority. *)
Fixpoint prioSorted (f : taskId -> taskHandleType) (q : taskQueueType) : Prop :=
  match q with
  | [] => True
  | h :: q' =>
      (forall u, In u q' -> priority (f h) <= priority (f u)) /\ prioSorted f q'
  end.

(** The first task of [ring] runs; the others follow it in the ready
    queue, READY; all of them have priority [P], and the tasks of [low],
    which end the ready queue, have numerically greater priorities. *)
Definition roundRobin (ring : list taskId) (low : taskQueueType) (P : Z)
    (k : kernel) : Prop :=
  match ring with
  | [] => False
  | c :: r =>
      taskPool_currentTask k = c /\
      readyQueue k = r ++ low /\
      status (tcb k c) = TASK_STATUS_RUNNING /\
      (forall t, In t r -> status (tcb k t) = TASK_STATUS_READY)
  end /\
  NoDup ring /\
  (forall t, In t ring -> priority (tcb k t) = P) /\
  (forall t, In t low -> P < priority (tcb k t)).

(** The kernel after the running tasks have called [taskYield] [n] times
    in turn. *)
Definition yields (n : nat) (k : kernel) : kernel :=
  Nat.iter n (fun k' => fst (taskYield k')) k.

(** Four tasks of priority 150 share the processor; [idleTask] is ready
    behind them. *)
Definition kernelRoundRobin : kernel :=
  with_taskPool_currentTask 4%nat
    (with_readyQueue [5%nat; 6%nat; 7%nat; idleTask]
       (updTask 4%nat (set_status TASK_STATUS_RUNNING)
          (updTask taskL (set_status TASK_STATUS_SUSPENDED) exampleKernel))).

(** The two kernel states agree on the TCBs, the ready and blocked queues,
    the current task and the semaphores. *)
Definition sameTasks (k k' : kernel) : Prop :=
  tcb k' = tcb k /\
  readyQueue k' = readyQueue k /\
  blockedQueue k' = blockedQueue k /\
  taskPool_currentTask k' = taskPool_currentTask k /\
  semaphores k' = semaphores k.

(** Task [t] waits on the blocked-timeout list, which links each task
    once; it is neither the current task nor in the ready queue, and it is
    not the timer task. *)
Definition waitsBlocked (t : taskId) (k : kernel) : Prop :=
  NoDup (blockedQueue k) /\
  In t (blockedQueue k) /\
  ~ In t (readyQueue k) /\
  taskPool_currentTask k <> t /\
  t <> timerTask.

(** The kernel after [j] tick interrupts. *)
Definition systicks (j : nat) (k : kernel) : kernel :=
  Nat.iter j SYSTICK_HANDLER k.

(** ** Starting the scheduler *)

(** Modelled from the spec: task.c is missing.  "taskStart(t): set status
    READY, insert in ready queue." *)
Definition taskStart (t : taskId) (k : kernel) : kernel :=
  let k1 := updTask t (set_status TASK_STATUS_READY) k in
  with_readyQueue (taskQueueAdd (tcb k1) (readyQueue k1) t) k1.

Definition timerTaskStart (k : kernel) : kernel := taskStart timerTask k.

(** [schedulerStart] up to the call of the entry function of the first
    task.  The set-up of PendSV, SysTick, PSP and CONTROL is outside the
    kernel state.  [None] is the dereference of the [NULL] that
    [taskQueueGet] gives on an empty queue. *)
Definition schedulerStart (k : kernel) : option kernel :=
  let k1 := timerTaskStart k in
  let k2 := taskStart idleTask k1 in
  match taskQueueGet (readyQueue k2) with
  | (Some first, q) =>
      let k3 := with_readyQueue q k2 in
      let k4 := with_taskPool_currentTask first (with_currentTask (Some first) k3) in
      Some (updTask first (set_status TASK_STATUS_RUNNING) k4)
  | (None, _) => None
  end.

(** [taskL] holds mutex 0, [taskH] has preempted it and runs, and [taskM],
    of a priority between the two, has become ready ahead of [taskL]. *)
Definition kernelInversion : kernel := taskSetReady taskM RESUME kernelHruns.

(** The tasks [ws] have been woken, one after the other, between the two
    kernel states: each has been taken off the blocked-timeout list and off
    the wait queue of semaphore [p], and nothing else has happened to
    either. *)
Definition wokenBetween (p : nat) (ws : list taskId) (k k' : kernel) : Prop :=
  blockedQueue k' = fold_left taskQueueRemove ws (blockedQueue k) /\
  semaphores k' p
  = fold_left (fun s t => semaphoreUnwait t s) ws (semaphores k p).

(** Tasks wait for a semaphore only while it has no unit. *)
Definition semaphoreInv (s : semaphoreHandleType) : Prop :=
  count s <> 0 -> semWaitQueue s = [].

(** *** [semaphoreTake] in two parts

    [semaphoreTake] has no critical section: the tick interrupt can be
    taken between the test of [pSem->count] and what the call does next.
    The two parts of the call: the test, and the rest of the call for
    either outcome of the test.  [pSem->count--] reads the count where it
    stands when the statement is run. *)
Definition semaphoreTakeTest (pSem : nat) (k : kernel) : bool :=
  negb (count (semaphores k pSem) =? 0).

Definition semaphoreTakeRest (pSem : nat) (waitTicks : Z) (unitSeen : bool)
    : call retCodeType :=
  if unitSeen then
    c ← gets (fun k => count (semaphores k pSem));
    modify (updSemaphore pSem (set_count (c - 1)));;
    mret RET_SUCCESS
  else if waitTicks =? TASK_NO_WAIT then
    mret RET_BUSY
  else
    currentTask ← gets taskPool_currentTask;
    modify (fun k =>
      updSemaphore pSem
        (set_semWaitQueue
           (taskQueueAdd (tcb k) (semWaitQueue (semaphores k pSem)) currentTask)) k);;
    taskBlock currentTask WAIT_FOR_SEMAPHORE waitTicks;;
    reason ← gets (fun k => wakeupReason (tcb k currentTask));
    if decide (reason = SEMAPHORE_TAKEN) then mret RET_SUCCESS else mret RET_TIMEOUT.

(** Two tasks of priority 150, one running and one ready, and the idle
    task. *)
Definition kernelTwoTasks : kernel :=
  with_taskPool_currentTask 4%nat
    (with_readyQueue [5%nat; idleTask]
       (updTask 4%nat (set_status TASK_STATUS_RUNNING)
          (updTask taskL (set_status TASK_STATUS_SUSPENDED) exampleKernel))).

(** * Properties *)

(** ** Stores *)

Lemma updTask_tcb_eq (t : taskId) (f : taskHandleType -> taskHandleType) (k : kernel) :
  tcb (updTask t f k) t = f (tcb k t).
Proof. unfold updTask; simpl. apply fn_lookup_insert. Qed.

Lemma updTask_tcb_ne (t u : taskId) (f : taskHandleType -> taskHandleType) (k : kernel) :
  t ≠ u -> tcb (updTask t f k) u = tcb k u.
Proof. intros Hne. unfold updTask; simpl. by apply fn_lookup_insert_ne. Qed.

Lemma updTask_priority (t u : taskId) (f : taskHandleType -> taskHandleType) (k : kernel) :
  (forall x, priority (f x) = priority x) ->
  priority (tcb (updTask t f k) u) = priority (tcb k u).
Proof.
  intros Hf. destruct (decide (t = u)) as [->|Hne].
  - by rewrite updTask_tcb_eq.
  - by rewrite updTask_tcb_ne.
Qed.

(** ** Task queues *)

Lemma taskQueueAdd_ext (f g : taskId -> taskHandleType) (q : taskQueueType) (t : taskId) :
  (forall u, priority (f u) = priority (g u)) ->
  taskQueueAdd f q t = taskQueueAdd g q t.
Proof.
  intros Hfg. induction q as [|h q IH]; simpl; [done|].
  rewrite !Hfg, IH. done.
Qed.

Lemma taskQueueAdd_behind (f : taskId -> taskHandleType) (h : taskId)
    (q : taskQueueType) (t : taskId) :
  priority (f h) <= priority (f t) ->
  taskQueueAdd f (h :: q) t = h :: taskQueueAdd f q t.
Proof. intros Hle. simpl. by rewrite (proj2 (Z.leb_le _ _) Hle). Qed.

Lemma taskQueueAdd_In (f : taskId -> taskHandleType) (q : taskQueueType) (t u : taskId) :
  In u (taskQueueAdd f q t) <-> u = t \/ In u q.
Proof.
  induction q as [|h q IH]; simpl.
  - intuition.
  - destruct (priority (f h) <=? priority (f t)); simpl; rewrite ?IH; intuition.
Qed.

Lemma taskQueueAdd_middle (f : taskId -> taskHandleType) (r low : taskQueueType)
    (t : taskId) :
  (forall u, In u r -> priority (f u) <= priority (f t)) ->
  (forall u, In u low -> priority (f t) < priority (f u)) ->
  taskQueueAdd f (r ++ low) t = r ++ t :: low.
Proof.
  intros Hr Hlow. induction r as [|h r IH]; simpl.
  - destruct low as [|l low]; [done|]. simpl.
    by rewrite (proj2 (Z.leb_gt _ _) (Hlow l (or_introl eq_refl))).
  - rewrite (proj2 (Z.leb_le _ _) (Hr h (or_introl eq_refl))).
    f_equal. apply IH. intros u Hu. apply Hr. by right.
Qed.

(** ** The scheduling decision *)

(** C1.  [scheduleNextTask] on an empty ready queue changes nothing.  With
    [head] first in the ready queue: when the current task is RUNNING and
    [head] has the numerically greater priority, nothing changes either.
    Otherwise the current task, if it is RUNNING, becomes READY and is put
    back into the queue, [head] leaves the queue, becomes RUNNING and is
    [taskPool.currentTask], the outgoing and incoming tasks are recorded for
    the context-switch handler, and PendSV is pending. *)
Theorem scheduleNextTask_decision (k : kernel) :
  (readyQueue k = [] -> scheduleNextTask k = k) /\
  (forall (head : taskId) (q : taskQueueType),
     readyQueue k = head :: q ->
     let cur := taskPool_currentTask k in
     let running := bool_decide (status (tcb k cur) = TASK_STATUS_RUNNING) in
     (status (tcb k cur) = TASK_STATUS_RUNNING ->
      priority (tcb k head) > priority (tcb k cur) ->
      scheduleNextTask k = k) /\
     (~ (status (tcb k cur) = TASK_STATUS_RUNNING /\
         priority (tcb k head) > priority (tcb k cur)) ->
      let k' := scheduleNextTask k in
      readyQueue k' = (if running then taskQueueAdd (tcb k) q cur else q) /\
      (running -> cur <> head -> tcb k' cur = set_status TASK_STATUS_READY (tcb k cur)) /\
      taskPool_currentTask k' = head /\
      tcb k' head = set_status TASK_STATUS_RUNNING (tcb k head) /\
      (forall t, t <> head -> t <> cur -> tcb k' t = tcb k t) /\
      currentTask k' = Some cur /\
      nextTask k' = Some head /\
      pendSV k' = true /\
      blockedQueue k' = blockedQueue k)).
Proof.
  split.
  - intros Hq. unfold scheduleNextTask. by rewrite Hq.
  - intros head q Hq cur running. split.
    + intros Hrun Hprio. unfold scheduleNextTask, requeueCurrent.
      rewrite Hq; simpl. fold cur.
      rewrite decide_True by done.
      destruct (priority (tcb k head) <=? priority (tcb k cur)) eqn:E; [lia|done].
    + intros Hnot k'. subst k'. unfold scheduleNextTask, requeueCurrent.
      rewrite Hq; simpl. fold cur. subst running.
      destruct (decide (status (tcb k cur) = TASK_STATUS_RUNNING)) as [Hrun|Hrun].
      * rewrite bool_decide_eq_true_2 by done.
        destruct (priority (tcb k head) <=? priority (tcb k cur)) eqn:E;
          [|exfalso; apply Hnot; split; [done|lia]].
        assert (Hadd : taskQueueAdd (<[cur:=set_status TASK_STATUS_READY (tcb k cur)]> (tcb k))
                         (head :: q) cur = head :: taskQueueAdd (tcb k) q cur).
        { assert (Hp : forall u, priority ((<[cur:=set_status TASK_STATUS_READY (tcb k cur)]> (tcb k)) u)
                                 = priority (tcb k u)).
          { intros u. destruct (decide (cur = u)) as [->|Hne].
            - by rewrite fn_lookup_insert.
            - by rewrite fn_lookup_insert_ne. }
          rewrite taskQueueAdd_behind by (rewrite !Hp; lia).
          f_equal. by apply taskQueueAdd_ext. }
        simpl. rewrite Hq, Hadd. simpl.
        repeat split.
        -- intros _ Hne. rewrite fn_lookup_insert_ne by done.
           by rewrite fn_lookup_insert.
        -- destruct (decide (cur = head)) as [->|Hne].
           ++ by rewrite !fn_lookup_insert.
           ++ rewrite fn_lookup_insert. by rewrite fn_lookup_insert_ne.
        -- intros t Ht1 Ht2. by rewrite !fn_lookup_insert_ne.
      * rewrite bool_decide_eq_false_2 by done. simpl.
        rewrite Hq. simpl.
        repeat split; try done.
        -- by rewrite fn_lookup_insert.
        -- intros t Ht1 Ht2. by rewrite fn_lookup_insert_ne.
Qed.

Lemma scheduleNextTask_decision_witness :
  let k := taskSetReady taskH RESUME exampleKernel in
  readyQueue k = [taskH; idleTask] /\
  taskPool_currentTask (scheduleNextTask k) = taskH /\
  readyQueue (scheduleNextTask k) = [taskL; idleTask] /\
  pendSV (scheduleNextTask k) = true.
Proof.
  intros k.
  destruct (scheduleNextTask_decision k) as [_ H].
  destruct (H taskH [idleTask] eq_refl) as [_ H'].
  destruct H' as (Hq & _ & Hc & _ & _ & _ & _ & Hp & _).
  - vm_compute. intros [_ Hgt]. discriminate Hgt.
  - split; [reflexivity|]. split; [exact Hc|]. split; [exact Hq|exact Hp].
Defined.

(** ** Waking a task *)

Lemma taskQueueRemove_In (q : taskQueueType) (t u : taskId) :
  In u (taskQueueRemove q t) -> In u q.
Proof.
  induction q as [|h q IH]; simpl; [done|].
  destruct (decide (h = t)); simpl; intuition.
Qed.

Lemma taskQueueRemove_In_ne (q : taskQueueType) (t u : taskId) :
  u <> t -> In u q -> In u (taskQueueRemove q t).
Proof.
  intros Hne. induction q as [|h q IH]; simpl; [done|].
  destruct (decide (h = t)) as [->|]; simpl; intuition congruence.
Qed.

Lemma taskQueueRemove_NoDup_notin (q : taskQueueType) (t : taskId) :
  NoDup q -> ~ In t (taskQueueRemove q t).
Proof.
  induction 1 as [|h q Hh Hq IH]; simpl; [tauto|].
  destruct (decide (h = t)) as [->|Hne].
  - by rewrite <- list_elem_of_In.
  - simpl. intros [?|?]; [done|by apply IH].
Qed.

Lemma taskQueueRemove_notin (q : taskQueueType) (t : taskId) :
  ~ In t q -> taskQueueRemove q t = q.
Proof.
  induction q as [|h q IH]; simpl; [done|].
  intros Hn. destruct (decide (h = t)) as [->|Hne]; [tauto|].
  f_equal. apply IH. tauto.
Qed.

Section taskSetReady_facts.
Variables (t : taskId) (wr : wakeupReasonType) (k : kernel).

Lemma taskSetReady_tcb_eq :
    tcb (taskSetReady t wr k) t
    = set_wakeupReason wr
        (set_status TASK_STATUS_READY (set_remainingSleepTicks 0 (tcb k t))).
  Proof.
    unfold taskSetReady, updTask, waitQueuesRemove; simpl.
    by rewrite !fn_lookup_insert.
  Qed.

Lemma taskSetReady_tcb_ne (u : taskId) :
    u <> t -> tcb (taskSetReady t wr k) u = tcb k u.
  Proof.
    intros Hne. unfold taskSetReady, updTask, waitQueuesRemove; simpl.
    by rewrite !fn_lookup_insert_ne.
  Qed.

Lemma taskSetReady_priority (u : taskId) :
    priority (tcb (taskSetReady t wr k) u) = priority (tcb k u).
  Proof.
    destruct (decide (u = t)) as [->|Hne].
    - by rewrite taskSetReady_tcb_eq.
    - by rewrite taskSetReady_tcb_ne.
  Qed.

Lemma taskSetReady_readyQueue :
    readyQueue (taskSetReady t wr k) = taskQueueAdd (tcb k) (readyQueue k) t.
  Proof.
    unfold taskSetReady; simpl. apply taskQueueAdd_ext. intros u.
    destruct (decide (t = u)) as [->|Hne].
    - by rewrite !fn_lookup_insert.
    - by rewrite !fn_lookup_insert_ne.
  Qed.

Lemma taskSetReady_ready : In t (readyQueue (taskSetReady t wr k)).
  Proof. rewrite taskSetReady_readyQueue, taskQueueAdd_In. by left. Qed.

Lemma taskSetReady_blockedQueue :
    blockedQueue (taskSetReady t wr k) = taskQueueRemove (blockedQueue k) t.
  Proof. reflexivity. Qed.

Lemma taskSetReady_mutexes (p : nat) :
    mutexes (taskSetReady t wr k) p = mutexUnwait t (mutexes k p).
  Proof. reflexivity. Qed.

Lemma taskSetReady_semaphores (p : nat) :
    semaphores (taskSetReady t wr k) p = semaphoreUnwait t (semaphores k p).
  Proof. reflexivity. Qed.

Lemma taskSetReady_msgQueues (p : nat) :
    msgQueues (taskSetReady t wr k) p = msgQueueUnwait t (msgQueues k p).
  Proof. reflexivity. Qed.

Lemma taskSetReady_timers : timers (taskSetReady t wr k) = timers k.
  Proof. reflexivity. Qed.

Lemma taskSetReady_timerList : timerList (taskSetReady t wr k) = timerList k.
  Proof. reflexivity. Qed.

Lemma taskSetReady_timeoutHandlerQueue :
    timeoutHandlerQueue (taskSetReady t wr k) = timeoutHandlerQueue k.
  Proof. reflexivity. Qed.
End taskSetReady_facts.

#[local] Arguments taskSetReady : simpl never.
#[local] Arguments scheduleNextTask : simpl never.
#[local] Arguments mutexRestore : simpl never.
#[local] Arguments mutexInherit : simpl never.

(** The scheduler changes the status of tasks and the ready queue, and
    nothing of a task's priority, of its wake-up reason or of a primitive. *)
Lemma scheduleNextTask_frame (k : kernel) :
  mutexes (scheduleNextTask k) = mutexes k /\
  (forall t, priority (tcb (scheduleNextTask k) t) = priority (tcb k t)) /\
  (forall t, wakeupReason (tcb (scheduleNextTask k) t) = wakeupReason (tcb k t)).
Proof.
  unfold scheduleNextTask, requeueCurrent.
  destruct (readyQueue k) as [|h q] eqn:Hq; simpl; [done|].
  set (cur := taskPool_currentTask k).
  assert (Hupd : forall (f : taskId -> taskHandleType) a s u,
             priority ((<[a := set_status s (f a)]> f) u) = priority (f u) /\
             wakeupReason ((<[a := set_status s (f a)]> f) u) = wakeupReason (f u)).
  { intros f a s u. destruct (decide (a = u)) as [->|Hne].
    - by rewrite fn_lookup_insert.
    - by rewrite fn_lookup_insert_ne. }
  destruct (decide (status (tcb k cur) = TASK_STATUS_RUNNING)).
  - destruct (priority (tcb k h) <=? priority (tcb k cur)); [|done].
    simpl.
    destruct (taskQueueGet _) as [[next|] q']; simpl.
    + split; [done|].
      split; intros u.
      * rewrite (proj1 (Hupd _ _ _ _)). unfold with_readyQueue; simpl.
        apply (proj1 (Hupd _ _ _ _)).
      * rewrite (proj2 (Hupd _ _ _ _)). unfold with_readyQueue; simpl.
        apply (proj2 (Hupd _ _ _ _)).
    + split; [done|]. split; intros u; apply Hupd.
  - simpl. rewrite Hq. simpl. split; [done|].
    split; intros u; apply Hupd.
Qed.

(** The three ways through [scheduleNextTask]. *)
Lemma scheduleNextTask_stay (k : kernel) :
  readyQueue k = [] \/
  (status (tcb k (taskPool_currentTask k)) = TASK_STATUS_RUNNING /\
   exists h q, readyQueue k = h :: q /\
               priority (tcb k (taskPool_currentTask k)) < priority (tcb k h)) ->
  scheduleNextTask k = k.
Proof.
  unfold scheduleNextTask, requeueCurrent.
  intros [Hq|(Hrun & h & q & Hq & Hlt)]; rewrite Hq; cbn; [done|].
  rewrite decide_True by done.
  by rewrite (proj2 (Z.leb_gt _ _) Hlt).
Qed.

Lemma scheduleNextTask_switch (k : kernel) (h : taskId) (q : taskQueueType) :
  let cur := taskPool_currentTask k in
  readyQueue k = h :: q ->
  status (tcb k cur) = TASK_STATUS_RUNNING ->
  priority (tcb k h) <= priority (tcb k cur) ->
  let k' := scheduleNextTask k in
  readyQueue k' = taskQueueAdd (tcb k) q cur /\
  taskPool_currentTask k' = h /\
  (forall t, tcb k' t
             = if decide (t = h) then set_status TASK_STATUS_RUNNING (tcb k t)
               else if decide (t = cur) then set_status TASK_STATUS_READY (tcb k t)
               else tcb k t) /\
  blockedQueue k' = blockedQueue k.
Proof.
  intros cur Hq Hrun Hle k'. subst k'.
  unfold scheduleNextTask, requeueCurrent. rewrite Hq. cbn. fold cur.
  rewrite decide_True by done.
  rewrite (proj2 (Z.leb_le _ _) Hle).
  assert (Hp : forall u, priority ((<[cur:=set_status TASK_STATUS_READY (tcb k cur)]> (tcb k)) u)
                         = priority (tcb k u)).
  { intros u. destruct (decide (cur = u)) as [->|Hne].
    - by rewrite fn_lookup_insert.
    - by rewrite fn_lookup_insert_ne. }
  assert (Hadd : taskQueueAdd (<[cur:=set_status TASK_STATUS_READY (tcb k cur)]> (tcb k))
                   (h :: q) cur = h :: taskQueueAdd (tcb k) q cur).
  { rewrite taskQueueAdd_behind by (rewrite !Hp; lia).
    f_equal. by apply taskQueueAdd_ext. }
  cbn. rewrite Hq, Hadd. cbn. split; [done|]. split; [done|]. split; [|done].
  intros t. destruct (decide (t = h)) as [->|Hne].
  - rewrite fn_lookup_insert. destruct (decide (cur = h)) as [->|Hc].
    + by rewrite fn_lookup_insert.
    + by rewrite fn_lookup_insert_ne.
  - rewrite fn_lookup_insert_ne by done.
    destruct (decide (t = cur)) as [->|Hc].
    + by rewrite fn_lookup_insert.
    + by rewrite fn_lookup_insert_ne.
Qed.

Lemma scheduleNextTask_dispatch (k : kernel) (h : taskId) (q : taskQueueType) :
  readyQueue k = h :: q ->
  status (tcb k (taskPool_currentTask k)) <> TASK_STATUS_RUNNING ->
  let k' := scheduleNextTask k in
  readyQueue k' = q /\
  taskPool_currentTask k' = h /\
  (forall t, tcb k' t
             = if decide (t = h) then set_status TASK_STATUS_RUNNING (tcb k t)
               else tcb k t) /\
  blockedQueue k' = blockedQueue k.
Proof.
  intros Hq Hrun k'. subst k'.
  unfold scheduleNextTask, requeueCurrent. rewrite Hq. cbn.
  rewrite decide_False by done. cbn. rewrite Hq. cbn.
  split; [done|]. split; [done|]. split; [|done].
  intros t. destruct (decide (t = h)) as [->|Hne].
  - by rewrite fn_lookup_insert.
  - by rewrite fn_lookup_insert_ne.
Qed.

(** A READY task of the ready queue is READY in the ready queue after
    [scheduleNextTask], or has been given the processor. *)
Lemma scheduleNextTask_keeps_ready (k : kernel) (t : taskId) :
  In t (readyQueue k) ->
  status (tcb k t) = TASK_STATUS_READY ->
  let k' := scheduleNextTask k in
  (status (tcb k' t) = TASK_STATUS_READY /\ In t (readyQueue k')) \/
  (status (tcb k' t) = TASK_STATUS_RUNNING /\ taskPool_currentTask k' = t).
Proof.
  intros Hq Hs k'. subst k'.
  destruct (readyQueue k) as [|h q] eqn:Eq; [done|].
  destruct (decide (status (tcb k (taskPool_currentTask k)) = TASK_STATUS_RUNNING))
    as [Hrun|Hrun].
  - destruct (Z.le_gt_cases (priority (tcb k h))
                (priority (tcb k (taskPool_currentTask k)))) as [Hle|Hgt].
    + destruct (scheduleNextTask_switch k h q Eq Hrun Hle) as (E1 & E2 & E3 & _).
      rewrite E1, E2, E3.
      destruct (decide (t = h)) as [->|Hne]; [by right|left].
      rewrite decide_False by (intros ->; congruence). split; [done|].
      rewrite taskQueueAdd_In. right. by destruct Hq.
    + rewrite scheduleNextTask_stay; [rewrite Eq; by left|].
      right. split; [done|]. exists h, q. split; [done|lia].
  - destruct (scheduleNextTask_dispatch k h q Eq Hrun) as (E1 & E2 & E3 & _).
    rewrite E1, E2, E3.
    destruct (decide (t = h)) as [->|Hne]; [by right|left].
    split; [done|]. by destruct Hq.
Qed.

(** ** Mutex *)

Lemma updMutex_eq (p : nat) (f : mutexHandleType -> mutexHandleType) (k : kernel) :
  mutexes (updMutex p f k) p = f (mutexes k p).
Proof. unfold updMutex; simpl. apply fn_lookup_insert. Qed.

Lemma mutexRestore_mutex (pi : bool) (p : nat) (k : kernel) :
  locked (mutexes (mutexRestore pi p k) p) = locked (mutexes k p) /\
  ownerTask (mutexes (mutexRestore pi p k) p) = ownerTask (mutexes k p) /\
  waitQueue (mutexes (mutexRestore pi p k) p) = waitQueue (mutexes k p).
Proof.
  unfold mutexRestore. destruct pi; [|done].
  destruct (negb _); [|done].
  rewrite updMutex_eq. destruct (ownerTask (mutexes k p)) eqn:E; simpl; by rewrite ?E.
Qed.

Lemma mutexUnlock_unfold (pi : bool) (p : nat) (k : kernel) :
  mutexUnlock pi p k
  = let out := mutexUnlockCritical pi p k in
    if snd (snd out)
    then (scheduleNextTask (fst out),
          if decide (taskPool_currentTask (scheduleNextTask (fst out))
                     = taskPool_currentTask (fst out))
          then Returned (fst (snd out))
          else Suspended (fun e => (e, Returned (fst (snd out)))))
    else (fst out, Returned (fst (snd out))).
Proof.
  unfold mutexUnlock.
  destruct (mutexUnlockCritical pi p k) as [k' [rc [|]]]; simpl; [|done].
  unfold mbind, call_bind, taskYield. by destruct (decide _).
Qed.

Lemma mutexUnlock_returns (pi : bool) (p : nat) (k : kernel) :
  returns (mutexUnlock pi p k) (fst (snd (mutexUnlockCritical pi p k))).
Proof.
  rewrite mutexUnlock_unfold. simpl.
  destruct (snd (snd _)); [|done].
  unfold returns; simpl. by destruct (decide _).
Qed.

Lemma mutexUnlock_mutexes (pi : bool) (p : nat) (k : kernel) :
  mutexes (fst (mutexUnlock pi p k)) = mutexes (fst (mutexUnlockCritical pi p k)).
Proof.
  rewrite mutexUnlock_unfold. simpl.
  destruct (snd (snd _)); [|done].
  simpl. apply scheduleNextTask_frame.
Qed.

(** The state at the end of the critical section of a [mutexUnlock] by the
    owner of a locked mutex. *)
Lemma mutexUnlockCritical_handover (pi : bool) (p : nat) (k : kernel) :
  ownerTask (mutexes k p) = Some (taskPool_currentTask k) ->
  locked (mutexes k p) = true ->
  let kc := fst (mutexUnlockCritical pi p k) in
  fst (snd (mutexUnlockCritical pi p k)) = RET_SUCCESS /\
  match waitQueue (mutexes k p) with
  | next :: rest =>
      ownerTask (mutexes kc p) = Some next /\
      locked (mutexes kc p) = true /\
      waitQueue (mutexes kc p) = taskQueueRemove rest next /\
      status (tcb kc next) = TASK_STATUS_READY /\
      wakeupReason (tcb kc next) = MUTEX_LOCKED /\
      In next (readyQueue kc)
  | [] =>
      ownerTask (mutexes kc p) = None /\
      locked (mutexes kc p) = false /\
      snd (snd (mutexUnlockCritical pi p k)) = false
  end.
Proof.
  intros Hown Hlocked kc. subst kc. unfold mutexUnlockCritical.
  rewrite decide_True, Hlocked by done.
  destruct (mutexRestore_mutex pi p k) as (Hl & _ & Hw).
  rewrite Hw.
  destruct (waitQueue (mutexes k p)) as [|next rest]; cbn.
  - by rewrite !fn_lookup_insert.
  - rewrite taskSetReady_mutexes, taskSetReady_tcb_eq. cbn.
    rewrite !fn_lookup_insert. cbn. rewrite Hl, Hlocked.
    repeat split. apply taskSetReady_ready.
Qed.

(** C2.  A [mutexUnlock] by the task that owns the locked mutex returns
    RET_SUCCESS.  In the state it leaves, with [next] first in the wait
    queue: [next] owns the mutex, the mutex is still locked, [next] has
    left the wait queue and has wake-up reason MUTEX_LOCKED, and [next] is
    READY in the ready queue or, when the yield that ends the call has given
    it the processor, RUNNING as the current task.  With an empty wait
    queue the mutex has no owner and is not locked, and the call returns at
    once. *)
Theorem mutexUnlock_handover (pi : bool) (p : nat) (k : kernel) :
  ownerTask (mutexes k p) = Some (taskPool_currentTask k) ->
  locked (mutexes k p) = true ->
  let k' := fst (mutexUnlock pi p k) in
  returns (mutexUnlock pi p k) RET_SUCCESS /\
  match waitQueue (mutexes k p) with
  | next :: rest =>
      ownerTask (mutexes k' p) = Some next /\
      locked (mutexes k' p) = true /\
      waitQueue (mutexes k' p) = taskQueueRemove rest next /\
      wakeupReason (tcb k' next) = MUTEX_LOCKED /\
      ((status (tcb k' next) = TASK_STATUS_READY /\ In next (readyQueue k')) \/
       (status (tcb k' next) = TASK_STATUS_RUNNING /\
        taskPool_currentTask k' = next))
  | [] =>
      ownerTask (mutexes k' p) = None /\
      locked (mutexes k' p) = false /\
      snd (mutexUnlock pi p k) = Returned RET_SUCCESS
  end.
Proof.
  intros Hown Hlocked k'.
  destruct (mutexUnlockCritical_handover pi p k Hown Hlocked) as [Hrc Hc].
  split; [rewrite <- Hrc; apply mutexUnlock_returns|].
  pose proof (mutexUnlock_mutexes pi p k) as Hm. fold k' in Hm.
  set (kc := fst (mutexUnlockCritical pi p k)) in *.
  assert (Hk' : mutexUnlock pi p k
                = if snd (snd (mutexUnlockCritical pi p k))
                  then (scheduleNextTask kc,
                        if decide (taskPool_currentTask (scheduleNextTask kc)
                                   = taskPool_currentTask kc)
                        then Returned RET_SUCCESS
                        else Suspended (fun e => (e, Returned RET_SUCCESS)))
                  else (kc, Returned RET_SUCCESS)).
  { rewrite mutexUnlock_unfold. cbn zeta. fold kc. by rewrite Hrc. }
  destruct (waitQueue (mutexes k p)) as [|next rest].
  - destruct Hc as (Ho & Hl & Hy). rewrite Hm.
    split; [done|]. split; [done|]. by rewrite Hk', Hy.
  - destruct Hc as (Ho & Hl & Hw & Hs & Hr & Hin). rewrite Hm.
    split; [done|]. split; [done|]. split; [done|].
    unfold k'. rewrite Hk'.
    destruct (snd (snd (mutexUnlockCritical pi p k))); cbn [fst].
    + destruct (scheduleNextTask_frame kc) as (_ & _ & Hwr).
      rewrite Hwr. split; [done|].
      by apply scheduleNextTask_keeps_ready.
    + split; [done|]. by left.
Qed.

Lemma mutexUnlock_handover_witness :
  let k := updMutex 0 (fun _ => mkMutex true (Some taskL) (-1) [taskH; taskM]) exampleKernel in
  let k' := fst (mutexUnlock true 0 k) in
  returns (mutexUnlock true 0 k) RET_SUCCESS /\
  ownerTask (mutexes k' 0%nat) = Some taskH /\
  locked (mutexes k' 0%nat) = true /\
  waitQueue (mutexes k' 0%nat) = [taskM] /\
  wakeupReason (tcb k' taskH) = MUTEX_LOCKED /\
  status (tcb k' taskH) = TASK_STATUS_RUNNING /\
  taskPool_currentTask k' = taskH.
Proof.
  intros k k'.
  destruct (mutexUnlock_handover true 0 k eq_refl eq_refl)
    as (Hret & Ho & Hl & Hq & Hw & _).
  split; [exact Hret|]. split; [exact Ho|]. split; [exact Hl|].
  split; [exact Hq|]. split; [exact Hw|]. split; reflexivity.
Defined.

(** C4.  On a mutex that is not locked and, as the invariant of the mutex
    has it, has no owner, [mutexUnlock] does not reach the test of [locked]:
    it leaves by the ownership test and returns RET_NOTOWNER, never
    RET_NOTLOCKED. *)
Theorem mutexUnlock_unlocked_NOTOWNER (pi : bool) (p : nat) (k : kernel) :
  (locked (mutexes k p) = true <-> ownerTask (mutexes k p) <> None) ->
  locked (mutexes k p) = false ->
  mutexUnlock pi p k = (k, Returned RET_NOTOWNER).
Proof.
  intros Hinv Hl. rewrite mutexUnlock_unfold. unfold mutexUnlockCritical.
  destruct (decide (ownerTask (mutexes k p) = Some (taskPool_currentTask k)))
    as [Ho|Ho]; [|done].
  exfalso. assert (locked (mutexes k p) = true) by (apply Hinv; congruence).
  congruence.
Qed.

Lemma mutexUnlock_unlocked_NOTOWNER_witness :
  locked (mutexes exampleKernel 0%nat) = false /\
  ownerTask (mutexes exampleKernel 0%nat) = None /\
  mutexUnlock true 0 exampleKernel = (exampleKernel, Returned RET_NOTOWNER).
Proof.
  split; [reflexivity|]. split; [reflexivity|].
  apply (mutexUnlock_unlocked_NOTOWNER true 0%nat exampleKernel).
  - simpl. split; [discriminate|]. intros H. by destruct H.
  - reflexivity.
Defined.

(** [mutexUnlock] answers RET_NOTOWNER whenever the caller is not the
    owner, and RET_NOTLOCKED only to a caller that is recorded as the owner
    of a mutex that is not locked. *)
Lemma mutexUnlock_errors (pi : bool) (p : nat) (k : kernel) :
  (ownerTask (mutexes k p) <> Some (taskPool_currentTask k) ->
   mutexUnlock pi p k = (k, Returned RET_NOTOWNER)) /\
  (ownerTask (mutexes k p) = Some (taskPool_currentTask k) ->
   locked (mutexes k p) = false ->
   mutexUnlock pi p k = (k, Returned RET_NOTLOCKED)).
Proof.
  split.
  - intros Ho. rewrite mutexUnlock_unfold. unfold mutexUnlockCritical.
    by rewrite decide_False.
  - intros Ho Hl. rewrite mutexUnlock_unfold. unfold mutexUnlockCritical.
    by rewrite decide_True, Hl.
Qed.

(** *** Blocking *)

Lemma taskBlock_bind {R : Type} (t : taskId) (reason : blockedReasonType)
    (ticks : Z) (f : unit -> call R) (k : kernel) :
  (taskBlock t reason ticks ≫= f) k
  = let k' := scheduleNextTask (taskBlockMark t reason ticks k) in
    if decide (taskPool_currentTask k' = taskPool_currentTask k)
    then f tt k'
    else (k', Suspended (f tt)).
Proof.
  unfold taskBlock, mbind, call_bind, modify, taskYield. cbn.
  destruct (decide _); reflexivity.
Qed.

Lemma taskBlockMark_priority (t : taskId) (reason : blockedReasonType)
    (ticks : Z) (k : kernel) (u : taskId) :
  priority (tcb (taskBlockMark t reason ticks k) u) = priority (tcb k u).
Proof.
  unfold taskBlockMark. cbn.
  destruct (decide (t = u)) as [->|Hne].
  - by rewrite !fn_lookup_insert.
  - by rewrite !fn_lookup_insert_ne.
Qed.

Lemma run_nil {R : Type} (c : call R) (k : kernel) :
  run c k [] = match c k with
               | (k', Returned r) => Some (k', r)
               | _ => None
               end.
Proof. reflexivity. Qed.

Lemma run_cons {R : Type} (c : call R) (k e : kernel) (rest : list kernel) :
  run c k (e :: rest) = match c k with
                        | (_, Suspended c') => run c' e rest
                        | _ => None
                        end.
Proof. simpl. by destruct (c k) as [k' [r|c'|]]. Qed.

Lemma mutexLockWoken_eq (p : nat) (cur : taskId) (e : kernel) :
  mutexLockWoken p cur e
  = (e, Returned
          (if bool_decide (wakeupReason (tcb e cur) = MUTEX_LOCKED)
              && bool_decide (ownerTask (mutexes e p) = Some cur)
           then RET_SUCCESS else RET_TIMEOUT)).
Proof.
  unfold mutexLockWoken, mbind, call_bind, gets. cbn.
  by destruct (_ && _).
Qed.

Lemma mutexLockWoken_state (p : nat) (cur : taskId) (e : kernel) :
  fst (mutexLockWoken p cur e) = e.
Proof.
  unfold mutexLockWoken, mbind, call_bind, gets. cbn.
  by destruct (_ && _).
Qed.

Lemma mutexLock_unfold (pi : bool) (p : nat) (w : Z) (k : kernel) :
  mutexLock pi p w k
  = let cur := taskPool_currentTask k in
    let k1 := mutexInherit pi p cur k in
    if negb (locked (mutexes k1 p)) then
      (updMutex p (set_ownerTask (Some cur)) (updMutex p (set_locked true) k1),
       Returned RET_SUCCESS)
    else if (w =? TASK_NO_WAIT) && locked (mutexes k1 p) then
      (k1, Returned RET_BUSY)
    else
      (taskBlock cur WAIT_FOR_MUTEX w ≫= (fun _ => mutexLockWoken p cur))
        (updMutex p
           (set_waitQueue (taskQueueAdd (tcb k1) (waitQueue (mutexes k1 p)) cur)) k1).
Proof.
  unfold mutexLock at 1. unfold mbind at 1 2 3, call_bind at 1 2 3, gets, modify.
  cbn.
  destruct (negb (locked _)); [reflexivity|].
  destruct (_ && _); reflexivity.
Qed.

(** The state in which [mutexLock] returns or gives the processor away
    differs from the one after the inheritance block in the fields of the
    mutex other than [ownerDefaultPriority], in queues and in the status
    fields of tasks only. *)
Lemma mutexLock_after_inherit (pi : bool) (p : nat) (w : Z) (k : kernel) :
  let k1 := mutexInherit pi p (taskPool_currentTask k) k in
  let k' := fst (mutexLock pi p w k) in
  (forall t, priority (tcb k' t) = priority (tcb k1 t)) /\
  ownerDefaultPriority (mutexes k' p) = ownerDefaultPriority (mutexes k1 p).
Proof.
  cbn zeta. rewrite mutexLock_unfold. cbn zeta.
  set (k1 := mutexInherit pi p (taskPool_currentTask k) k).
  destruct (negb (locked (mutexes k1 p))).
  { cbn. by rewrite !fn_lookup_insert. }
  destruct (_ && _); [done|].
  rewrite taskBlock_bind. cbn zeta.
  set (k2 := updMutex p _ k1).
  set (k3 := taskBlockMark _ _ _ k2).
  assert (Hgoal : (forall t, priority (tcb (scheduleNextTask k3) t) = priority (tcb k1 t)) /\
                  ownerDefaultPriority (mutexes (scheduleNextTask k3) p)
                  = ownerDefaultPriority (mutexes k1 p)).
  { destruct (scheduleNextTask_frame k3) as (Hm & Hp & _). split.
    - intros t. rewrite Hp. unfold k3. by rewrite taskBlockMark_priority.
    - rewrite Hm. unfold k3, k2. cbn. by rewrite fn_lookup_insert. }
  destruct (decide _); [|exact Hgoal].
  by rewrite mutexLockWoken_state.
Qed.

Lemma mutexInherit_boost (p : nat) (cur owner : taskId) (k : kernel) :
  ownerTask (mutexes k p) = Some owner ->
  priority (tcb k cur) < priority (tcb k owner) ->
  let k1 := mutexInherit true p cur k in
  priority (tcb k1 owner) = priority (tcb k cur) /\
  ownerDefaultPriority (mutexes k1 p)
  = (if ownerDefaultPriority (mutexes k p) =? -1
     then priority (tcb k owner)
     else ownerDefaultPriority (mutexes k p)) /\
  locked (mutexes k1 p) = locked (mutexes k p).
Proof.
  intros Ho Hlt k1. subst k1. unfold mutexInherit. rewrite Ho.
  rewrite (proj2 (Z.ltb_lt _ _) Hlt).
  destruct (ownerDefaultPriority (mutexes k p) =? -1) eqn:E; cbn.
  - by rewrite !fn_lookup_insert.
  - by rewrite !fn_lookup_insert.
Qed.

(** The restoring block in the critical section of [mutexUnlock]. *)
Lemma mutexUnlockCritical_restore (p : nat) (k : kernel) :
  let cur := taskPool_currentTask k in
  let odp := ownerDefaultPriority (mutexes k p) in
  ownerTask (mutexes k p) = Some cur ->
  locked (mutexes k p) = true ->
  odp <> -1 ->
  0 <= odp < 256 ->
  let out := mutexUnlockCritical true p k in
  priority (tcb (fst out) cur) = odp /\
  ownerDefaultPriority (mutexes (fst out) p) = -1 /\
  (forall t, t <> cur -> priority (tcb (fst out) t) = priority (tcb k t)) /\
  taskPool_currentTask (fst out) = cur /\
  fst (snd out) = RET_SUCCESS /\
  (forall (next : taskId) (rest : taskQueueType),
     waitQueue (mutexes k p) = next :: rest ->
     next <> cur ->
     snd (snd out) = (priority (tcb k next) <=? odp) /\
     status (tcb (fst out) cur) = status (tcb k cur) /\
     status (tcb (fst out) next) = TASK_STATUS_READY /\
     readyQueue (fst out) = taskQueueAdd (tcb (fst out)) (readyQueue k) next).
Proof.
  intros cur odp Ho Hl Hodp Hrange out. subst out.
  unfold mutexUnlockCritical. fold cur.
  rewrite decide_True, Hl by done.
  assert (Hr : mutexRestore true p k
               = updMutex p (set_ownerDefaultPriority (-1))
                   (updTask cur (set_priority odp) k)).
  { unfold mutexRestore. fold odp. rewrite Ho.
    destruct (odp =? -1) eqn:E; [lia|]. cbn [negb].
    by rewrite Z.mod_small by lia. }
  rewrite Hr. cbn. rewrite !fn_lookup_insert. cbn.
  destruct (waitQueue (mutexes k p)) as [|next rest]; cbn.
  - rewrite !fn_lookup_insert. cbn.
    split; [done|]. split; [done|]. split.
    + intros t Ht. by rewrite fn_lookup_insert_ne.
    + done.
  - rewrite !taskSetReady_priority, taskSetReady_mutexes. cbn.
    rewrite !fn_lookup_insert. cbn.
    split; [done|]. split; [done|]. split.
    { intros t Ht. rewrite taskSetReady_priority. cbn.
      by rewrite fn_lookup_insert_ne. }
    split; [done|]. split; [done|].
    intros next' rest' [= <- <-] Hne.
    rewrite taskSetReady_tcb_ne, taskSetReady_tcb_eq by done. cbn.
    fold cur. rewrite fn_lookup_insert, fn_lookup_insert_ne by done.
    split; [done|]. split; [done|]. split; [done|].
    rewrite taskSetReady_readyQueue. cbn.
    apply taskQueueAdd_ext. intros u. by rewrite taskSetReady_priority.
Qed.

(** C3.  With priority inheritance compiled in: a [mutexLock] on a mutex
    whose owner has a numerically greater priority than the caller leaves
    the owner with the caller's priority, and [ownerDefaultPriority] holds
    the owner's previous priority if it held the sentinel -1 and is
    unchanged otherwise.  A [mutexUnlock] by the owner of a locked mutex
    whose [ownerDefaultPriority] is not -1 leaves the owner with that
    priority, the field reset to -1 and the priority of no other task
    changed.  The priority is restored before the hand-over: whether the
    call yields to the next owner depends on the restored priority; with a
    next owner of numerically greater priority than the restored one the
    call returns at once and the caller runs on, and otherwise, the next
    owner being ahead of every ready task, the call gives it the
    processor. *)
Theorem mutex_priority_inheritance (p : nat) (k : kernel) :
  let cur := taskPool_currentTask k in
  let odp := ownerDefaultPriority (mutexes k p) in
  (forall (w : Z) (owner : taskId),
     ownerTask (mutexes k p) = Some owner ->
     priority (tcb k cur) < priority (tcb k owner) ->
     let k' := fst (mutexLock true p w k) in
     priority (tcb k' owner) = priority (tcb k cur) /\
     ownerDefaultPriority (mutexes k' p)
     = (if odp =? -1 then priority (tcb k owner) else odp)) /\
  (ownerTask (mutexes k p) = Some cur ->
   locked (mutexes k p) = true ->
   odp <> -1 ->
   0 <= odp < 256 ->
   let k' := fst (mutexUnlock true p k) in
   priority (tcb k' cur) = odp /\
   ownerDefaultPriority (mutexes k' p) = -1 /\
   (forall t, t <> cur -> priority (tcb k' t) = priority (tcb k t)) /\
   returns (mutexUnlock true p k) RET_SUCCESS /\
   (forall (next : taskId) (rest : taskQueueType),
      waitQueue (mutexes k p) = next :: rest ->
      next <> cur ->
      (odp < priority (tcb k next) ->
       snd (mutexUnlock true p k) = Returned RET_SUCCESS /\
       taskPool_currentTask k' = cur /\
       status (tcb k' cur) = status (tcb k cur) /\
       status (tcb k' next) = TASK_STATUS_READY /\
       In next (readyQueue k')) /\
      (priority (tcb k next) <= odp ->
       status (tcb k cur) = TASK_STATUS_RUNNING ->
       (forall u, In u (readyQueue k) ->
                  u <> cur /\ priority (tcb k next) < priority (tcb k u)) ->
       isSuspended (snd (mutexUnlock true p k)) = true /\
       taskPool_currentTask k' = next /\
       status (tcb k' next) = TASK_STATUS_RUNNING /\
       status (tcb k' cur) = TASK_STATUS_READY /\
       In cur (readyQueue k')))).
Proof.
  intros cur odp. split.
  - intros w owner Ho Hlt k'.
    destruct (mutexLock_after_inherit true p w k) as [Hp Hd].
    destruct (mutexInherit_boost p cur owner k Ho Hlt) as (Hb & Hodp & _).
    subst k'. by rewrite Hp, Hd.
  - intros Ho Hl Hodp Hrange k'.
    destruct (mutexUnlockCritical_restore p k Ho Hl Hodp Hrange)
      as (Hp & Hd & Hother & Hcur & Hrc & Hnext).
    fold cur odp in Hp, Hd, Hother, Hcur, Hnext.
    set (kc := fst (mutexUnlockCritical true p k)) in *.
    pose proof (mutexUnlock_mutexes true p k) as Hm. fold k' kc in Hm.
    assert (Hk' : mutexUnlock true p k
                  = if snd (snd (mutexUnlockCritical true p k))
                    then (scheduleNextTask kc,
                          if decide (taskPool_currentTask (scheduleNextTask kc)
                                     = taskPool_currentTask kc)
                          then Returned RET_SUCCESS
                          else Suspended (fun e => (e, Returned RET_SUCCESS)))
                    else (kc, Returned RET_SUCCESS)).
    { rewrite mutexUnlock_unfold. cbn zeta. fold kc. by rewrite Hrc. }
    assert (Hprio : forall t, priority (tcb k' t) = priority (tcb kc t)).
    { intros t. unfold k'. rewrite Hk'.
      destruct (snd (snd _)); cbn [fst]; [|done].
      apply scheduleNextTask_frame. }
    split; [by rewrite Hprio|]. split; [by rewrite Hm|].
    split; [intros t Ht; rewrite Hprio; by apply Hother|].
    split; [rewrite <- Hrc; apply mutexUnlock_returns|].
    intros next rest Hq Hne.
    destruct (Hnext next rest Hq Hne) as (Hy & Hsc & Hsn & Hrq).
    split.
    + intros Hlt. unfold k'. rewrite Hk', Hy.
      rewrite (proj2 (Z.leb_gt _ _) Hlt). cbn [fst snd].
      split; [done|]. split; [done|]. split; [done|]. split; [done|].
      rewrite Hrq, taskQueueAdd_In. by left.
    + intros Hle Hrun Hready.
      assert (Hhead : readyQueue kc = next :: readyQueue k).
      { rewrite Hrq. apply (taskQueueAdd_middle (tcb kc) [] (readyQueue k) next).
        - intros u [].
        - intros u Hu. destruct (Hready u Hu) as [Huc Hlt].
          by rewrite !Hother. }
      destruct (scheduleNextTask_switch kc next (readyQueue k) Hhead)
        as (S1 & S2 & S3 & _).
      { by rewrite Hcur, Hsc. }
      { rewrite Hcur, Hp, Hother by done. done. }
      unfold k'. rewrite Hk', Hy, (proj2 (Z.leb_le _ _) Hle). cbn [fst snd].
      rewrite S1, S2, !S3, Hcur.
      rewrite decide_False by done. cbn [isSuspended].
      rewrite decide_True by done.
      rewrite decide_False by (by intros ->). rewrite decide_True by done.
      split; [done|]. split; [done|]. split; [done|]. split; [done|].
      rewrite taskQueueAdd_In. by left.
Qed.

Lemma mutex_priority_inheritance_witness :
  let kb := fst (mutexLock true 0 1 kernelHruns) in
  let ku := fst (mutexUnlock true 0 kb) in
  priority (tcb kernelHruns taskL) = 200 /\
  priority (tcb kb taskL) = 100 /\
  ownerDefaultPriority (mutexes kb 0%nat) = 200 /\
  priority (tcb ku taskL) = 200 /\
  ownerDefaultPriority (mutexes ku 0%nat) = -1 /\
  taskPool_currentTask ku = taskH.
Proof.
  intros kb ku.
  destruct (mutex_priority_inheritance 0%nat kernelHruns) as [Hlock _].
  destruct (Hlock 1 taskL eq_refl eq_refl) as [Hp Hd].
  destruct (mutex_priority_inheritance 0%nat kb) as [_ Hunlock].
  destruct Hunlock as (Hp' & Hd' & _ & _ & Hnext).
  - reflexivity.
  - reflexivity.
  - vm_compute. intros H. discriminate H.
  - vm_compute. split; [intros H; discriminate H|reflexivity].
  - destruct (Hnext taskH [] eq_refl) as [_ Hyield].
    { intros H. discriminate H. }
    destruct Hyield as (_ & Hc & _).
    + vm_compute. intros H. discriminate H.
    + reflexivity.
    + intros u Hu. vm_compute in Hu. destruct Hu as [<-|[]].
      split; [intros H; discriminate H|reflexivity].
    + split; [reflexivity|]. split; [exact Hp|]. split; [exact Hd|].
      split; [exact Hp'|]. split; [exact Hd'|exact Hc].
Defined.

(** C10.  With priority inheritance compiled in, [mutexLock] on a locked
    mutex whose owner has a numerically greater priority than the caller
    boosts the owner before it looks at [locked]: where the call returns
    RET_BUSY or gives the processor away, the owner has the caller's
    priority and [ownerDefaultPriority] is set.  With [waitTicks] 0 the
    call returns RET_BUSY there; and a call that was resumed returns in the
    very state it was resumed on, RET_TIMEOUT included: nothing is rolled
    back. *)
Theorem mutexLock_failure_keeps_boost (p : nat) (w : Z) (k : kernel) (owner : taskId) :
  locked (mutexes k p) = true ->
  ownerTask (mutexes k p) = Some owner ->
  priority (tcb k (taskPool_currentTask k)) < priority (tcb k owner) ->
  0 <= priority (tcb k owner) ->
  let k' := fst (mutexLock true p w k) in
  priority (tcb k' owner) = priority (tcb k (taskPool_currentTask k)) /\
  ownerDefaultPriority (mutexes k' p) <> -1 /\
  (w = TASK_NO_WAIT -> run (mutexLock true p w) k [] = Some (k', RET_BUSY)) /\
  (forall (resumes : list kernel) (kf : kernel) (rc : retCodeType),
     run (mutexLock true p w) k resumes = Some (kf, rc) ->
     kf = List.last resumes k').
Proof.
  intros Hl Ho Hlt Hpos k'.
  destruct (mutexLock_after_inherit true p w k) as [Hp Hd].
  destruct (mutexInherit_boost p _ owner k Ho Hlt) as (Hb & Hodp & Hl1).
  rewrite Hl in Hl1.
  split; [subst k'; by rewrite Hp|].
  split.
  { subst k'. rewrite Hd, Hodp.
    destruct (ownerDefaultPriority (mutexes k p) =? -1) eqn:E; lia. }
  assert (Hout : mutexLock true p w k
                 = let k1 := mutexInherit true p (taskPool_currentTask k) k in
                   if w =? TASK_NO_WAIT then (k1, Returned RET_BUSY)
                   else
                     (taskBlock (taskPool_currentTask k) WAIT_FOR_MUTEX w
                        ≫= (fun _ => mutexLockWoken p (taskPool_currentTask k)))
                       (updMutex p
                          (set_waitQueue
                             (taskQueueAdd (tcb k1) (waitQueue (mutexes k1 p))
                                (taskPool_currentTask k))) k1)).
  { rewrite mutexLock_unfold. cbn zeta. rewrite Hl1. cbn [negb].
    by rewrite andb_true_r. }
  split.
  - intros ->. subst k'. rewrite run_nil, Hout. cbn zeta.
    by rewrite (Z.eqb_refl TASK_NO_WAIT).
  - intros resumes kf rc Hrun. subst k'.
    destruct resumes as [|e rest].
    + rewrite run_nil in Hrun. cbn [List.last].
      destruct (mutexLock true p w k) as [k0 [r| |]]; [|done|done].
      by injection Hrun as -> ->.
    + rewrite run_cons, Hout in Hrun. cbn zeta in Hrun.
      destruct (w =? TASK_NO_WAIT); [done|].
      rewrite taskBlock_bind in Hrun. cbn zeta in Hrun.
      destruct (decide _).
      * by rewrite mutexLockWoken_eq in Hrun.
      * destruct rest as [|e' rest].
        -- rewrite run_nil, mutexLockWoken_eq in Hrun.
           by injection Hrun as <- <-.
        -- by rewrite run_cons, mutexLockWoken_eq in Hrun.
Qed.

Lemma mutexLock_failure_keeps_boost_witness :
  let kbusy := fst (mutexLock true 0 0 kernelHruns) in
  let kblocked := fst (mutexLock true 0 1 kernelHruns) in
  let ktick := SYSTICK_HANDLER kblocked in
  priority (tcb kernelHruns taskL) = 200 /\
  run (mutexLock true 0 0) kernelHruns [] = Some (kbusy, RET_BUSY) /\
  priority (tcb kbusy taskL) = 100 /\
  ownerDefaultPriority (mutexes kbusy 0%nat) <> -1 /\
  run (mutexLock true 0 1) kernelHruns [ktick] = Some (ktick, RET_TIMEOUT) /\
  priority (tcb ktick taskL) = 100 /\
  ownerDefaultPriority (mutexes ktick 0%nat) = 200.
Proof.
  intros kbusy kblocked ktick.
  assert (Hpos : 0 <= priority (tcb kernelHruns taskL)).
  { vm_compute. intros H. discriminate H. }
  destruct (mutexLock_failure_keeps_boost 0%nat 0 kernelHruns taskL
              eq_refl eq_refl eq_refl Hpos) as (Hp & Hd & Hbusy & _).
  destruct (mutexLock_failure_keeps_boost 0%nat 1 kernelHruns taskL
              eq_refl eq_refl eq_refl Hpos) as (_ & _ & _ & Hsame).
  assert (Hrun : run (mutexLock true 0 1) kernelHruns [ktick]
                 = Some (ktick, RET_TIMEOUT)) by reflexivity.
  split; [reflexivity|]. split; [exact (Hbusy eq_refl)|].
  split; [exact Hp|]. split; [exact Hd|].
  split; [exact Hrun|]. split; reflexivity.
Defined.

(** ** Semaphore *)

(** C5.  [semaphoreGive] on a semaphore whose count has reached [maxCount]
    returns RET_NOSEM and leaves the kernel as it is.  Otherwise it returns
    RET_SUCCESS; with [next] first in the wait queue, [next] leaves the
    queue, is READY in the ready queue with wake-up reason SEMAPHORE_TAKEN,
    and the count is what it was; with an empty wait queue the count is one
    more and no task is touched. *)
Theorem semaphoreGive_transfer (p : nat) (k : kernel) :
  let s := semaphores k p in
  (count s = maxCount s -> semaphoreGive p k = (k, RET_NOSEM)) /\
  (count s <> maxCount s ->
   let k' := fst (semaphoreGive p k) in
   snd (semaphoreGive p k) = RET_SUCCESS /\
   match semWaitQueue s with
   | next :: rest =>
       count (semaphores k' p) = count s /\
       semWaitQueue (semaphores k' p) = taskQueueRemove rest next /\
       status (tcb k' next) = TASK_STATUS_READY /\
       wakeupReason (tcb k' next) = SEMAPHORE_TAKEN /\
       In next (readyQueue k')
   | [] =>
       count (semaphores k' p) = count s + 1 /\
       tcb k' = tcb k /\
       readyQueue k' = readyQueue k
   end).
Proof.
  intros s. subst s. unfold semaphoreGive. split.
  - intros ->. by rewrite Z.eqb_refl.
  - intros Hne. rewrite (proj2 (Z.eqb_neq _ _) Hne). cbn [negb].
    destruct (semWaitQueue (semaphores k p)) as [|next rest]; cbn.
    + by rewrite !fn_lookup_insert.
    + split; [done|].
      rewrite taskSetReady_semaphores, taskSetReady_tcb_eq. cbn.
      rewrite !fn_lookup_insert. cbn.
      repeat split. apply taskSetReady_ready.
Qed.

Lemma semaphoreGive_transfer_witness :
  let k := updSemaphore 0 (fun _ => mkSemaphore 0 1 [taskH]) exampleKernel in
  semaphoreGive 1 (fst (semaphoreGive 1 k)) = (fst (semaphoreGive 1 k), RET_NOSEM) /\
  count (semaphores (fst (semaphoreGive 1 k)) 1%nat) = 1 /\
  count (semaphores (fst (semaphoreGive 0 k)) 0%nat) = 0 /\
  wakeupReason (tcb (fst (semaphoreGive 0 k)) taskH) = SEMAPHORE_TAKEN /\
  snd (semaphoreGive 0 k) = RET_SUCCESS.
Proof.
  intros k.
  destruct (semaphoreGive_transfer 1%nat (fst (semaphoreGive 1 k))) as [Hfull _].
  destruct (semaphoreGive_transfer 1%nat k) as [_ Hfree].
  destruct (semaphoreGive_transfer 0%nat k) as [_ Hwait].
  destruct Hfree as (_ & Hc & _); [vm_compute; intros H; discriminate H|].
  destruct Hwait as (Hr & Hc' & _ & _ & Hw & _); [vm_compute; intros H; discriminate H|].
  split; [apply Hfull; reflexivity|].
  split; [exact Hc|]. split; [exact Hc'|]. split; [exact Hw|exact Hr].
Defined.

(** ** The time-out walk of the tick *)

Lemma taskQueueRemove_NoDup (q : taskQueueType) (t : taskId) :
  NoDup q -> NoDup (taskQueueRemove q t).
Proof.
  induction 1 as [|h q Hh Hq IH]; simpl; [constructor|].
  destruct (decide (h = t)); [done|].
  constructor; [|done].
  rewrite list_elem_of_In. intros Hin. apply taskQueueRemove_In in Hin.
  by rewrite <- list_elem_of_In in Hin.
Qed.

Section checkTimeoutNode_facts.
Variables (t : taskId) (k : kernel).

Lemma checkTimeoutNode_idle :
    remainingSleepTicks (tcb k t) <= 0 -> checkTimeoutNode t k = k.
  Proof.
    intros Hr. unfold checkTimeoutNode.
    by rewrite (proj2 (Z.ltb_ge _ _) Hr).
  Qed.

Lemma checkTimeoutNode_count :
    1 < remainingSleepTicks (tcb k t) ->
    checkTimeoutNode t k
    = updTask t (set_remainingSleepTicks (remainingSleepTicks (tcb k t) - 1)) k.
  Proof.
    intros Hr. unfold checkTimeoutNode.
    rewrite (proj2 (Z.ltb_lt 0 _)) by lia.
    rewrite updTask_tcb_eq. cbn.
    by rewrite (proj2 (Z.eqb_neq _ 0)) by lia.
  Qed.

Lemma checkTimeoutNode_expire :
    remainingSleepTicks (tcb k t) = 1 ->
    checkTimeoutNode t k
    = taskSetReady t (timeoutReason (tcb k t))
        (updTask t (set_remainingSleepTicks 0) k).
  Proof.
    intros Hr. unfold checkTimeoutNode, timeoutReason.
    rewrite Hr. cbn [Z.ltb Z.compare Z.sub Z.add Z.opp Z.pos_sub].
    rewrite updTask_tcb_eq. cbn.
    by destruct (decide _).
  Qed.

Lemma checkTimeoutNode_cases :
    checkTimeoutNode t k = k \/
    checkTimeoutNode t k
    = updTask t (set_remainingSleepTicks (remainingSleepTicks (tcb k t) - 1)) k \/
    checkTimeoutNode t k
    = taskSetReady t (timeoutReason (tcb k t))
        (updTask t (set_remainingSleepTicks 0) k).
  Proof.
    destruct (Z_lt_le_dec 1 (remainingSleepTicks (tcb k t))) as [H|H].
    - right; left. by apply checkTimeoutNode_count.
    - destruct (Z.eq_dec (remainingSleepTicks (tcb k t)) 1) as [H1|H1].
      + right; right. by apply checkTimeoutNode_expire.
      + left. apply checkTimeoutNode_idle. lia.
  Qed.

Lemma checkTimeoutNode_tcb_other (u : taskId) :
    u <> t -> tcb (checkTimeoutNode t k) u = tcb k u.
  Proof.
    intros Hne.
    destruct checkTimeoutNode_cases as [->|[->| ->]]; [done| |].
    - by rewrite updTask_tcb_ne.
    - rewrite taskSetReady_tcb_ne by done. by rewrite updTask_tcb_ne.
  Qed.

Lemma checkTimeoutNode_blocked_other (u : taskId) :
    u <> t ->
    In u (blockedQueue k) -> In u (blockedQueue (checkTimeoutNode t k)).
  Proof.
    intros Hne Hin.
    destruct checkTimeoutNode_cases as [->|[->| ->]]; [done|done|].
    rewrite taskSetReady_blockedQueue. by apply taskQueueRemove_In_ne.
  Qed.

Lemma checkTimeoutNode_blocked_sub (u : taskId) :
    In u (blockedQueue (checkTimeoutNode t k)) -> In u (blockedQueue k).
  Proof.
    destruct checkTimeoutNode_cases as [->|[->| ->]]; [done|done|].
    rewrite taskSetReady_blockedQueue. apply taskQueueRemove_In.
  Qed.

Lemma checkTimeoutNode_blocked_NoDup :
    NoDup (blockedQueue k) -> NoDup (blockedQueue (checkTimeoutNode t k)).
  Proof.
    destruct checkTimeoutNode_cases as [->|[->| ->]]; [done|done|].
    rewrite taskSetReady_blockedQueue. apply taskQueueRemove_NoDup.
  Qed.

Lemma checkTimeoutNode_ready (u : taskId) :
    In u (readyQueue k) -> In u (readyQueue (checkTimeoutNode t k)).
  Proof.
    destruct checkTimeoutNode_cases as [->|[->| ->]]; [done|done|].
    rewrite taskSetReady_readyQueue, taskQueueAdd_In. by right.
  Qed.
End checkTimeoutNode_facts.

Lemma checkTimeoutWalk_other (nodes : list taskId) (u : taskId) :
  ~ In u nodes ->
  forall k : kernel,
    tcb (checkTimeoutWalk nodes k) u = tcb k u /\
    (In u (blockedQueue k) -> In u (blockedQueue (checkTimeoutWalk nodes k))).
Proof.
  induction nodes as [|h nodes IH]; intros Hn k; simpl; [done|].
  simpl in Hn.
  destruct (IH (fun H => Hn (or_intror H)) (checkTimeoutNode h k)) as [Ht Hb].
  split.
  - rewrite Ht. apply checkTimeoutNode_tcb_other. intros ->. apply Hn. by left.
  - intros Hin. apply Hb, checkTimeoutNode_blocked_other; [|done].
    intros ->. apply Hn. by left.
Qed.

Lemma checkTimeoutWalk_mono (nodes : list taskId) (u : taskId) :
  forall k : kernel,
    (In u (readyQueue k) -> In u (readyQueue (checkTimeoutWalk nodes k))) /\
    (In u (blockedQueue (checkTimeoutWalk nodes k)) -> In u (blockedQueue k)).
Proof.
  induction nodes as [|h nodes IH]; intros k; simpl; [done|].
  destruct (IH (checkTimeoutNode h k)) as [Hr Hb]. split.
  - intros Hin. by apply Hr, checkTimeoutNode_ready.
  - intros Hin. by apply (checkTimeoutNode_blocked_sub h), Hb.
Qed.

(** What the walk does to a task it visits once. *)
Lemma checkTimeoutWalk_visit (nodes : list taskId) (t : taskId) :
  NoDup nodes -> In t nodes ->
  forall k : kernel,
    NoDup (blockedQueue k) -> In t (blockedQueue k) ->
    let r := remainingSleepTicks (tcb k t) in
    let k' := checkTimeoutWalk nodes k in
    (1 < r ->
     tcb k' t = set_remainingSleepTicks (r - 1) (tcb k t) /\
     In t (blockedQueue k')) /\
    (r = 1 ->
     tcb k' t = set_wakeupReason (timeoutReason (tcb k t))
                  (set_status TASK_STATUS_READY
                     (set_remainingSleepTicks 0 (tcb k t))) /\
     In t (readyQueue k') /\
     ~ In t (blockedQueue k')) /\
    (r <= 0 -> tcb k' t = tcb k t /\ In t (blockedQueue k')).
Proof.
  induction 1 as [|h nodes Hh Hnd IH]; intros Hin k Hbq Hb; [done|].
  rewrite list_elem_of_In in Hh.
  cbn zeta. simpl checkTimeoutWalk.
  destruct (decide (h = t)) as [->|Hne].
  - destruct (checkTimeoutWalk_other nodes t Hh (checkTimeoutNode t k)) as [Ht Hk].
    destruct (checkTimeoutWalk_mono nodes t (checkTimeoutNode t k)) as [Hr Hs].
    split; [|split]; intros H1.
    + rewrite (checkTimeoutNode_count t k H1) in Ht, Hk |- *.
      rewrite Ht, updTask_tcb_eq. split; [done|]. by apply Hk.
    + rewrite (checkTimeoutNode_expire t k H1) in Ht, Hr, Hs |- *.
      rewrite Ht, taskSetReady_tcb_eq, updTask_tcb_eq.
      split; [done|]. split.
      * apply Hr, taskSetReady_ready.
      * intros Hc. apply Hs in Hc.
        rewrite taskSetReady_blockedQueue in Hc.
        by apply (taskQueueRemove_NoDup_notin (blockedQueue k) t).
    + rewrite (checkTimeoutNode_idle t k H1) in Ht, Hk |- *.
      rewrite Ht. split; [done|]. by apply Hk.
  - assert (Hin' : In t nodes) by (destruct Hin; [done|done]).
    specialize (IH Hin' (checkTimeoutNode h k)
                  (checkTimeoutNode_blocked_NoDup h k Hbq)
                  (checkTimeoutNode_blocked_other h k t (not_eq_sym Hne) Hb)).
    cbn zeta in IH.
    by rewrite (checkTimeoutNode_tcb_other h k t (not_eq_sym Hne)) in IH.
Qed.

(** C6.  [checkTimeout], on a blocked-timeout list that links each task
    once: a task of the list with more than one tick left has one tick
    less and stays on the list; a task with one tick left has none left, is
    READY in the ready queue, off the list, with wake-up reason
    SLEEP_TIME_TIMEOUT if it was blocked for SLEEP and WAIT_TIMEOUT
    otherwise; a task with no tick left is not touched and stays on the
    list. *)
Theorem checkTimeout_tick (k : kernel) (t : taskId) :
  NoDup (blockedQueue k) ->
  In t (blockedQueue k) ->
  let r := remainingSleepTicks (tcb k t) in
  let k' := checkTimeout k in
  (1 < r ->
   tcb k' t = set_remainingSleepTicks (r - 1) (tcb k t) /\
   In t (blockedQueue k')) /\
  (r = 1 ->
   remainingSleepTicks (tcb k' t) = 0 /\
   status (tcb k' t) = TASK_STATUS_READY /\
   wakeupReason (tcb k' t)
   = (if decide (blockedReason (tcb k t) = SLEEP)
      then SLEEP_TIME_TIMEOUT else WAIT_TIMEOUT) /\
   In t (readyQueue k') /\
   ~ In t (blockedQueue k')) /\
  (r = 0 -> tcb k' t = tcb k t /\ In t (blockedQueue k')).
Proof.
  intros Hnd Hin r k'.
  destruct (checkTimeoutWalk_visit (blockedQueue k) t Hnd Hin k Hnd Hin)
    as (H1 & H2 & H3).
  split; [exact H1|]. split.
  - intros Hr. destruct (H2 Hr) as (Ht & Hrdy & Hnb).
    fold (checkTimeout k) in Ht. fold k' in Ht. rewrite Ht.
    repeat split; done.
  - intros Hr. apply H3. fold r. lia.
Qed.

Lemma checkTimeout_tick_witness :
  let k' := checkTimeout kernelSleepers in
  remainingSleepTicks (tcb kernelSleepers taskM) = 3 /\
  remainingSleepTicks (tcb k' taskM) = 2 /\
  remainingSleepTicks (tcb kernelSleepers taskH) = 1 /\
  status (tcb k' taskH) = TASK_STATUS_READY /\
  wakeupReason (tcb k' taskH) = SLEEP_TIME_TIMEOUT /\
  remainingSleepTicks (tcb kernelSleepers timerTask) = 0 /\
  tcb k' timerTask = tcb kernelSleepers timerTask.
Proof.
  intros k'.
  assert (Hnd : NoDup (blockedQueue kernelSleepers)).
  { apply (bool_decide_unpack _). vm_compute. exact I. }
  destruct (checkTimeout_tick kernelSleepers taskM Hnd) as (HM & _ & _).
  { simpl. tauto. }
  destruct (checkTimeout_tick kernelSleepers taskH Hnd) as (_ & HH & _).
  { simpl. tauto. }
  destruct (checkTimeout_tick kernelSleepers timerTask Hnd) as (_ & _ & HT).
  { simpl. tauto. }
  destruct HM as [HM _]; [reflexivity|].
  destruct (HH eq_refl) as (_ & Hs & Hw & _).
  destruct (HT eq_refl) as [HT' _].
  subst k'. split; [reflexivity|]. split; [by rewrite HM|].
  split; [reflexivity|]. split; [exact Hs|]. split; [exact Hw|].
  split; [reflexivity|exact HT'].
Defined.

(** ** Timers *)

Lemma timerListNodeDelete_In (l : list nat) (p q : nat) :
  In q (timerListNodeDelete l p) -> In q l.
Proof.
  induction l as [|h l IH]; simpl; [done|].
  destruct (decide (p = h)); simpl; intuition.
Qed.

Lemma timerListNodeDelete_In_ne (l : list nat) (p q : nat) :
  q <> p -> In q l -> In q (timerListNodeDelete l p).
Proof.
  intros Hne. induction l as [|h l IH]; simpl; [done|].
  destruct (decide (p = h)) as [->|]; simpl; intuition congruence.
Qed.

Lemma timerListNodeDelete_NoDup (l : list nat) (p : nat) :
  NoDup l -> NoDup (timerListNodeDelete l p) /\ ~ In p (timerListNodeDelete l p).
Proof.
  induction 1 as [|h l Hh Hl IH]; simpl; [split; [constructor|tauto]|].
  rewrite list_elem_of_In in Hh.
  destruct (decide (p = h)) as [->|Hne]; [done|].
  destruct IH as [IH1 IH2]. split.
  - constructor; [|done]. rewrite list_elem_of_In.
    intros Hin. by apply timerListNodeDelete_In in Hin.
  - simpl. intros [?|?]; [congruence|done].
Qed.

#[local] Arguments timerStop : simpl never.
#[local] Arguments timerTaskNotify : simpl never.

Lemma updTimer_timers_eq (p : nat) (f : timerNodeType -> timerNodeType) (k : kernel) :
  timers (updTimer p f k) p = f (timers k p).
Proof. unfold updTimer; simpl. apply fn_lookup_insert. Qed.

Lemma updTimer_timers_ne (p q : nat) (f : timerNodeType -> timerNodeType) (k : kernel) :
  p <> q -> timers (updTimer p f k) q = timers k q.
Proof. intros. unfold updTimer; simpl. by apply fn_lookup_insert_ne. Qed.

Section timer_step_facts.
Variables (p : nat) (k : kernel).

Lemma timerTick_timers_eq :
    timers (timerTick p k) p
    = set_ticksToExpire (ticksLeft (timers k p)) (timers k p).
  Proof.
    unfold timerTick, ticksLeft. destruct (0 <? _).
    - apply updTimer_timers_eq.
    - by destruct (timers k p).
  Qed.

Lemma timerTick_timers_ne (q : nat) :
    q <> p -> timers (timerTick p k) q = timers k q.
  Proof.
    intros Hne. unfold timerTick. destruct (0 <? _); [|done].
    by apply updTimer_timers_ne.
  Qed.

Lemma timerTick_frame :
    tcb (timerTick p k) = tcb k /\
    readyQueue (timerTick p k) = readyQueue k /\
    timerList (timerTick p k) = timerList k /\
    timeoutHandlerQueue (timerTick p k) = timeoutHandlerQueue k.
  Proof. unfold timerTick. by destruct (0 <? _). Qed.

Lemma timerTaskNotify_frame :
    timers (timerTaskNotify k) = timers k /\
    timerList (timerTaskNotify k) = timerList k /\
    timeoutHandlerQueue (timerTaskNotify k) = timeoutHandlerQueue k.
  Proof. unfold timerTaskNotify. by destruct (decide _). Qed.

Lemma timerTaskNotify_awake :
    status (tcb k timerTask) <> TASK_STATUS_BLOCKED -> timerTaskNotify k = k.
  Proof. intros Hs. unfold timerTaskNotify. by rewrite decide_False. Qed.

Lemma timerTaskNotify_wakes :
    status (tcb k timerTask) = TASK_STATUS_BLOCKED ->
    timerTaskWoken (timerTaskNotify k).
  Proof.
    intros Hs. unfold timerTaskNotify, timerTaskWoken.
    rewrite decide_True by done. rewrite taskSetReady_tcb_eq.
    split; [done|]. split; [done|]. apply taskSetReady_ready.
  Qed.

Lemma timerStop_timers_ne (q : nat) :
    q <> p -> timers (timerStop p k) q = timers k q.
  Proof.
    intros Hne. unfold timerStop. destruct (isRunning _); [|done].
    simpl. by rewrite fn_lookup_insert_ne.
  Qed.

Lemma timerStop_running :
    isRunning (timers k p) = true ->
    timers (timerStop p k) p = set_isRunning false (timers k p) /\
    timerList (timerStop p k) = timerListNodeDelete (timerList k) p.
  Proof.
    intros Hr. unfold timerStop. rewrite Hr. simpl.
    by rewrite fn_lookup_insert.
  Qed.

Lemma timerStop_frame :
    tcb (timerStop p k) = tcb k /\
    readyQueue (timerStop p k) = readyQueue k /\
    timeoutHandlerQueue (timerStop p k) = timeoutHandlerQueue k.
  Proof. unfold timerStop. by destruct (isRunning _). Qed.

Lemma timerStop_list_cases :
    timerList (timerStop p k) = timerList k \/
    timerList (timerStop p k) = timerListNodeDelete (timerList k) p.
  Proof. unfold timerStop. destruct (isRunning _); [by right|by left]. Qed.
End timer_step_facts.

(** The state before the test of the mode in [timerExpire]. *)
Lemma timerExpire_cases (p : nat) (k : kernel) :
  let k2 := with_timeoutHandlerQueue
              (timeoutHandlerQueuePush (timeoutHandlerQueue k)
                 (timeoutHandler (timers k p))) k in
  let k4 := updTimer p (set_ticksToExpire (intervalTicks (timers k p)))
              (timerTaskNotify k2) in
  (mode (timers k p) = TIMER_MODE_SINGLE_SHOT /\ timerExpire p k = timerStop p k4) \/
  (mode (timers k p) <> TIMER_MODE_SINGLE_SHOT /\ timerExpire p k = k4).
Proof.
  intros k2 k4. unfold timerExpire. fold k2.
  destruct (timerTaskNotify_frame k2) as (Ht & _).
  rewrite Ht. change (timers k2) with (timers k). fold k4.
  assert (Hm : mode (timers k4 p) = mode (timers k p)).
  { unfold k4. by rewrite updTimer_timers_eq, Ht. }
  rewrite Hm.
  destruct (decide (mode (timers k p) = TIMER_MODE_SINGLE_SHOT));
    [left|right]; by split.
Qed.

Section timerExpire_facts.
Variables (p : nat) (k : kernel).

Let k2 := with_timeoutHandlerQueue
              (timeoutHandlerQueuePush (timeoutHandlerQueue k)
                 (timeoutHandler (timers k p))) k.
Let k4 := updTimer p (set_ticksToExpire (intervalTicks (timers k p)))
              (timerTaskNotify k2).

Lemma timerExpire_k4 :
    timers k4 p = set_ticksToExpire (intervalTicks (timers k p)) (timers k p) /\
    (forall q, q <> p -> timers k4 q = timers k q) /\
    timerList k4 = timerList k /\
    timeoutHandlerQueue k4 = timeoutHandlerQueue k ++ [timeoutHandler (timers k p)] /\
    tcb k4 = tcb (timerTaskNotify k2) /\
    readyQueue k4 = readyQueue (timerTaskNotify k2).
  Proof.
    destruct (timerTaskNotify_frame k2) as (Ht & Hl & Hq).
    unfold k4. split; [|split; [|split; [|split]]].
    - by rewrite updTimer_timers_eq, Ht.
    - intros q Hne. rewrite updTimer_timers_ne by done. by rewrite Ht.
    - exact Hl.
    - exact Hq.
    - done.
  Qed.

Lemma timerExpire_timers_ne (q : nat) :
    q <> p -> timers (timerExpire p k) q = timers k q.
  Proof.
    intros Hne. destruct timerExpire_k4 as (_ & Hq & _).
    destruct (timerExpire_cases p k) as [[_ ->]|[_ ->]]; fold k2 k4.
    - rewrite timerStop_timers_ne by done. by apply Hq.
    - by apply Hq.
  Qed.

Lemma timerExpire_handlers :
    timeoutHandlerQueue (timerExpire p k)
    = timeoutHandlerQueue k ++ [timeoutHandler (timers k p)].
  Proof.
    destruct timerExpire_k4 as (_ & _ & _ & Hq & _).
    destruct (timerExpire_cases p k) as [[_ ->]|[_ ->]]; fold k2 k4; [|done].
    destruct (timerStop_frame p k4) as (_ & _ & ->). done.
  Qed.

Lemma timerExpire_tasks :
    tcb (timerExpire p k) = tcb (timerTaskNotify k2) /\
    readyQueue (timerExpire p k) = readyQueue (timerTaskNotify k2).
  Proof.
    destruct timerExpire_k4 as (_ & _ & _ & _ & Ht & Hr).
    destruct (timerExpire_cases p k) as [[_ ->]|[_ ->]]; fold k2 k4; [|done].
    destruct (timerStop_frame p k4) as (-> & -> & _). done.
  Qed.

Lemma timerExpire_list_cases :
    timerList (timerExpire p k) = timerList k \/
    timerList (timerExpire p k) = timerListNodeDelete (timerList k) p.
  Proof.
    destruct timerExpire_k4 as (_ & _ & Hl & _).
    destruct (timerExpire_cases p k) as [[_ ->]|[_ ->]]; fold k2 k4.
    - rewrite <- Hl. apply timerStop_list_cases.
    - by left.
  Qed.

Lemma timerExpire_periodic :
    mode (timers k p) = TIMER_MODE_PERIODIC ->
    timers (timerExpire p k) p
    = set_ticksToExpire (intervalTicks (timers k p)) (timers k p) /\
    timerList (timerExpire p k) = timerList k.
  Proof.
    intros Hm. destruct timerExpire_k4 as (Ht & _ & Hl & _).
    destruct (timerExpire_cases p k) as [[Hc _]|[_ ->]]; fold k2 k4;
      [congruence|done].
  Qed.

Lemma timerExpire_single_shot :
    mode (timers k p) = TIMER_MODE_SINGLE_SHOT ->
    isRunning (timers k p) = true ->
    timers (timerExpire p k) p
    = set_isRunning false
        (set_ticksToExpire (intervalTicks (timers k p)) (timers k p)) /\
    timerList (timerExpire p k) = timerListNodeDelete (timerList k) p.
  Proof.
    intros Hm Hr. destruct timerExpire_k4 as (Ht & _ & Hl & _).
    destruct (timerExpire_cases p k) as [[_ ->]|[Hc _]]; fold k2 k4;
      [|congruence].
    destruct (timerStop_running p k4) as [E1 E2]; [by rewrite Ht|].
    by rewrite E1, E2, Ht, Hl.
  Qed.
End timerExpire_facts.

Section processTimerNode_facts.
Variables (p : nat) (k : kernel).

Lemma processTimerNode_cases :
    (ticksLeft (timers k p) <> 0 /\ processTimerNode p k = timerTick p k) \/
    (ticksLeft (timers k p) = 0 /\
     processTimerNode p k = timerExpire p (timerTick p k)).
  Proof.
    unfold processTimerNode. cbv zeta. rewrite timerTick_timers_eq. simpl.
    destruct (ticksLeft (timers k p) =? 0) eqn:E.
    - right. split; [|done]. by apply Z.eqb_eq.
    - left. split; [|done]. by apply Z.eqb_neq.
  Qed.

Lemma processTimerNode_timers_other (q : nat) :
    q <> p -> timers (processTimerNode p k) q = timers k q.
  Proof.
    intros Hne. destruct processTimerNode_cases as [[_ ->]|[_ ->]].
    - by apply timerTick_timers_ne.
    - rewrite timerExpire_timers_ne by done. by apply timerTick_timers_ne.
  Qed.

Lemma processTimerNode_list_cases :
    timerList (processTimerNode p k) = timerList k \/
    timerList (processTimerNode p k) = timerListNodeDelete (timerList k) p.
  Proof.
    destruct (timerTick_frame p k) as (_ & _ & Hl & _).
    destruct processTimerNode_cases as [[_ ->]|[_ ->]]; [by left|].
    rewrite <- Hl. apply timerExpire_list_cases.
  Qed.

Lemma processTimerNode_list_other (q : nat) :
    q <> p -> In q (timerList k) -> In q (timerList (processTimerNode p k)).
  Proof.
    intros Hne Hin. destruct processTimerNode_list_cases as [-> | ->]; [done|].
    by apply timerListNodeDelete_In_ne.
  Qed.

Lemma processTimerNode_list_sub (q : nat) :
    In q (timerList (processTimerNode p k)) -> In q (timerList k).
  Proof.
    destruct processTimerNode_list_cases as [-> | ->]; [done|].
    apply timerListNodeDelete_In.
  Qed.

Lemma processTimerNode_list_NoDup :
    NoDup (timerList k) -> NoDup (timerList (processTimerNode p k)).
  Proof.
    intros Hnd. destruct processTimerNode_list_cases as [-> | ->]; [done|].
    by apply timerListNodeDelete_NoDup.
  Qed.

Lemma processTimerNode_handlers :
    timeoutHandlerQueue (processTimerNode p k)
    = timeoutHandlerQueue k ++ expiredHandlers (timers k) [p].
  Proof.
    unfold expiredHandlers. cbn [List.filter].
    destruct (timerTick_frame p k) as (_ & _ & _ & Hq).
    destruct processTimerNode_cases as [[Hd ->]|[Hd ->]].
    - rewrite (proj2 (Z.eqb_neq _ _) Hd). cbn. by rewrite app_nil_r.
    - rewrite Hd. cbn [Z.eqb List.map]. rewrite timerExpire_handlers, Hq.
      rewrite timerTick_timers_eq. done.
  Qed.

Lemma processTimerNode_running :
    ticksLeft (timers k p) <> 0 ->
    timers (processTimerNode p k) p
    = set_ticksToExpire (ticksLeft (timers k p)) (timers k p) /\
    timerList (processTimerNode p k) = timerList k /\
    tcb (processTimerNode p k) = tcb k /\
    readyQueue (processTimerNode p k) = readyQueue k.
  Proof.
    intros Hd. destruct (timerTick_frame p k) as (Ht & Hr & Hl & _).
    destruct processTimerNode_cases as [[_ ->]|[Hc _]]; [|done].
    by rewrite timerTick_timers_eq.
  Qed.

Lemma processTimerNode_periodic :
    ticksLeft (timers k p) = 0 ->
    mode (timers k p) = TIMER_MODE_PERIODIC ->
    timers (processTimerNode p k) p
    = set_ticksToExpire (intervalTicks (timers k p)) (timers k p) /\
    timerList (processTimerNode p k) = timerList k.
  Proof.
    intros Hd Hm. destruct (timerTick_frame p k) as (_ & _ & Hl & _).
    destruct processTimerNode_cases as [[Hc _]|[_ ->]]; [done|].
    destruct (timerExpire_periodic p (timerTick p k)) as [E1 E2].
    { by rewrite timerTick_timers_eq. }
    rewrite E1, E2, Hl, timerTick_timers_eq. split; [|done].
    rewrite Hd. unfold ticksLeft in Hd.
    destruct (timers k p) as [h i t m r]. simpl in *.
    destruct (0 <? t) eqn:E; unfold set_ticksToExpire; simpl; done.
  Qed.

Lemma processTimerNode_single_shot :
    ticksLeft (timers k p) = 0 ->
    mode (timers k p) = TIMER_MODE_SINGLE_SHOT ->
    isRunning (timers k p) = true ->
    timers (processTimerNode p k) p
    = set_isRunning false
        (set_ticksToExpire (intervalTicks (timers k p)) (timers k p)) /\
    timerList (processTimerNode p k) = timerListNodeDelete (timerList k) p.
  Proof.
    intros Hd Hm Hr. destruct (timerTick_frame p k) as (_ & _ & Hl & _).
    destruct processTimerNode_cases as [[Hc _]|[_ ->]]; [done|].
    destruct (timerExpire_single_shot p (timerTick p k)) as [E1 E2].
    { by rewrite timerTick_timers_eq. }
    { by rewrite timerTick_timers_eq. }
    rewrite E1, E2, Hl, timerTick_timers_eq. split; [|done].
    by destruct (timers k p).
  Qed.

Lemma processTimerNode_wakes :
    ticksLeft (timers k p) = 0 ->
    status (tcb k timerTask) = TASK_STATUS_BLOCKED ->
    timerTaskWoken (processTimerNode p k).
  Proof.
    intros Hd Hb. destruct (timerTick_frame p k) as (Ht & _).
    destruct processTimerNode_cases as [[Hc _]|[_ ->]]; [done|].
    destruct (timerExpire_tasks p (timerTick p k)) as [E1 E2].
    unfold timerTaskWoken. rewrite E1, E2.
    apply timerTaskNotify_wakes. simpl. by rewrite Ht.
  Qed.

Lemma processTimerNode_awake :
    status (tcb k timerTask) <> TASK_STATUS_BLOCKED ->
    tcb (processTimerNode p k) = tcb k /\
    readyQueue (processTimerNode p k) = readyQueue k.
  Proof.
    intros Hb. destruct (timerTick_frame p k) as (Ht & Hr & _).
    destruct processTimerNode_cases as [[_ ->]|[_ ->]]; [done|].
    destruct (timerExpire_tasks p (timerTick p k)) as [E1 E2].
    rewrite E1, E2, timerTaskNotify_awake; [done|].
    simpl. by rewrite Ht.
  Qed.
End processTimerNode_facts.

Lemma expiredHandlers_ext (f g : nat -> timerNodeType) (nodes : list nat) :
  (forall q, In q nodes -> f q = g q) ->
  expiredHandlers f nodes = expiredHandlers g nodes.
Proof.
  unfold expiredHandlers. induction nodes as [|h nodes IH]; intros Hfg; [done|].
  cbn [List.filter]. rewrite (Hfg h) by (by left).
  specialize (IH (fun q Hq => Hfg q (or_intror Hq))).
  destruct (ticksLeft (g h) =? 0); cbn [List.map]; [|exact IH].
  rewrite (Hfg h) by (by left). by f_equal.
Qed.

Lemma processTimersWalk_other (nodes : list nat) (q : nat) :
  ~ In q nodes ->
  forall k : kernel,
    timers (processTimersWalk nodes k) q = timers k q /\
    (In q (timerList k) -> In q (timerList (processTimersWalk nodes k))).
Proof.
  induction nodes as [|h nodes IH]; intros Hn k; simpl; [done|].
  simpl in Hn.
  destruct (IH (fun H => Hn (or_intror H)) (processTimerNode h k)) as [Ht Hl].
  assert (q <> h) by (intros ->; apply Hn; by left).
  split.
  - rewrite Ht. by apply processTimerNode_timers_other.
  - intros Hin. by apply Hl, processTimerNode_list_other.
Qed.

Lemma processTimersWalk_list_sub (nodes : list nat) (q : nat) :
  forall k : kernel,
    In q (timerList (processTimersWalk nodes k)) -> In q (timerList k).
Proof.
  induction nodes as [|h nodes IH]; intros k; simpl; [done|].
  intros Hin. by apply (processTimerNode_list_sub h), IH.
Qed.

Lemma processTimersWalk_handlers (nodes : list nat) :
  NoDup nodes ->
  forall k : kernel,
    timeoutHandlerQueue (processTimersWalk nodes k)
    = timeoutHandlerQueue k ++ expiredHandlers (timers k) nodes.
Proof.
  induction 1 as [|h nodes Hh Hnd IH]; intros k; simpl.
  - unfold expiredHandlers. cbn. by rewrite app_nil_r.
  - rewrite list_elem_of_In in Hh.
    rewrite IH, processTimerNode_handlers, <- app_assoc. f_equal.
    rewrite (expiredHandlers_ext (timers (processTimerNode h k)) (timers k) nodes).
    + unfold expiredHandlers. cbn [List.filter].
      by destruct (ticksLeft (timers k h) =? 0).
    + intros q Hq. apply processTimerNode_timers_other. by intros ->.
Qed.

Lemma processTimersWalk_woken (nodes : list nat) :
  forall k : kernel,
    timerTaskWoken k -> timerTaskWoken (processTimersWalk nodes k).
Proof.
  induction nodes as [|h nodes IH]; intros k Hw; simpl; [done|].
  apply IH. destruct Hw as (Hs & Hr & Hq).
  destruct (processTimerNode_awake h k) as [Ht Hrq]; [congruence|].
  unfold timerTaskWoken. by rewrite Ht, Hrq.
Qed.

Lemma processTimersWalk_wakes (nodes : list nat) (p : nat) :
  NoDup nodes -> In p nodes ->
  forall k : kernel,
    ticksLeft (timers k p) = 0 ->
    status (tcb k timerTask) = TASK_STATUS_BLOCKED ->
    timerTaskWoken (processTimersWalk nodes k).
Proof.
  induction 1 as [|h nodes Hh Hnd IH]; intros Hin k Hd Hb; [done|].
  rewrite list_elem_of_In in Hh. simpl.
  destruct (Z.eq_dec (ticksLeft (timers k h)) 0) as [Hz|Hz].
  - by apply processTimersWalk_woken, processTimerNode_wakes.
  - destruct Hin as [->|Hin]; [done|].
    destruct (processTimerNode_running h k Hz) as (_ & _ & Ht & _).
    apply IH; [done| |by rewrite Ht].
    rewrite processTimerNode_timers_other; [done|by intros ->].
Qed.

(** What the walk does to a timer it visits once. *)
Lemma processTimersWalk_visit (nodes : list nat) (p : nat) :
  NoDup nodes -> In p nodes ->
  forall k : kernel,
    NoDup (timerList k) -> In p (timerList k) ->
    isRunning (timers k p) = true ->
    let x := timers k p in
    let k' := processTimersWalk nodes k in
    (ticksLeft x <> 0 ->
     timers k' p = set_ticksToExpire (ticksLeft x) x /\ In p (timerList k')) /\
    (ticksLeft x = 0 ->
     (mode x = TIMER_MODE_PERIODIC ->
      timers k' p = set_ticksToExpire (intervalTicks x) x /\
      In p (timerList k')) /\
     (mode x = TIMER_MODE_SINGLE_SHOT ->
      timers k' p = set_isRunning false (set_ticksToExpire (intervalTicks x) x) /\
      ~ In p (timerList k'))).
Proof.
  induction 1 as [|h nodes Hh Hnd IH]; intros Hin k Hl Hp Hrun; [done|].
  rewrite list_elem_of_In in Hh.
  cbn zeta. simpl processTimersWalk.
  destruct (decide (h = p)) as [->|Hne].
  - destruct (processTimersWalk_other nodes p Hh (processTimerNode p k)) as [Ht Hk].
    pose proof (processTimersWalk_list_sub nodes p (processTimerNode p k)) as Hs.
    rewrite Ht. split; [|split].
    + intros Hd. destruct (processTimerNode_running p k Hd) as (E1 & E2 & _).
      split; [done|]. apply Hk. by rewrite E2.
    + intros Hm. destruct (processTimerNode_periodic p k H Hm) as (E1 & E2).
      split; [done|]. apply Hk. by rewrite E2.
    + intros Hm.
      destruct (processTimerNode_single_shot p k H Hm Hrun) as (E1 & E2).
      split; [done|]. intros Hc. apply Hs in Hc. rewrite E2 in Hc.
      by apply (timerListNodeDelete_NoDup (timerList k) p Hl).
  - assert (Hin' : In p nodes) by (by destruct Hin).
    assert (Hpe : timers (processTimerNode h k) p = timers k p).
    { apply processTimerNode_timers_other. by intros ->. }
    specialize (IH Hin' (processTimerNode h k)
                  (processTimerNode_list_NoDup h k Hl)
                  (processTimerNode_list_other h k p (not_eq_sym Hne) Hp)).
    rewrite Hpe in IH. by apply IH.
Qed.

(** C9.  [processTimers], on a [timerList] that links each timer once, for
    a running timer of the list: a positive [ticksToExpire] is decremented;
    if no tick is left then, the handler has been appended to
    [timeoutHandlerQueue] (after the handlers of the timers that precede it
    in the list and expire too), the timer task, if it was BLOCKED, is READY
    in the ready queue with wake-up reason TIMER_TIMEOUT, [ticksToExpire] is
    [intervalTicks] again, a PERIODIC timer stays in the list, and a
    SINGLE_SHOT timer has [isRunning] cleared and is off the list. *)
Theorem processTimers_tick (k : kernel) (p : nat) :
  NoDup (timerList k) ->
  In p (timerList k) ->
  isRunning (timers k p) = true ->
  let x := timers k p in
  let k' := processTimers k in
  timeoutHandlerQueue k'
  = timeoutHandlerQueue k ++ expiredHandlers (timers k) (timerList k) /\
  (ticksLeft x <> 0 ->
   timers k' p = set_ticksToExpire (ticksLeft x) x /\ In p (timerList k')) /\
  (ticksLeft x = 0 ->
   In (timeoutHandler x) (timeoutHandlerQueue k') /\
   (status (tcb k timerTask) = TASK_STATUS_BLOCKED ->
    status (tcb k' timerTask) = TASK_STATUS_READY /\
    wakeupReason (tcb k' timerTask) = TIMER_TIMEOUT /\
    In timerTask (readyQueue k')) /\
   (mode x = TIMER_MODE_PERIODIC ->
    timers k' p = set_ticksToExpire (intervalTicks x) x /\
    In p (timerList k')) /\
   (mode x = TIMER_MODE_SINGLE_SHOT ->
    timers k' p = set_isRunning false (set_ticksToExpire (intervalTicks x) x) /\
    ~ In p (timerList k'))).
Proof.
  intros Hnd Hin Hrun x k'.
  pose proof (processTimersWalk_handlers (timerList k) Hnd k) as Hq.
  destruct (processTimersWalk_visit (timerList k) p Hnd Hin k Hnd Hin Hrun)
    as (Hdec & Hexp).
  split; [exact Hq|]. split; [exact Hdec|].
  intros Hd. destruct (Hexp Hd) as (Hper & Hone).
  split; [|split; [|split; [exact Hper|exact Hone]]].
  - subst k'. unfold processTimers. rewrite Hq. apply in_or_app. right.
    unfold expiredHandlers. apply (in_map (fun q => timeoutHandler (timers k q))).
    apply filter_In. split; [done|]. fold x. by rewrite Hd.
  - intros Hb.
    by apply (processTimersWalk_wakes (timerList k) p Hnd Hin k Hd Hb).
Qed.

Lemma processTimers_tick_witness :
  let k' := processTimers kernelTimers in
  timeoutHandlerQueue k' = [0%nat; 5%nat] /\
  ticksToExpire (timers k' 7%nat) = 2 /\
  ticksToExpire (timers k' 5%nat) = 4 /\
  In 5%nat (timerList k') /\
  isRunning (timers k' 0%nat) = false /\
  ~ In 0%nat (timerList k') /\
  wakeupReason (tcb k' timerTask) = TIMER_TIMEOUT.
Proof.
  intros k'.
  assert (Hnd : NoDup (timerList kernelTimers)).
  { apply (bool_decide_unpack _). vm_compute. exact I. }
  destruct (processTimers_tick kernelTimers 7%nat Hnd) as (Hq & H7 & _);
    [simpl; tauto|reflexivity|].
  destruct (processTimers_tick kernelTimers 5%nat Hnd) as (_ & _ & H5);
    [simpl; tauto|reflexivity|].
  destruct (processTimers_tick kernelTimers 0%nat Hnd) as (_ & _ & H0);
    [simpl; tauto|reflexivity|].
  destruct H7 as [H7 _]; [vm_compute; intros H; discriminate H|].
  destruct (H5 eq_refl) as (_ & Hw & H5p & _).
  destruct (H5p eq_refl) as [H5t H5l].
  destruct (H0 eq_refl) as (_ & _ & _ & H0s).
  destruct (H0s eq_refl) as [H0t H0l].
  destruct (Hw eq_refl) as (_ & Hwr & _).
  subst k'. split; [exact Hq|]. split; [by rewrite H7|].
  split; [by rewrite H5t|]. split; [exact H5l|].
  split; [by rewrite H0t|]. split; [exact H0l|exact Hwr].
Defined.

(** ** Message queue *)

Section ring_arithmetic.
Local Open Scope nat_scope.

Lemma index_advance (S L a : nat) :
  0 < S -> 0 < L -> (a * S + S) mod (L * S) = ((a + 1) mod L) * S.
Proof.
  intros HS HL. replace (a * S + S) with ((a + 1) * S) by lia.
  apply Nat.Div0.mul_mod_distr_r.
Qed.

Lemma slot_distinct (L r j c : nat) :
  j < c -> c < L -> (r + j) mod L <> (r + c) mod L.
Proof.
  intros Hj Hc Heq.
  pose proof (Nat.div_mod_eq (r + j) L) as H1.
  pose proof (Nat.div_mod_eq (r + c) L) as H2.
  rewrite Heq in H1.
  assert (Hd : c - j = L * ((r + c) / L) - L * ((r + j) / L)) by lia.
  assert (Hle : (r + j) / L <= (r + c) / L) by (apply Nat.Div0.div_le_mono; lia).
  destruct (decide ((r + j) / L = (r + c) / L)) as [E|E]; [rewrite E in Hd; lia|].
  nia.
Qed.

Lemma memcpy_read_back (buf x : list Byte.byte) (i n : nat) :
  length x = n -> i + n <= length buf ->
  memcpy_from (memcpy_to buf i x n) i n = x.
Proof.
  intros Hx Hb. unfold memcpy_from, memcpy_to.
  rewrite (take_ge x) by lia.
  apply list_eq. intros t.
  destruct (decide (t < n)) as [Ht|Ht].
  - rewrite lookup_take_lt by done. rewrite lookup_drop.
    rewrite list_lookup_inserts by lia. f_equal. lia.
  - rewrite lookup_take_ge by lia. symmetry. apply lookup_ge_None. lia.
Qed.

Lemma memcpy_read_apart (buf x : list Byte.byte) (i j n : nat) :
  length x = n -> i + n <= j \/ j + n <= i ->
  memcpy_from (memcpy_to buf i x n) j n = memcpy_from buf j n.
Proof.
  intros Hx Hij. unfold memcpy_from, memcpy_to.
  rewrite (take_ge x) by lia.
  apply list_eq. intros t.
  destruct (decide (t < n)) as [Ht|Ht].
  - rewrite !lookup_take_lt by done. rewrite !lookup_drop.
    destruct Hij as [Hij|Hij].
    + apply list_lookup_inserts_ge. lia.
    + apply list_lookup_inserts_lt. lia.
  - by rewrite !lookup_take_ge by lia.
Qed.

Lemma memcpy_to_length (buf x : list Byte.byte) (i n : nat) :
  length (memcpy_to buf i x n) = length buf.
Proof. apply length_inserts. Qed.

End ring_arithmetic.

Section msgQueue_steps.
Local Open Scope nat_scope.

Lemma updMsgQueue_eq (p : nat) (f : msgQueueHandleType -> msgQueueHandleType)
    (k : kernel) :
  msgQueues (updMsgQueue p f k) p = f (msgQueues k p).
Proof. unfold updMsgQueue; simpl. apply fn_lookup_insert. Qed.

Lemma msgQueueBufferWrite_queue (p : nat) (x : list Byte.byte) (k : kernel) :
  let q := msgQueues k p in
  let q' := msgQueues (msgQueueBufferWrite p x k) p in
  buffer q' = memcpy_to (buffer q) (writeIndex q) x (itemSize q) /\
  writeIndex q' = (writeIndex q + itemSize q) mod (queueLength q * itemSize q) /\
  itemCount q' = itemCount q + 1 /\
  readIndex q' = readIndex q /\
  queueLength q' = queueLength q /\
  itemSize q' = itemSize q.
Proof.
  intros q q'. subst q'. unfold msgQueueBufferWrite. cbv zeta.
  set (k3 := updMsgQueue p _ (updMsgQueue p _ (updMsgQueue p _ k))).
  assert (H3 : msgQueues k3 p
               = set_itemCount (itemCount q + 1)
                   (set_writeIndex
                      ((writeIndex q + itemSize q) mod (queueLength q * itemSize q))
                      (set_buffer
                         (memcpy_to (buffer q) (writeIndex q) x (itemSize q)) q))).
  { unfold k3. by rewrite !updMsgQueue_eq. }
  destruct (taskQueueGet _) as [[c|] cq].
  - rewrite taskSetReady_msgQueues, updMsgQueue_eq, H3. done.
  - rewrite updMsgQueue_eq, H3. done.
Qed.

Lemma msgQueueBufferRead_queue (p : nat) (k : kernel) :
  let q := msgQueues k p in
  let q' := msgQueues (fst (msgQueueBufferRead p k)) p in
  snd (msgQueueBufferRead p k) = memcpy_from (buffer q) (readIndex q) (itemSize q) /\
  buffer q' = buffer q /\
  readIndex q' = (readIndex q + itemSize q) mod (queueLength q * itemSize q) /\
  itemCount q' = itemCount q - 1 /\
  writeIndex q' = writeIndex q /\
  queueLength q' = queueLength q /\
  itemSize q' = itemSize q.
Proof.
  intros q q'. subst q'. unfold msgQueueBufferRead. cbv zeta.
  set (k3 := updMsgQueue p _ (updMsgQueue p _ k)).
  assert (H3 : msgQueues k3 p
               = set_itemCount (itemCount q - 1)
                   (set_readIndex
                      ((readIndex q + itemSize q) mod (queueLength q * itemSize q)) q)).
  { unfold k3. by rewrite !updMsgQueue_eq. }
  destruct (taskQueueGet _) as [[c|] cq]; cbn [fst snd].
  - rewrite taskSetReady_msgQueues, updMsgQueue_eq, H3. done.
  - rewrite updMsgQueue_eq, H3. done.
Qed.

Lemma msgQueueSend_room (p : nat) (x : list Byte.byte) (w : Z) (k : kernel) :
  msgQueueFull (msgQueues k p) = false ->
  msgQueueSend (Some p) x w k = (msgQueueBufferWrite p x k, Returned SUCCESS).
Proof.
  intros Hf. unfold msgQueueSend, mbind, call_bind, gets, modify. cbn.
  by rewrite Hf.
Qed.

Lemma msgQueueReceive_data (p : nat) (w : Z) (k : kernel) :
  msgQueueEmpty (msgQueues k p) = false ->
  msgQueueReceive (Some p) w k
  = (fst (msgQueueBufferRead p k),
     Returned (SUCCESS, Some (snd (msgQueueBufferRead p k)))).
Proof.
  intros He. unfold msgQueueReceive, mbind, call_bind, gets, lift. cbn.
  rewrite He. cbn. by destruct (msgQueueBufferRead p k).
Qed.

(** A send into a queue that is not full appends the item. *)
Lemma msgQueueSend_appends (p : nat) (x : list Byte.byte) (w : Z) (k : kernel)
    (r c : nat) :
  msgQueueAt (msgQueues k p) r c ->
  c < queueLength (msgQueues k p) ->
  length x = itemSize (msgQueues k p) ->
  exists k',
    run (msgQueueSend (Some p) x w) k [] = Some (k', SUCCESS) /\
    msgQueueAt (msgQueues k' p) r (c + 1) /\
    msgQueueItems (msgQueues k' p) r (c + 1)
    = msgQueueItems (msgQueues k p) r c ++ [x] /\
    queueLength (msgQueues k' p) = queueLength (msgQueues k p) /\
    itemSize (msgQueues k' p) = itemSize (msgQueues k p).
Proof.
  intros (HS & HL & Hlen & Hr & Hc & Hri & Hcnt & Hwi) Hroom Hx.
  exists (msgQueueBufferWrite p x k).
  assert (Hfull : msgQueueFull (msgQueues k p) = false).
  { unfold msgQueueFull. apply Nat.eqb_neq. lia. }
  split; [by rewrite run_nil, msgQueueSend_room|].
  destruct (msgQueueBufferWrite_queue p x k) as (Hb & Hw' & Hc' & Hr' & HL' & HS').
  set (q := msgQueues k p) in *.
  set (q' := msgQueues (msgQueueBufferWrite p x k) p) in *.
  assert (Hslot : (r + c) mod queueLength q < queueLength q)
    by (apply Nat.mod_upper_bound; lia).
  split; [|split; [|by split]].
  - unfold msgQueueAt. rewrite HS', HL', Hb, memcpy_to_length, Hr', Hc', Hw'.
    repeat split; try done; try lia.
    rewrite Hwi, index_advance by done.
    by rewrite Nat.Div0.add_mod_idemp_l, Nat.add_assoc.
  - unfold msgQueueItems. rewrite HL'.
    replace (c + 1) with (S c) by lia.
    rewrite seq_S, map_app. cbn [List.map plus]. f_equal.
    + apply map_ext_in. intros j Hj. apply in_seq in Hj.
      unfold msgQueueSlot. rewrite HS', Hb, Hwi.
      apply memcpy_read_apart; [done|].
      pose proof (slot_distinct (queueLength q) r j c) as Hd.
      assert (Hj' : (r + j) mod queueLength q < queueLength q)
        by (apply Nat.mod_upper_bound; lia).
      nia.
    + f_equal. unfold msgQueueSlot. rewrite HS', Hb, Hwi.
      apply memcpy_read_back; [done|]. rewrite Hlen. nia.
Qed.

(** A receive from a queue that is not empty takes the oldest item. *)
Lemma msgQueueReceive_takes (p : nat) (w : Z) (k : kernel) (r c : nat) :
  msgQueueAt (msgQueues k p) r (S c) ->
  exists k',
    run (msgQueueReceive (Some p) w) k []
    = Some (k', (SUCCESS, Some (msgQueueSlot (msgQueues k p) r))) /\
    msgQueueAt (msgQueues k' p) ((r + 1) mod queueLength (msgQueues k p)) c /\
    msgQueueItems (msgQueues k p) r (S c)
    = msgQueueSlot (msgQueues k p) r
      :: msgQueueItems (msgQueues k' p) ((r + 1) mod queueLength (msgQueues k p)) c /\
    queueLength (msgQueues k' p) = queueLength (msgQueues k p) /\
    itemSize (msgQueues k' p) = itemSize (msgQueues k p).
Proof.
  intros (HS & HL & Hlen & Hr & Hc & Hri & Hcnt & Hwi).
  exists (fst (msgQueueBufferRead p k)).
  assert (Hempty : msgQueueEmpty (msgQueues k p) = false).
  { unfold msgQueueEmpty. apply Nat.eqb_neq. lia. }
  destruct (msgQueueBufferRead_queue p k)
    as (Hitem & Hb & Hr' & Hc' & Hw' & HL' & HS').
  set (q := msgQueues k p) in *.
  set (q' := msgQueues (fst (msgQueueBufferRead p k)) p) in *.
  split; [|split; [|split; [|by split]]].
  - rewrite run_nil, msgQueueReceive_data by done. fold q.
    rewrite Hitem. unfold msgQueueSlot. by rewrite Hri.
  - unfold msgQueueAt. rewrite HS', HL', Hb, Hr', Hc', Hw'.
    assert ((r + 1) mod queueLength q < queueLength q)
      by (apply Nat.mod_upper_bound; lia).
    repeat split; try done; try lia.
    + rewrite Hri. by apply index_advance.
    + rewrite Hwi. f_equal.
      rewrite Nat.Div0.add_mod_idemp_l. f_equal. lia.
  - unfold msgQueueItems. cbn [seq List.map].
    f_equal.
    + rewrite Nat.add_0_r. by rewrite Nat.mod_small.
    + rewrite <- seq_shift, map_map. rewrite HL'.
      apply map_ext. intros j. unfold msgQueueSlot. rewrite HS', Hb.
      rewrite Nat.Div0.add_mod_idemp_l. do 3 f_equal. lia.
Qed.



End msgQueue_steps.



(** ** Condition variable *)

(** C8.  A wait that times out while another task holds the mutex returns
    [true].  In the run below nobody signals the condition variable;
    [taskH] is woken by the time-out with wake-up reason WAIT_TIMEOUT, finds
    the mutex taken by [taskL] and blocks in [mutexLock]; the unlock of
    [taskL] hands the mutex over and overwrites the wake-up reason with
    MUTEX_LOCKED, which is what [condVarWait] then reads. *)
Theorem condVarWait_timeout_lost :
  taskPool_currentTask cvHlocked = taskH /\
  ownerTask (mutexes cvHlocked 0%nat) = Some taskH /\
  In taskH (condVarWaitQueue (condVars cvHwaits 0%nat)) /\
  status (tcb cvHwaits taskH) = TASK_STATUS_BLOCKED /\
  ownerTask (mutexes cvLlocked 0%nat) = Some taskL /\
  taskPool_currentTask cvTimedOut = taskH /\
  wakeupReason (tcb cvTimedOut taskH) = WAIT_TIMEOUT /\
  condVarWaitQueue (condVars cvTimedOut 0%nat) = [] /\
  status (tcb cvHblocked taskH) = TASK_STATUS_BLOCKED /\
  blockedReason (tcb cvHblocked taskH) = WAIT_FOR_MUTEX /\
  taskPool_currentTask cvHblocked = taskL /\
  taskPool_currentTask cvLunlocked = taskH /\
  ownerTask (mutexes cvLunlocked 0%nat) = Some taskH /\
  wakeupReason (tcb cvLunlocked taskH) = MUTEX_LOCKED /\
  run (condVarWait true 0 2) cvHlocked [cvTimedOut; cvLunlocked]
  = Some (cvLunlocked, true).
Proof. vm_compute. repeat split; (reflexivity || (by left)). Qed.

(** ** More on the mutex *)

Lemma updMutex_ne (p q : nat) (f : mutexHandleType -> mutexHandleType) (k : kernel) :
  p <> q -> mutexes (updMutex p f k) q = mutexes k q.
Proof. intros. unfold updMutex; simpl. by apply fn_lookup_insert_ne. Qed.

Lemma mutexInherit_mutex (pi : bool) (p : nat) (cur : taskId) (k : kernel) (q : nat) :
  locked (mutexes (mutexInherit pi p cur k) q) = locked (mutexes k q) /\
  ownerTask (mutexes (mutexInherit pi p cur k) q) = ownerTask (mutexes k q) /\
  waitQueue (mutexes (mutexInherit pi p cur k) q) = waitQueue (mutexes k q).
Proof.
  unfold mutexInherit. destruct pi; [|done].
  destruct (ownerTask (mutexes k p)) as [owner|]; [|done].
  destruct (_ <? _); [|done].
  destruct (_ =? -1); [|done].
  cbn. destruct (decide (p = q)) as [->|Hne].
  - by rewrite fn_lookup_insert.
  - by rewrite fn_lookup_insert_ne.
Qed.

Lemma mutexInherit_frame (pi : bool) (p : nat) (cur : taskId) (k : kernel) :
  taskPool_currentTask (mutexInherit pi p cur k) = taskPool_currentTask k /\
  readyQueue (mutexInherit pi p cur k) = readyQueue k /\
  blockedQueue (mutexInherit pi p cur k) = blockedQueue k /\
  (forall t, status (tcb (mutexInherit pi p cur k) t) = status (tcb k t)).
Proof.
  unfold mutexInherit. destruct pi; [|done].
  destruct (ownerTask (mutexes k p)) as [owner|]; [|done].
  destruct (_ <? _); [|done].
  assert (Hs : forall (k0 : kernel) v t,
             status (tcb (updTask owner (set_priority v) k0) t) = status (tcb k0 t)).
  { intros k0 v t. destruct (decide (owner = t)) as [->|Hne].
    - by rewrite updTask_tcb_eq.
    - by rewrite updTask_tcb_ne. }
  destruct (_ =? -1); repeat split; try done; intros t; by rewrite Hs.
Qed.

Lemma mutexInherit_off (p : nat) (cur : taskId) (k : kernel) :
  mutexInherit false p cur k = k.
Proof. reflexivity. Qed.

Lemma mutexInherit_no_owner (pi : bool) (p : nat) (cur : taskId) (k : kernel) :
  ownerTask (mutexes k p) = None -> mutexInherit pi p cur k = k.
Proof. intros Ho. unfold mutexInherit. rewrite Ho. by destruct pi. Qed.

(** The fields of the mutexes in the state [mutexLock] leaves. *)
Lemma mutexLock_mutexes (pi : bool) (p : nat) (w : Z) (k : kernel) (q : nat) :
  let k' := fst (mutexLock pi p w k) in
  let cur := taskPool_currentTask k in
  (q <> p ->
   locked (mutexes k' q) = locked (mutexes k q) /\
   ownerTask (mutexes k' q) = ownerTask (mutexes k q) /\
   waitQueue (mutexes k' q) = waitQueue (mutexes k q)) /\
  (locked (mutexes k p) = false ->
   locked (mutexes k' p) = true /\
   ownerTask (mutexes k' p) = Some cur /\
   waitQueue (mutexes k' p) = waitQueue (mutexes k p)) /\
  (locked (mutexes k p) = true ->
   locked (mutexes k' p) = true /\
   ownerTask (mutexes k' p) = ownerTask (mutexes k p) /\
   (w = TASK_NO_WAIT -> waitQueue (mutexes k' p) = waitQueue (mutexes k p)) /\
   (w <> TASK_NO_WAIT ->
    waitQueue (mutexes k' p)
    = taskQueueAdd (tcb (mutexInherit pi p cur k)) (waitQueue (mutexes k p)) cur)).
Proof.
  cbn zeta. rewrite mutexLock_unfold. cbn zeta.
  set (cur := taskPool_currentTask k).
  set (k1 := mutexInherit pi p cur k).
  destruct (mutexInherit_mutex pi p cur k p) as (Hl & Ho & Hw). fold k1 in Hl, Ho, Hw.
  assert (Hblock : forall f,
             mutexes (fst ((taskBlock cur WAIT_FOR_MUTEX w
                              ≫= (fun _ => mutexLockWoken p cur))
                             (updMutex p f k1)))
             = mutexes (updMutex p f k1)).
  { intros f. rewrite taskBlock_bind. cbn zeta.
    destruct (decide _); [rewrite mutexLockWoken_state|];
      cbn [fst];
      exact (proj1 (scheduleNextTask_frame
                      (taskBlockMark cur WAIT_FOR_MUTEX w (updMutex p f k1)))). }
  split; [|split].
  - intros Hne. destruct (mutexInherit_mutex pi p cur k q) as (Hl' & Ho' & Hw').
    fold k1 in Hl', Ho', Hw'.
    destruct (negb (locked (mutexes k1 p))).
    { cbn [fst]. by rewrite !updMutex_ne by done. }
    destruct (_ && _); [done|].
    rewrite Hblock. by rewrite updMutex_ne by done.
  - intros Hf. rewrite Hl, Hf. cbn [negb fst].
    rewrite !updMutex_eq. cbn. by rewrite Hw.
  - intros Ht. rewrite Hl, Ht. cbn [negb]. rewrite andb_true_r.
    destruct (w =? TASK_NO_WAIT) eqn:Ew.
    + apply Z.eqb_eq in Ew. cbn [fst]. by rewrite Hl, Ht, Ho, Hw.
    + apply Z.eqb_neq in Ew. rewrite Hblock, updMutex_eq. cbn.
      rewrite Hl, Ht, Ho, Hw. done.
Qed.

Lemma mutexRestore_any (pi : bool) (p : nat) (k : kernel) (q : nat) :
  locked (mutexes (mutexRestore pi p k) q) = locked (mutexes k q) /\
  ownerTask (mutexes (mutexRestore pi p k) q) = ownerTask (mutexes k q) /\
  waitQueue (mutexes (mutexRestore pi p k) q) = waitQueue (mutexes k q).
Proof.
  unfold mutexRestore. destruct pi; [|done].
  destruct (negb _); [|done].
  assert (H : forall k0 : kernel,
             mutexes k0 = mutexes k ->
             locked (mutexes (updMutex p (set_ownerDefaultPriority (-1)) k0) q)
             = locked (mutexes k q) /\
             ownerTask (mutexes (updMutex p (set_ownerDefaultPriority (-1)) k0) q)
             = ownerTask (mutexes k q) /\
             waitQueue (mutexes (updMutex p (set_ownerDefaultPriority (-1)) k0) q)
             = waitQueue (mutexes k q)).
  { intros k0 E. destruct (decide (p = q)) as [->|Hne].
    - by rewrite updMutex_eq, E.
    - by rewrite updMutex_ne, E. }
  destruct (ownerTask (mutexes k p)); by apply H.
Qed.

Lemma mutexRestore_not_boosted (pi : bool) (p : nat) (k : kernel) :
  ownerDefaultPriority (mutexes k p) = -1 -> mutexRestore pi p k = k.
Proof. intros Hd. unfold mutexRestore. rewrite Hd. by destruct pi. Qed.

Lemma mutexRestore_frame (pi : bool) (p : nat) (k : kernel) :
  taskPool_currentTask (mutexRestore pi p k) = taskPool_currentTask k /\
  readyQueue (mutexRestore pi p k) = readyQueue k /\
  (forall t, wakeupReason (tcb (mutexRestore pi p k) t) = wakeupReason (tcb k t)).
Proof.
  unfold mutexRestore. destruct pi; [|done].
  destruct (negb _); [|done].
  destruct (ownerTask (mutexes k p)) as [owner|]; [|done].
  repeat split. intros t. cbn.
  destruct (decide (owner = t)) as [->|Hne].
  - by rewrite fn_lookup_insert.
  - by rewrite fn_lookup_insert_ne.
Qed.

(** The fields [locked] and [ownerTask] in the state the critical section
    of [mutexUnlock] leaves. *)
Lemma mutexUnlockCritical_mutexes (pi : bool) (p : nat) (k : kernel) (q : nat) :
  let k' := fst (mutexUnlockCritical pi p k) in
  (q <> p ->
   locked (mutexes k' q) = locked (mutexes k q) /\
   ownerTask (mutexes k' q) = ownerTask (mutexes k q)) /\
  (ownerTask (mutexes k p) = Some (taskPool_currentTask k) ->
   locked (mutexes k p) = true ->
   locked (mutexes k' p) = bool_decide (waitQueue (mutexes k p) <> []) /\
   ownerTask (mutexes k' p) = head (waitQueue (mutexes k p))) /\
  (~ (ownerTask (mutexes k p) = Some (taskPool_currentTask k) /\
      locked (mutexes k p) = true) ->
   k' = k).
Proof.
  cbn zeta. unfold mutexUnlockCritical.
  destruct (mutexRestore_any pi p k p) as (Hl & Ho & Hw).
  destruct (decide (ownerTask (mutexes k p) = Some (taskPool_currentTask k)))
    as [Hown|Hown]; [|split; [done|split; [by intros H|done]]].
  destruct (locked (mutexes k p)) eqn:Hlk;
    [|split; [done|split; [by intros _ H|done]]].
  split; [|split; [|tauto]].
  - intros Hne. destruct (mutexRestore_any pi p k q) as (Hl' & Ho' & _).
    rewrite Hw. destruct (waitQueue (mutexes k p)) as [|next rest]; cbn.
    + by rewrite !fn_lookup_insert_ne by done.
    + rewrite taskSetReady_mutexes. cbn.
      by rewrite !fn_lookup_insert_ne by done.
  - intros _ _. rewrite Hw.
    destruct (waitQueue (mutexes k p)) as [|next rest]; cbn.
    + by rewrite !fn_lookup_insert.
    + rewrite taskSetReady_mutexes. cbn. rewrite !fn_lookup_insert. cbn.
      by rewrite Hl.
Qed.

(** X1.  [mutexLock] on a free mutex returns RET_SUCCESS at once, whatever
    [waitTicks] is, and the caller owns the locked mutex; a [mutexUnlock]
    by the caller right after returns RET_SUCCESS at once as well and
    leaves every mutex, every TCB and the task queues as they were before
    the lock. *)
Theorem mutex_lock_unlock_free (pi : bool) (p : nat) (w : Z) (k : kernel) :
  mutexFree (mutexes k p) ->
  exists k1 k2 : kernel,
    mutexLock pi p w k = (k1, Returned RET_SUCCESS) /\
    locked (mutexes k1 p) = true /\
    ownerTask (mutexes k1 p) = Some (taskPool_currentTask k) /\
    mutexUnlock pi p k1 = (k2, Returned RET_SUCCESS) /\
    (forall q, mutexes k2 q = mutexes k q) /\
    tcb k2 = tcb k /\
    readyQueue k2 = readyQueue k /\
    blockedQueue k2 = blockedQueue k /\
    taskPool_currentTask k2 = taskPool_currentTask k.
Proof.
  intros (Hl & Ho & Hd & Hw).
  set (cur := taskPool_currentTask k).
  set (k1 := updMutex p (set_ownerTask (Some cur)) (updMutex p (set_locked true) k)).
  assert (Hlock : mutexLock pi p w k = (k1, Returned RET_SUCCESS)).
  { rewrite mutexLock_unfold. cbn zeta.
    rewrite mutexInherit_no_owner by done. by rewrite Hl. }
  assert (Hm1 : mutexes k1 p = mkMutex true (Some cur) (-1) []).
  { unfold k1. rewrite !updMutex_eq. destruct (mutexes k p); cbn in *.
    by subst. }
  set (k2 := updMutex p (set_locked false)
               (updMutex p (set_ownerTask None)
                  (updMutex p (set_waitQueue []) k1))).
  assert (Hunlock : mutexUnlock pi p k1 = (k2, Returned RET_SUCCESS)).
  { rewrite mutexUnlock_unfold. unfold mutexUnlockCritical.
    rewrite (mutexRestore_not_boosted pi p k1) by (by rewrite Hm1).
    rewrite Hm1. cbn [ownerTask locked waitQueue taskQueueGet].
    by rewrite decide_True. }
  exists k1, k2. split; [exact Hlock|].
  split; [by rewrite Hm1|]. split; [by rewrite Hm1|].
  split; [exact Hunlock|].
  split; [|done].
  intros q. unfold k2. destruct (decide (p = q)) as [<-|Hne].
  - rewrite !updMutex_eq, Hm1. destruct (mutexes k p); cbn in *. by subst.
  - rewrite !updMutex_ne by done. unfold k1. by rewrite !updMutex_ne.
Qed.

Lemma mutex_lock_unlock_free_witness :
  exists k1 k2 : kernel,
    mutexLock true 0 TASK_MAX_WAIT exampleKernel = (k1, Returned RET_SUCCESS) /\
    ownerTask (mutexes k1 0%nat) = Some taskL /\
    mutexUnlock true 0 k1 = (k2, Returned RET_SUCCESS) /\
    mutexes k2 0%nat = mutexes exampleKernel 0%nat.
Proof.
  destruct (mutex_lock_unlock_free true 0%nat TASK_MAX_WAIT exampleKernel)
    as (k1 & k2 & Hl & _ & Ho & Hu & Hm & _).
  - unfold mutexFree. simpl. repeat split; reflexivity.
  - exists k1, k2. split; [exact Hl|]. split; [exact Ho|].
    split; [exact Hu|exact (Hm 0%nat)].
Defined.

(** X2.  [mutexLock], up to where it returns or gives the processor away,
    and [mutexUnlock] keep the invariant of the mutex: every mutex is
    locked exactly when it has an owner. *)
Theorem mutex_invariant_kept (pi : bool) (p : nat) (w : Z) (k : kernel) :
  (forall q, mutexInv (mutexes k q)) ->
  (forall q, mutexInv (mutexes (fst (mutexLock pi p w k)) q)) /\
  (forall q, mutexInv (mutexes (fst (mutexUnlock pi p k)) q)).
Proof.
  intros Hinv. split; intros q.
  - destruct (mutexLock_mutexes pi p w k q) as (Hother & Hfree & Hbusy).
    destruct (decide (q = p)) as [->|Hne].
    + destruct (locked (mutexes k p)) eqn:Hl.
      * destruct (Hbusy eq_refl) as (Hl' & Ho' & _).
        unfold mutexInv. rewrite Hl', Ho'. split; [|done].
        intros _. by apply (Hinv p).
      * destruct (Hfree eq_refl) as (Hl' & Ho' & _).
        unfold mutexInv. rewrite Hl', Ho'. done.
    + destruct (Hother Hne) as (Hl' & Ho' & _).
      unfold mutexInv. rewrite Hl', Ho'. apply Hinv.
  - rewrite mutexUnlock_mutexes.
    destruct (mutexUnlockCritical_mutexes pi p k q) as (Hother & Hdone & Hfail).
    destruct (decide (q = p)) as [->|Hne].
    + destruct (decide (ownerTask (mutexes k p) = Some (taskPool_currentTask k)
                        /\ locked (mutexes k p) = true)) as [[Ho Hl]|Hn].
      * destruct (Hdone Ho Hl) as [Hl' Ho'].
        unfold mutexInv. rewrite Hl', Ho'.
        destruct (waitQueue (mutexes k p)); cbn; [|done].
        split; [done|tauto].
      * rewrite (Hfail Hn). apply Hinv.
    + destruct (Hother Hne) as (Hl' & Ho').
      unfold mutexInv. rewrite Hl', Ho'. apply Hinv.
Qed.

Lemma mutex_invariant_kept_witness :
  mutexInv (mutexes (fst (mutexLock true 0 1 kernelHruns)) 0%nat) /\
  mutexInv (mutexes (fst (mutexUnlock true 0 kernelLheld)) 0%nat).
Proof.
  assert (H1 : forall q, mutexInv (mutexes kernelHruns q)).
  { intros q. unfold mutexInv. destruct q as [|q]; vm_compute.
    - split; [intros _ H; discriminate H|reflexivity].
    - split; [intros H; discriminate H|intros H; destruct (H eq_refl)]. }
  assert (H2 : forall q, mutexInv (mutexes kernelLheld q)).
  { intros q. unfold mutexInv. destruct q as [|q]; vm_compute.
    - split; [intros _ H; discriminate H|reflexivity].
    - split; [intros H; discriminate H|intros H; destruct (H eq_refl)]. }
  split.
  - exact (proj1 (mutex_invariant_kept true 0%nat 1 kernelHruns H1) 0%nat).
  - exact (proj2 (mutex_invariant_kept true 0%nat 1 kernelLheld H2) 0%nat).
Defined.

Lemma mutexInherit_priority (p : nat) (cur : taskId) (k : kernel) (t : taskId) :
  priority (tcb (mutexInherit true p cur k) t)
  = (if bool_decide (ownerTask (mutexes k p) = Some t)
     then Z.min (priority (tcb k t)) (priority (tcb k cur))
     else priority (tcb k t)).
Proof.
  unfold mutexInherit.
  destruct (ownerTask (mutexes k p)) as [owner|] eqn:Ho.
  - destruct (priority (tcb k cur) <? priority (tcb k owner)) eqn:E.
    + assert (Hp : forall k0 : kernel,
                 tcb k0 = tcb k ->
                 priority (tcb (updTask owner (set_priority (priority (tcb k0 cur))) k0) t)
                 = (if bool_decide (Some owner = Some t)
                    then Z.min (priority (tcb k t)) (priority (tcb k cur))
                    else priority (tcb k t))).
      { intros k0 E0. apply Z.ltb_lt in E.
        destruct (decide (owner = t)) as [->|Hne].
        - rewrite updTask_tcb_eq, bool_decide_eq_true_2, E0 by done. cbn. lia.
        - rewrite updTask_tcb_ne, bool_decide_eq_false_2, E0 by congruence. done. }
      destruct (_ =? -1); by apply Hp.
    + apply Z.ltb_ge in E. case_bool_decide as Hd; [|done].
      injection Hd as ->. lia.
  - by rewrite bool_decide_eq_false_2.
Qed.

(** X3.  With priority inheritance compiled in, in the state in which
    [mutexLock] returns or gives the processor away, the task that owned
    the mutex at the call has the better of its own and the caller's
    priority, so its priority is numerically no greater than the caller's;
    no other task's priority has changed. *)
Theorem mutexLock_bounds_inversion (p : nat) (w : Z) (k : kernel) (owner : taskId) :
  ownerTask (mutexes k p) = Some owner ->
  let cur := taskPool_currentTask k in
  let k' := fst (mutexLock true p w k) in
  priority (tcb k' owner) = Z.min (priority (tcb k owner)) (priority (tcb k cur)) /\
  priority (tcb k' owner) <= priority (tcb k' cur) /\
  (forall t, t <> owner -> priority (tcb k' t) = priority (tcb k t)).
Proof.
  intros Ho cur k'. subst k'.
  destruct (mutexLock_after_inherit true p w k) as [Hp _]. fold cur in Hp.
  assert (Howner : priority (tcb (fst (mutexLock true p w k)) owner)
                   = Z.min (priority (tcb k owner)) (priority (tcb k cur))).
  { rewrite Hp, mutexInherit_priority. by rewrite bool_decide_eq_true_2. }
  split; [exact Howner|]. split.
  - rewrite Howner, Hp, mutexInherit_priority.
    case_bool_decide; lia.
  - intros t Hne. rewrite Hp, mutexInherit_priority.
    rewrite bool_decide_eq_false_2; [done|]. rewrite Ho. congruence.
Qed.

Lemma mutexLock_bounds_inversion_witness :
  priority (tcb kernelHruns taskL) = 200 /\
  priority (tcb kernelHruns taskH) = 100 /\
  priority (tcb (fst (mutexLock true 0 1 kernelHruns)) taskL) = 100 /\
  priority (tcb (fst (mutexLock true 0 1 kernelHruns)) taskL)
  <= priority (tcb (fst (mutexLock true 0 1 kernelHruns)) taskH).
Proof.
  destruct (mutexLock_bounds_inversion 0%nat 1 kernelHruns taskL eq_refl)
    as (H1 & H2 & _).
  split; [reflexivity|]. split; [reflexivity|]. split; [exact H1|exact H2].
Defined.

(** The task handed the mutex by [mutexUnlock]. *)
Lemma mutexUnlock_next_owner (pi : bool) (p : nat) (e0 : kernel)
    (next : taskId) (rest : taskQueueType) :
  ownerTask (mutexes e0 p) = Some (taskPool_currentTask e0) ->
  locked (mutexes e0 p) = true ->
  waitQueue (mutexes e0 p) = next :: rest ->
  let e := fst (mutexUnlock pi p e0) in
  ownerTask (mutexes e p) = Some next /\
  wakeupReason (tcb e next) = MUTEX_LOCKED.
Proof.
  intros Ho Hl Hw e. subst e.
  destruct (mutexUnlockCritical_mutexes pi p e0 p) as (_ & Hdone & _).
  destruct (Hdone Ho Hl) as [_ Ho'].
  split; [by rewrite mutexUnlock_mutexes, Ho', Hw|].
  assert (Hwr : wakeupReason (tcb (fst (mutexUnlockCritical pi p e0)) next) = MUTEX_LOCKED).
  { unfold mutexUnlockCritical. rewrite decide_True, Hl by done.
    destruct (mutexRestore_any pi p e0 p) as (_ & _ & Hw').
    rewrite Hw', Hw. cbn. by rewrite taskSetReady_tcb_eq. }
  rewrite mutexUnlock_unfold. cbn zeta.
  destruct (snd (snd _)); cbn [fst]; [|exact Hwr].
  by rewrite (proj2 (proj2 (scheduleNextTask_frame _))).
Qed.

(** X4.  A [mutexLock] with a non-zero [waitTicks] on a locked mutex puts
    the caller on the wait queue of the mutex.  Once it has given the
    processor away: resumed right after a [mutexUnlock] of the owner that
    finds the caller first in the wait queue, it returns RET_SUCCESS and
    the caller owns the mutex; resumed in a state where its wake-up reason
    is not MUTEX_LOCKED, it returns RET_TIMEOUT. *)
Theorem mutexLock_wait_outcome (pi : bool) (p : nat) (w : Z) (k : kernel) :
  locked (mutexes k p) = true ->
  w <> TASK_NO_WAIT ->
  let A := taskPool_currentTask k in
  (exists c, snd (mutexLock pi p w k) = Suspended c) ->
  In A (waitQueue (mutexes (fst (mutexLock pi p w k)) p)) /\
  (forall (e0 : kernel) (rest : taskQueueType),
     ownerTask (mutexes e0 p) = Some (taskPool_currentTask e0) ->
     locked (mutexes e0 p) = true ->
     waitQueue (mutexes e0 p) = A :: rest ->
     let e := fst (mutexUnlock pi p e0) in
     run (mutexLock pi p w) k [e] = Some (e, RET_SUCCESS) /\
     ownerTask (mutexes e p) = Some A) /\
  (forall e : kernel,
     wakeupReason (tcb e A) <> MUTEX_LOCKED ->
     run (mutexLock pi p w) k [e] = Some (e, RET_TIMEOUT)).
Proof.
  intros Hl Hw A [c Hc].
  destruct (mutexLock_mutexes pi p w k p) as (_ & _ & Hbusy).
  destruct (Hbusy Hl) as (_ & _ & _ & Hq).
  split; [rewrite (Hq Hw), taskQueueAdd_In; by left|].
  assert (Hres : forall e, c e = mutexLockWoken p A e).
  { revert Hc. rewrite mutexLock_unfold. cbn zeta.
    destruct (mutexInherit_mutex pi p A k p) as (Hl1 & _). fold A.
    rewrite Hl1, Hl. cbn [negb]. rewrite andb_true_r.
    rewrite (proj2 (Z.eqb_neq _ _) Hw).
    rewrite taskBlock_bind. cbn zeta.
    destruct (decide _).
    - rewrite mutexLockWoken_eq. cbn [snd]. discriminate.
    - cbn [snd]. intros [= <-]. done. }
  assert (Hrun : forall e, run (mutexLock pi p w) k [e]
                           = let (e', r) := mutexLockWoken p A e in
                             match r with
                             | Returned rc => Some (e', rc)
                             | _ => None
                             end).
  { intros e. rewrite run_cons.
    destruct (mutexLock pi p w k) as [k1 r]. cbn [snd] in Hc. subst r.
    rewrite run_nil, Hres. by destruct (mutexLockWoken p A e) as [? [?| |]]. }
  split.
  - intros e0 rest Ho0 Hl0 Hw0 e.
    destruct (mutexUnlock_next_owner pi p e0 A rest Ho0 Hl0 Hw0) as [Hown Hwr].
    fold e in Hown, Hwr. split; [|exact Hown].
    rewrite Hrun, mutexLockWoken_eq.
    by rewrite !bool_decide_eq_true_2.
  - intros e Hwr. rewrite Hrun, mutexLockWoken_eq.
    by rewrite (bool_decide_eq_false_2 _ Hwr).
Qed.

Lemma mutexLock_wait_outcome_witness :
  let kb := fst (mutexLock true 0 5 kernelHruns) in
  let e := fst (mutexUnlock true 0 kb) in
  taskPool_currentTask kb = taskL /\
  run (mutexLock true 0 5) kernelHruns [e] = Some (e, RET_SUCCESS) /\
  ownerTask (mutexes e 0%nat) = Some taskH /\
  priority (tcb e taskL) = 200.
Proof.
  intros kb e.
  destruct (mutexLock_wait_outcome true 0%nat 5 kernelHruns eq_refl)
    as (_ & Hhand & _).
  - intros H. discriminate H.
  - eexists. vm_compute. reflexivity.
  - destruct (Hhand kb [] eq_refl eq_refl eq_refl) as [Hrun Hown].
    split; [reflexivity|]. split; [exact Hrun|]. split; [exact Hown|reflexivity].
Defined.

(** ** More on the semaphore *)

Lemma updSemaphore_eq (p : nat) (f : semaphoreHandleType -> semaphoreHandleType)
    (k : kernel) :
  semaphores (updSemaphore p f k) p = f (semaphores k p).
Proof. unfold updSemaphore; simpl. apply fn_lookup_insert. Qed.

Lemma semaphoreTake_unfold (p : nat) (w : Z) (k : kernel) :
  semaphoreTake p w k
  = let c := count (semaphores k p) in
    let cur := taskPool_currentTask k in
    if negb (c =? 0) then
      (updSemaphore p (set_count (c - 1)) k, Returned RET_SUCCESS)
    else if w =? TASK_NO_WAIT then (k, Returned RET_BUSY)
    else
      (taskBlock cur WAIT_FOR_SEMAPHORE w
         ≫= (fun _ =>
               gets (fun e => wakeupReason (tcb e cur))
                 ≫= (fun reason =>
                       if decide (reason = SEMAPHORE_TAKEN)
                       then mret RET_SUCCESS else mret RET_TIMEOUT)))
        (updSemaphore p
           (set_semWaitQueue
              (taskQueueAdd (tcb k) (semWaitQueue (semaphores k p)) cur)) k).
Proof.
  unfold semaphoreTake at 1. unfold mbind at 1, call_bind at 1, gets at 1.
  cbn. destruct (negb _); [reflexivity|].
  destruct (w =? TASK_NO_WAIT); reflexivity.
Qed.

Lemma semaphoreTake_woken (cur : taskId) (e : kernel) :
  (gets (fun e => wakeupReason (tcb e cur))
     ≫= (fun reason =>
           if decide (reason = SEMAPHORE_TAKEN)
           then mret RET_SUCCESS else mret RET_TIMEOUT)) e
  = (e, Returned (if decide (wakeupReason (tcb e cur) = SEMAPHORE_TAKEN)
                  then RET_SUCCESS else RET_TIMEOUT)).
Proof.
  unfold mbind, call_bind, gets. cbn. by destruct (decide _).
Qed.

(** The semaphores in the state [semaphoreTake] leaves. *)
Lemma semaphoreTake_semaphore (p : nat) (w : Z) (k : kernel) :
  let s := semaphores k p in
  let s' := semaphores (fst (semaphoreTake p w k)) p in
  maxCount s' = maxCount s /\
  (count s <> 0 -> count s' = count s - 1 /\ semWaitQueue s' = semWaitQueue s) /\
  (count s = 0 -> count s' = 0) /\
  (count s = 0 -> w <> TASK_NO_WAIT ->
   semWaitQueue s'
   = taskQueueAdd (tcb k) (semWaitQueue s) (taskPool_currentTask k)).
Proof.
  cbn zeta. rewrite semaphoreTake_unfold. cbn zeta.
  destruct (count (semaphores k p) =? 0) eqn:Ec; cbn [negb].
  - apply Z.eqb_eq in Ec.
    destruct (w =? TASK_NO_WAIT) eqn:Ew.
    + apply Z.eqb_eq in Ew. cbn [fst]. repeat split; try done; lia.
    + rewrite taskBlock_bind. cbn zeta.
      set (k1 := updSemaphore p _ k).
      assert (Hs : semaphores (scheduleNextTask (taskBlockMark
                      (taskPool_currentTask k) WAIT_FOR_SEMAPHORE w k1)) = semaphores k1).
      { unfold scheduleNextTask, requeueCurrent.
        destruct (negb _); [|done].
        destruct (decide _).
        - destruct (taskQueuePeek _); [|done].
          destruct (_ <=? _); [|done].
          cbv zeta. by destruct (taskQueueGet _) as [[?|] ?].
        - cbv zeta. by destruct (taskQueueGet _) as [[?|] ?]. }
      assert (H1 : semaphores k1 p
                   = set_semWaitQueue
                       (taskQueueAdd (tcb k) (semWaitQueue (semaphores k p))
                          (taskPool_currentTask k)) (semaphores k p)).
      { unfold k1. by rewrite updSemaphore_eq. }
      destruct (decide _); [rewrite semaphoreTake_woken|]; cbn [fst];
        rewrite Hs, H1; cbn; repeat split; try done; lia.
  - apply Z.eqb_neq in Ec. cbn [fst]. rewrite updSemaphore_eq. cbn.
    repeat split; try done; lia.
Qed.

(** X6.  A [semaphoreTake] with a non-zero [waitTicks] on a semaphore
    without a unit puts the caller on the wait queue.  Once it has given
    the processor away: resumed right after a [semaphoreGive] that finds the
    caller first in the wait queue, it returns RET_SUCCESS, and the give
    has left the count as it was; resumed with any wake-up reason other
    than SEMAPHORE_TAKEN it returns RET_TIMEOUT. *)
Theorem semaphoreTake_wait_outcome (p : nat) (w : Z) (k : kernel) :
  count (semaphores k p) = 0 ->
  w <> TASK_NO_WAIT ->
  let A := taskPool_currentTask k in
  (exists c, snd (semaphoreTake p w k) = Suspended c) ->
  In A (semWaitQueue (semaphores (fst (semaphoreTake p w k)) p)) /\
  (forall (e0 : kernel) (rest : taskQueueType),
     count (semaphores e0 p) <> maxCount (semaphores e0 p) ->
     semWaitQueue (semaphores e0 p) = A :: rest ->
     let e := fst (semaphoreGive p e0) in
     snd (semaphoreGive p e0) = RET_SUCCESS /\
     run (semaphoreTake p w) k [e] = Some (e, RET_SUCCESS) /\
     count (semaphores e p) = count (semaphores e0 p)) /\
  (forall e : kernel,
     wakeupReason (tcb e A) <> SEMAPHORE_TAKEN ->
     run (semaphoreTake p w) k [e] = Some (e, RET_TIMEOUT)).
Proof.
  intros Hc Hw A [c Hsusp].
  destruct (semaphoreTake_semaphore p w k) as (_ & _ & _ & Hq).
  split; [rewrite (Hq Hc Hw), taskQueueAdd_In; by left|].
  assert (Hrun : forall e, run (semaphoreTake p w) k [e]
                           = Some (e, if decide (wakeupReason (tcb e A) = SEMAPHORE_TAKEN)
                                      then RET_SUCCESS else RET_TIMEOUT)).
  { intros e. rewrite run_cons. revert Hsusp.
    rewrite semaphoreTake_unfold. cbn zeta. rewrite Hc. cbn [Z.eqb negb].
    rewrite (proj2 (Z.eqb_neq _ _) Hw).
    rewrite taskBlock_bind. cbn zeta. fold A.
    destruct (decide _).
    - rewrite semaphoreTake_woken. cbn [snd]. discriminate.
    - intros _. by rewrite run_nil, semaphoreTake_woken. }
  split.
  - intros e0 rest Hroom Hwq e. subst e. unfold semaphoreGive.
    rewrite (proj2 (Z.eqb_neq _ _) Hroom), Hwq. cbn [negb taskQueueGet fst snd].
    split; [done|]. split.
    + rewrite Hrun, taskSetReady_tcb_eq. cbn. by rewrite decide_True.
    + rewrite taskSetReady_semaphores. cbn. by rewrite fn_lookup_insert.
  - intros e Hwr. rewrite Hrun. by rewrite decide_False.
Qed.

Lemma semaphoreTake_wait_outcome_witness :
  let kb := fst (semaphoreTake 0 5 exampleKernel) in
  let e := fst (semaphoreGive 0 kb) in
  semWaitQueue (semaphores kb 0%nat) = [taskL] /\
  taskPool_currentTask kb = idleTask /\
  run (semaphoreTake 0 5) exampleKernel [e] = Some (e, RET_SUCCESS) /\
  count (semaphores e 0%nat) = 0.
Proof.
  intros kb e.
  destruct (semaphoreTake_wait_outcome 0%nat 5 exampleKernel eq_refl)
    as (_ & Hgive & _).
  - intros H. discriminate H.
  - eexists. vm_compute. reflexivity.
  - destruct (Hgive kb [] ) as (_ & Hrun & Hcount).
    + vm_compute. intros H. discriminate H.
    + reflexivity.
    + split; [reflexivity|]. split; [reflexivity|].
      split; [exact Hrun|exact (eq_trans Hcount eq_refl)].
Defined.

(** ** More on the condition variable *)

Lemma updCondVar_eq (p : nat) (f : condVarHandleType -> condVarHandleType)
    (k : kernel) :
  condVars (updCondVar p f k) p = f (condVars k p).
Proof. unfold updCondVar; simpl. apply fn_lookup_insert. Qed.

Lemma taskSetReady_condVars (t : taskId) (wr : wakeupReasonType) (k : kernel) (p : nat) :
  condVars (taskSetReady t wr k) p = condVarUnwait t (condVars k p).
Proof. reflexivity. Qed.

Lemma taskSetReady_wokenBy (t : taskId) (wr : wakeupReasonType) (k : kernel) :
  wokenBy wr (taskSetReady t wr k) t.
Proof.
  unfold wokenBy. rewrite taskSetReady_tcb_eq.
  split; [done|]. split; [done|]. apply taskSetReady_ready.
Qed.

Lemma taskSetReady_wokenBy_other (t u : taskId) (wr wr' : wakeupReasonType) (k : kernel) :
  u <> t -> wokenBy wr' k u -> wokenBy wr' (taskSetReady t wr k) u.
Proof.
  intros Hne (Hs & Hw & Hr). unfold wokenBy.
  rewrite taskSetReady_tcb_ne by done. split; [done|]. split; [done|].
  rewrite taskSetReady_readyQueue, taskQueueAdd_In. by right.
Qed.

(** X7.  [condVarSignal] on a condition variable nobody waits on returns
    [false] and touches no task.  Otherwise it returns [true] and wakes
    exactly the first waiter: that task leaves the wait queue and is READY
    in the ready queue with wake-up reason COND_VAR_SIGNALLED; the TCB of
    every other task is unchanged. *)
Theorem condVarSignal_wakes_head (p : nat) (k : kernel) :
  let k' := fst (condVarSignal p k) in
  match condVarWaitQueue (condVars k p) with
  | [] =>
      snd (condVarSignal p k) = false /\
      tcb k' = tcb k /\ readyQueue k' = readyQueue k /\
      condVarWaitQueue (condVars k' p) = []
  | t :: rest =>
      snd (condVarSignal p k) = true /\
      wokenBy COND_VAR_SIGNALLED k' t /\
      condVarWaitQueue (condVars k' p) = taskQueueRemove rest t /\
      (forall u, u <> t -> tcb k' u = tcb k u)
  end.
Proof.
  cbn zeta. unfold condVarSignal.
  destruct (condVarWaitQueue (condVars k p)) as [|t rest]; cbn.
  - by rewrite fn_lookup_insert.
  - split; [done|]. split; [apply taskSetReady_wokenBy|].
    split.
    + rewrite taskSetReady_condVars. cbn. by rewrite fn_lookup_insert.
    + intros u Hne. by rewrite taskSetReady_tcb_ne.
Qed.

Lemma condVarSignal_wakes_head_witness :
  let k' := fst (condVarSignal 0 kernelWaiters) in
  snd (condVarSignal 0 kernelWaiters) = true /\
  wokenBy COND_VAR_SIGNALLED k' taskH /\
  condVarWaitQueue (condVars k' 0%nat) = [taskM] /\
  tcb k' taskM = tcb kernelWaiters taskM.
Proof.
  intros k'.
  pose proof (condVarSignal_wakes_head 0%nat kernelWaiters) as H.
  change (condVarWaitQueue (condVars kernelWaiters 0%nat)) with [taskH; taskM] in H.
  destruct H as (Hr & Hw & Hq & Ho).
  split; [exact Hr|]. split; [exact Hw|]. split; [exact Hq|].
  apply Ho. intros H. discriminate H.
Defined.

Section condVarBroadcast_facts.
Variable p : nat.

Lemma condVarBroadcastLoop_drains (fuel : nat) :
  forall k : kernel,
    (length (condVarWaitQueue (condVars k p)) <= fuel)%nat ->
    let k' := condVarBroadcastLoop fuel p k in
    condVarWaitQueue (condVars k' p) = [] /\
    (forall t, In t (condVarWaitQueue (condVars k p)) ->
               status (tcb k t) <> TASK_STATUS_SUSPENDED ->
               wokenBy COND_VAR_SIGNALLED k' t) /\
    (forall t, status (tcb k t) = TASK_STATUS_SUSPENDED -> tcb k' t = tcb k t) /\
    (forall t, wokenBy COND_VAR_SIGNALLED k t -> wokenBy COND_VAR_SIGNALLED k' t).
Proof.
  induction fuel as [|fuel IH]; intros k Hlen; cbn zeta.
  - destruct (condVarWaitQueue (condVars k p)) as [|t rest] eqn:Hq;
      [|cbn in Hlen; lia].
    cbn. rewrite Hq. split; [done|]. split; [done|]. split; done.
  - cbn [condVarBroadcastLoop].
    destruct (condVarWaitQueue (condVars k p)) as [|t rest] eqn:Hq.
    { cbn. rewrite Hq. split; [done|]. split; [done|]. split; done. }
    cbn [taskQueueGet].
    set (k1 := updCondVar p (set_condVarWaitQueue rest) k).
    set (k2 := if decide (status (tcb k1 t) <> TASK_STATUS_SUSPENDED)
               then taskSetReady t COND_VAR_SIGNALLED k1 else k1).
    assert (Hq1 : condVarWaitQueue (condVars k1 p) = rest).
    { unfold k1. by rewrite updCondVar_eq. }
    assert (Hq2 : condVarWaitQueue (condVars k2 p) = rest \/
                  condVarWaitQueue (condVars k2 p) = taskQueueRemove rest t).
    { unfold k2. destruct (decide _); [right|by left].
      rewrite taskSetReady_condVars. unfold condVarUnwait.
      cbn [condVarWaitQueue]. by rewrite Hq1. }
    assert (Hother : forall u, u <> t -> tcb k2 u = tcb k u).
    { intros u Hne. unfold k2. destruct (decide _); [|done].
      by rewrite taskSetReady_tcb_ne. }
    assert (Hin2 : forall u, u <> t -> In u rest ->
                             In u (condVarWaitQueue (condVars k2 p))).
    { intros u Hne Hin. destruct Hq2 as [-> | ->]; [done|].
      by apply taskQueueRemove_In_ne. }
    assert (Hlen2 : (length (condVarWaitQueue (condVars k2 p)) <= fuel)%nat).
    { cbn in Hlen. destruct Hq2 as [-> | ->]; [lia|].
      assert (length (taskQueueRemove rest t) <= length rest)%nat; [|lia].
      clear. induction rest as [|h rest IH]; cbn; [lia|].
      destruct (decide (h = t)); cbn; lia. }
    destruct (IH k2 Hlen2) as (Hempty & Hwake & Hsusp & Hkeep).
    split; [exact Hempty|]. split; [|split].
    + intros u Hin Hst. destruct (decide (u = t)) as [->|Hne].
      * apply Hkeep. unfold k2. rewrite decide_True by done.
        apply taskSetReady_wokenBy.
      * apply Hwake.
        -- apply Hin2; [done|]. destruct Hin as [<-|Hin]; [done|done].
        -- by rewrite Hother.
    + intros u Hst. destruct (decide (u = t)) as [->|Hne].
      * rewrite Hsusp; unfold k2; rewrite decide_False; try done;
          intros Hc; by apply Hc.
      * rewrite Hsusp by (by rewrite Hother). by apply Hother.
    + intros u Hw. apply Hkeep. unfold k2.
      destruct (decide _) as [Hst|Hst]; [|exact Hw].
      destruct (decide (u = t)) as [->|Hne].
      * apply taskSetReady_wokenBy.
      * by apply taskSetReady_wokenBy_other.
Qed.

End condVarBroadcast_facts.

(** X8.  [condVarBroadcast] on a condition variable nobody waits on returns
    [false] and changes nothing.  Otherwise it returns [true], its loop ends
    with the wait queue empty, every waiter that is not SUSPENDED is READY
    in the ready queue with wake-up reason COND_VAR_SIGNALLED, and a
    SUSPENDED waiter is taken off the wait queue with its TCB untouched. *)
Theorem condVarBroadcast_wakes_all (p : nat) (k : kernel) :
  let q := condVarWaitQueue (condVars k p) in
  let k' := fst (condVarBroadcast p k) in
  (q = [] -> condVarBroadcast p k = (k, false)) /\
  (q <> [] ->
   snd (condVarBroadcast p k) = true /\
   condVarWaitQueue (condVars k' p) = [] /\
   (forall t, In t q -> status (tcb k t) <> TASK_STATUS_SUSPENDED ->
              wokenBy COND_VAR_SIGNALLED k' t) /\
   (forall t, status (tcb k t) = TASK_STATUS_SUSPENDED -> tcb k' t = tcb k t)).
Proof.
  cbn zeta. unfold condVarBroadcast. split.
  - intros ->. done.
  - intros Hne.
    destruct (condVarWaitQueue (condVars k p)) as [|t rest] eqn:Hq; [done|].
    cbn [taskQueueEmpty negb fst snd]. split; [done|].
    destruct (condVarBroadcastLoop_drains p (length (t :: rest)) k) as (H1 & H2 & H3 & _).
    { by rewrite Hq. }
    rewrite Hq in H2. done.
Qed.

Lemma condVarBroadcast_wakes_all_witness :
  let k' := fst (condVarBroadcast 0 kernelWaiters) in
  snd (condVarBroadcast 0 kernelWaiters) = true /\
  condVarWaitQueue (condVars k' 0%nat) = [] /\
  wokenBy COND_VAR_SIGNALLED k' taskH /\
  tcb k' taskM = tcb kernelWaiters taskM /\
  status (tcb k' taskM) = TASK_STATUS_SUSPENDED.
Proof.
  intros k'.
  destruct (condVarBroadcast_wakes_all 0%nat kernelWaiters) as [_ H].
  destruct H as (Hr & Hq & Hw & Hs).
  - intros H. discriminate H.
  - split; [exact Hr|]. split; [exact Hq|]. split.
    + apply Hw; [simpl; tauto|]. vm_compute. intros H. discriminate H.
    + split; [exact (Hs taskM eq_refl)|reflexivity].
Defined.

(** *** Sequencing *)

Lemma bind_returned {A B : Type} (m : call A) (f : A -> call B)
    (k k1 : kernel) (a : A) :
  m k = (k1, Returned a) -> (m ≫= f) k = f a k1.
Proof. intros H. unfold mbind, call_bind. by rewrite H. Qed.

Lemma bind_suspended {A B : Type} (m : call A) (f : A -> call B)
    (k k1 : kernel) (c : call A) :
  m k = (k1, Suspended c) -> (m ≫= f) k = (k1, Suspended (c ≫= f)).
Proof. intros H. unfold mbind, call_bind. by rewrite H. Qed.

(** The scheduler leaves the synchronisation primitives alone. *)
Lemma scheduleNextTask_primitives (k : kernel) :
  semaphores (scheduleNextTask k) = semaphores k /\
  condVars (scheduleNextTask k) = condVars k /\
  msgQueues (scheduleNextTask k) = msgQueues k.
Proof.
  unfold scheduleNextTask, requeueCurrent.
  destruct (negb _); [|done].
  destruct (decide _).
  - destruct (taskQueuePeek _); [|done].
    destruct (_ <=? _); [|done].
    cbv zeta. by destruct (taskQueueGet _) as [[?|] ?].
  - cbv zeta. by destruct (taskQueueGet _) as [[?|] ?].
Qed.

Lemma mutexUnlockCritical_current (pi : bool) (p : nat) (k : kernel) :
  taskPool_currentTask (fst (mutexUnlockCritical pi p k)) = taskPool_currentTask k.
Proof.
  unfold mutexUnlockCritical.
  destruct (decide _); [|done]. destruct (locked _); [|done].
  destruct (mutexRestore_frame pi p k) as (Hc & _).
  destruct (taskQueueGet _) as [[next|] q]; cbn; exact Hc.
Qed.

Lemma condVarWait_unfold (pi : bool) (cv : nat) (w : Z) (k : kernel) (m : nat) :
  pMutex (condVars k cv) = Some m ->
  condVarWait pi cv w k
  = (condVarMutex cv (mutexUnlock pi)
       ≫= (fun _ =>
             gets taskPool_currentTask
               ≫= (fun cur =>
                     modify (fun e =>
                       updCondVar cv
                         (set_condVarWaitQueue
                            (taskQueueAdd (tcb e) (condVarWaitQueue (condVars e cv)) cur)) e)
                       ≫= (fun _ =>
                             taskBlock cur WAIT_FOR_COND_VAR w
                               ≫= (fun _ => condVarWaitWoken pi cv cur))))) k.
Proof.
  intros Hm. unfold condVarWait at 1.
  unfold mbind at 1, call_bind at 1, gets at 1. cbn [res_bind].
  rewrite Hm. reflexivity.
Qed.

Lemma condVarMutex_eq (cv : nat) (f : nat -> call retCodeType) (k : kernel) (m : nat) :
  pMutex (condVars k cv) = Some m ->
  condVarMutex cv f k = (f m ≫= (fun _ => mret tt)) k.
Proof.
  intros Hm. unfold condVarMutex at 1.
  unfold mbind at 1, call_bind at 1, gets at 1. cbn [res_bind].
  by rewrite Hm.
Qed.

Lemma mutexInherit_wakeupReason (pi : bool) (p : nat) (cur : taskId) (k : kernel)
    (t : taskId) :
  wakeupReason (tcb (mutexInherit pi p cur k) t) = wakeupReason (tcb k t).
Proof.
  unfold mutexInherit. destruct pi; [|done].
  destruct (ownerTask (mutexes k p)) as [owner|]; [|done].
  destruct (_ <? _); [|done].
  assert (Hs : forall (k0 : kernel) v,
             wakeupReason (tcb (updTask owner (set_priority v) k0) t)
             = wakeupReason (tcb k0 t)).
  { intros k0 v. destruct (decide (owner = t)) as [->|Hne].
    - by rewrite updTask_tcb_eq.
    - by rewrite updTask_tcb_ne. }
  destruct (_ =? -1); by rewrite Hs.
Qed.

(** The re-acquisition of a mutex that is free. *)
Lemma condVarWaitWoken_free (pi : bool) (cv : nat) (cur : taskId) (e : kernel) (m : nat) :
  pMutex (condVars e cv) = Some m ->
  locked (mutexes e m) = false ->
  exists e' : kernel,
    condVarWaitWoken pi cv cur e
    = (e', Returned (negb (bool_decide (wakeupReason (tcb e cur) = WAIT_TIMEOUT)))) /\
    locked (mutexes e' m) = true /\
    ownerTask (mutexes e' m) = Some (taskPool_currentTask e).
Proof.
  intros Hm Hl.
  set (e1 := mutexInherit pi m (taskPool_currentTask e) e).
  set (e' := updMutex m (set_ownerTask (Some (taskPool_currentTask e)))
               (updMutex m (set_locked true) e1)).
  assert (Hlock : mutexLock pi m TASK_MAX_WAIT e = (e', Returned RET_SUCCESS)).
  { rewrite mutexLock_unfold. cbn zeta. fold e1.
    destruct (mutexInherit_mutex pi m (taskPool_currentTask e) e m) as (Hl1 & _).
    fold e1 in Hl1. by rewrite Hl1, Hl. }
  exists e'. split; [|split].
  - unfold condVarWaitWoken.
    rewrite (bind_returned _ _ e e' tt).
    2:{ rewrite (condVarMutex_eq cv _ e m Hm).
        by rewrite (bind_returned _ _ e e' _ Hlock). }
    unfold mbind, call_bind, gets. cbn [res_bind].
    assert (Hwr : wakeupReason (tcb e' cur) = wakeupReason (tcb e cur)).
    { unfold e'. cbn. apply mutexInherit_wakeupReason. }
    rewrite Hwr. by destruct (decide _) as [E|E];
      [rewrite bool_decide_eq_true_2|rewrite bool_decide_eq_false_2].
  - unfold e'. by rewrite !updMutex_eq.
  - unfold e'. by rewrite !updMutex_eq.
Qed.

(** X9.  [condVarWait] by the owner of the associated mutex, with nobody
    waiting for the mutex: where it gives the processor away the mutex is
    free and the caller is on the wait queue of the condition variable.
    When the caller is resumed and finds the mutex free, the call returns
    with the caller owning the mutex again, and it returns [false] exactly
    when the wake-up reason it was resumed with is WAIT_TIMEOUT. *)
Theorem condVarWait_wake_free_mutex (pi : bool) (cv : nat) (w : Z) (k : kernel) (m : nat) :
  let A := taskPool_currentTask k in
  pMutex (condVars k cv) = Some m ->
  ownerTask (mutexes k m) = Some A ->
  locked (mutexes k m) = true ->
  waitQueue (mutexes k m) = [] ->
  (exists c, snd (condVarWait pi cv w k) = Suspended c) ->
  let k1 := fst (condVarWait pi cv w k) in
  locked (mutexes k1 m) = false /\
  ownerTask (mutexes k1 m) = None /\
  In A (condVarWaitQueue (condVars k1 cv)) /\
  (forall e : kernel,
     taskPool_currentTask e = A ->
     pMutex (condVars e cv) = Some m ->
     locked (mutexes e m) = false ->
     exists e' : kernel,
       run (condVarWait pi cv w) k [e]
       = Some (e', negb (bool_decide (wakeupReason (tcb e A) = WAIT_TIMEOUT))) /\
       locked (mutexes e' m) = true /\
       ownerTask (mutexes e' m) = Some A).
Proof.
  intros A Hm Ho Hl Hw [c Hc] k1. subst k1.
  assert (Hcrit : snd (snd (mutexUnlockCritical pi m k)) = false).
  { unfold mutexUnlockCritical. rewrite decide_True, Hl by done.
    destruct (mutexRestore_any pi m k m) as (_ & _ & Hw').
    by rewrite Hw', Hw. }
  set (ku := fst (mutexUnlockCritical pi m k)).
  assert (Hunlock : mutexUnlock pi m k
                    = (ku, Returned (fst (snd (mutexUnlockCritical pi m k))))).
  { rewrite mutexUnlock_unfold. cbn zeta. by rewrite Hcrit. }
  destruct (mutexUnlockCritical_mutexes pi m k m) as (_ & Hdone & _).
  destruct (Hdone Ho Hl) as [Hlu Hou]. fold ku in Hlu, Hou.
  rewrite Hw in Hlu, Hou. cbn in Hlu, Hou.
  assert (Hcu : taskPool_currentTask ku = A) by apply mutexUnlockCritical_current.
  assert (Hcvu : condVars ku = condVars k).
  { unfold ku, mutexUnlockCritical. rewrite decide_True, Hl by done.
    destruct (mutexRestore_any pi m k m) as (_ & _ & Hw').
    rewrite Hw', Hw. cbn.
    unfold mutexRestore. destruct pi; [|done]. destruct (negb _); [|done].
    by destruct (ownerTask (mutexes k m)). }
  set (k2 := updCondVar cv
               (set_condVarWaitQueue
                  (taskQueueAdd (tcb ku) (condVarWaitQueue (condVars ku cv)) A)) ku).
  assert (Hwait : condVarWait pi cv w k
                  = (taskBlock A WAIT_FOR_COND_VAR w
                       ≫= (fun _ => condVarWaitWoken pi cv A)) k2).
  { rewrite (condVarWait_unfold pi cv w k m Hm).
    rewrite (bind_returned _ _ k ku tt).
    2:{ rewrite (condVarMutex_eq cv _ k m Hm).
        by rewrite (bind_returned _ _ k ku _ Hunlock). }
    unfold mbind at 1, call_bind at 1, gets at 1. cbn [res_bind].
    unfold mbind at 1, call_bind at 1, modify at 1. cbn [res_bind].
    rewrite Hcu. reflexivity. }
  set (k3 := scheduleNextTask (taskBlockMark A WAIT_FOR_COND_VAR w k2)).
  assert (Hm3 : mutexes k3 = mutexes ku)
    by exact (proj1 (scheduleNextTask_frame (taskBlockMark A WAIT_FOR_COND_VAR w k2))).
  assert (Hcv3 : condVars k3 cv
                 = set_condVarWaitQueue
                     (taskQueueAdd (tcb ku) (condVarWaitQueue (condVars ku cv)) A)
                     (condVars ku cv)).
  { unfold k3.
    rewrite (proj1 (proj2 (scheduleNextTask_primitives
                             (taskBlockMark A WAIT_FOR_COND_VAR w k2)))).
    change (condVars (taskBlockMark A WAIT_FOR_COND_VAR w k2)) with (condVars k2).
    unfold k2. by rewrite updCondVar_eq. }
  assert (Hleft : condVarWait pi cv w k = (k3, Suspended (condVarWaitWoken pi cv A))).
  { rewrite Hwait in Hc |- *. rewrite taskBlock_bind in Hc |- *.
    cbn zeta in Hc |- *. fold k3 in Hc |- *.
    destruct (decide _); [|done].
    destruct (condVarWaitWoken_free pi cv A k3 m) as (e' & He' & _).
    - rewrite Hcv3. cbn. by rewrite Hcvu.
    - by rewrite Hm3.
    - rewrite He' in Hc. discriminate Hc. }
  rewrite Hleft. cbn [fst].
  split; [by rewrite Hm3|]. split; [by rewrite Hm3|]. split.
  - rewrite Hcv3. cbn. rewrite taskQueueAdd_In. by left.
  - intros e Hce Hme Hle.
    destruct (condVarWaitWoken_free pi cv A e m Hme Hle) as (e' & He' & Hl' & Ho').
    exists e'. rewrite run_cons, Hleft, run_nil, He', Hce in *. done.
Qed.

Lemma isSuspended_true {R : Type} (r : res R) :
  isSuspended r = true -> exists c, r = Suspended c.
Proof. destruct r as [a|c|]; intros H; try discriminate H. by exists c. Qed.

Lemma condVarWait_wake_free_mutex_witness :
  taskPool_currentTask cvSignalled = taskH /\
  wakeupReason (tcb cvSignalled taskH) = COND_VAR_SIGNALLED /\
  exists e' : kernel,
    run (condVarWait true 0 2) cvHlocked [cvSignalled] = Some (e', true) /\
    ownerTask (mutexes e' 0%nat) = Some taskH.
Proof.
  destruct (condVarWait_wake_free_mutex true 0%nat 2 cvHlocked 0%nat
              eq_refl eq_refl eq_refl eq_refl) as (_ & _ & _ & Hres).
  - apply isSuspended_true. vm_compute. reflexivity.
  - destruct (Hres cvSignalled eq_refl eq_refl eq_refl) as (e' & Hrun & _ & Ho).
    split; [reflexivity|]. split; [reflexivity|].
    exists e'. split; [exact Hrun|exact Ho].
Defined.

(** ** More on the message queue *)

Lemma msgQueueSend_unfold (p : nat) (x : list Byte.byte) (w : Z) (k : kernel) :
  msgQueueSend (Some p) x w k
  = let cur := taskPool_currentTask k in
    if negb (msgQueueFull (msgQueues k p)) then
      (msgQueueBufferWrite p x k, Returned SUCCESS)
    else if w =? TASK_NO_WAIT then (k, Returned neg_ENOSPACE)
    else
      (taskBlock cur WAIT_FOR_MSG_QUEUE_SPACE w
         ≫= (fun _ => msgQueueSendWoken p x cur))
        (updMsgQueue p
           (fun q => set_producerWaitQueue
                       (taskQueueAdd (tcb k) (producerWaitQueue q) cur) q) k).
Proof.
  unfold msgQueueSend at 1. unfold mbind at 1, call_bind at 1, gets at 1.
  cbn. destruct (negb _); [reflexivity|].
  destruct (w =? TASK_NO_WAIT); reflexivity.
Qed.

Lemma msgQueueReceive_unfold (p : nat) (w : Z) (k : kernel) :
  msgQueueReceive (Some p) w k
  = let cur := taskPool_currentTask k in
    if negb (msgQueueEmpty (msgQueues k p)) then
      (fst (msgQueueBufferRead p k),
       Returned (SUCCESS, Some (snd (msgQueueBufferRead p k))))
    else if w =? TASK_NO_WAIT then (k, Returned (neg_ENODATA, None))
    else
      (taskBlock cur WAIT_FOR_MSG_QUEUE_DATA w
         ≫= (fun _ => msgQueueReceiveWoken p cur))
        (updMsgQueue p
           (fun q => set_consumerWaitQueue
                       (taskQueueAdd (tcb k) (consumerWaitQueue q) cur) q) k).
Proof.
  unfold msgQueueReceive at 1. unfold mbind at 1, call_bind at 1, gets at 1.
  cbn. destruct (negb _).
  - unfold mbind, call_bind, lift. by destruct (msgQueueBufferRead p k).
  - destruct (w =? TASK_NO_WAIT); reflexivity.
Qed.

Lemma msgQueueSendWoken_eq (p : nat) (x : list Byte.byte) (cur : taskId) (e : kernel) :
  msgQueueSendWoken p x cur e
  = if bool_decide (wakeupReason (tcb e cur) = MSG_QUEUE_SPACE_AVAILABE)
       && negb (msgQueueFull (msgQueues e p))
    then (msgQueueBufferWrite p x e, Returned SUCCESS)
    else (e, Returned neg_ETIMEOUT).
Proof.
  unfold msgQueueSendWoken, mbind, call_bind, gets, modify. cbn.
  by destruct (_ && _).
Qed.

Lemma msgQueueReceiveWoken_eq (p : nat) (cur : taskId) (e : kernel) :
  msgQueueReceiveWoken p cur e
  = if bool_decide (wakeupReason (tcb e cur) = MSG_QUEUE_DATA_AVAILABLE)
       && negb (msgQueueEmpty (msgQueues e p))
    then (fst (msgQueueBufferRead p e),
          Returned (SUCCESS, Some (snd (msgQueueBufferRead p e))))
    else (e, Returned (neg_ETIMEOUT, None)).
Proof.
  unfold msgQueueReceiveWoken, mbind, call_bind, gets, lift. cbn.
  destruct (_ && _); [|done]. by destruct (msgQueueBufferRead p e).
Qed.

(** X10.  The calls on a message queue that fail at once leave the kernel
    as it is: a send or a receive on a [NULL] handle returns -EINVAL, a
    send into a full queue with [waitTicks] 0 returns -ENOSPACE, a receive
    from an empty queue with [waitTicks] 0 returns -ENODATA, and the two
    receives store nothing at [pItem]. *)
Theorem msgQueue_immediate_errors (p : nat) (x : list Byte.byte) (w : Z) (k : kernel) :
  msgQueueSend None x w k = (k, Returned neg_EINVAL) /\
  msgQueueReceive None w k = (k, Returned (neg_EINVAL, None)) /\
  (itemCount (msgQueues k p) = queueLength (msgQueues k p) ->
   msgQueueSend (Some p) x TASK_NO_WAIT k = (k, Returned neg_ENOSPACE)) /\
  (itemCount (msgQueues k p) = 0%nat ->
   msgQueueReceive (Some p) TASK_NO_WAIT k = (k, Returned (neg_ENODATA, None))).
Proof.
  split; [done|]. split; [done|]. split.
  - intros Hf. rewrite msgQueueSend_unfold. cbn zeta.
    unfold msgQueueFull. by rewrite Hf, Nat.eqb_refl.
  - intros He. rewrite msgQueueReceive_unfold. cbn zeta.
    unfold msgQueueEmpty. by rewrite He.
Qed.

Lemma msgQueue_immediate_errors_witness :
  msgQueueReceive (Some 0%nat) TASK_NO_WAIT kernelMsgQueue
  = (kernelMsgQueue, Returned (neg_ENODATA, None)) /\
  msgQueueSend (Some 0%nat) [Byte.x07; Byte.x08] TASK_NO_WAIT kernelMsgQueueFull
  = (kernelMsgQueueFull, Returned neg_ENOSPACE).
Proof.
  pose proof (msgQueue_immediate_errors 0%nat [] 0 kernelMsgQueue) as H1.
  pose proof (msgQueue_immediate_errors 0%nat [Byte.x07; Byte.x08] 0
                kernelMsgQueueFull) as H2.
  split.
  - exact (proj2 (proj2 (proj2 H1)) eq_refl).
  - exact (proj1 (proj2 (proj2 H2)) eq_refl).
Defined.



Section msgQueue_waiting.
Local Open Scope nat_scope.

Lemma msgQueueBufferWrite_wakes (p : nat) (x : list Byte.byte) (k : kernel)
    (A : taskId) (rest : taskQueueType) :
  consumerWaitQueue (msgQueues k p) = A :: rest ->
  wakeupReason (tcb (msgQueueBufferWrite p x k) A) = MSG_QUEUE_DATA_AVAILABLE.
Proof.
  intros Hq. unfold msgQueueBufferWrite. cbv zeta.
  set (k3 := updMsgQueue p _ (updMsgQueue p _ (updMsgQueue p _ k))).
  assert (H3 : consumerWaitQueue (msgQueues k3 p) = A :: rest).
  { unfold k3. by rewrite !updMsgQueue_eq. }
  rewrite H3. cbn [taskQueueGet]. by rewrite taskSetReady_tcb_eq.
Qed.

Lemma msgQueueBufferRead_wakes (p : nat) (k : kernel)
    (A : taskId) (rest : taskQueueType) :
  producerWaitQueue (msgQueues k p) = A :: rest ->
  wakeupReason (tcb (fst (msgQueueBufferRead p k)) A) = MSG_QUEUE_SPACE_AVAILABE.
Proof.
  intros Hq. unfold msgQueueBufferRead. cbv zeta.
  set (k3 := updMsgQueue p _ (updMsgQueue p _ k)).
  assert (H3 : producerWaitQueue (msgQueues k3 p) = A :: rest).
  { unfold k3. by rewrite !updMsgQueue_eq. }
  rewrite H3. cbn [taskQueueGet fst]. by rewrite taskSetReady_tcb_eq.
Qed.

(** The message queues in the state a blocking call leaves. *)
Lemma taskBlock_msgQueues {R : Type} (t : taskId) (reason : blockedReasonType)
    (w : Z) (c : call R) (k : kernel) :
  snd ((taskBlock t reason w ≫= (fun _ => c)) k) = Suspended c \/
  (taskBlock t reason w ≫= (fun _ => c)) k
  = c (scheduleNextTask (taskBlockMark t reason w k)).
Proof.
  rewrite taskBlock_bind. cbn zeta. destruct (decide _); [by right|by left].
Qed.

End msgQueue_waiting.

(** X12.  A [msgQueueReceive] with a non-zero [waitTicks] on an empty
    queue puts the caller on the consumer wait queue.  Once it has given the
    processor away: resumed right after a send into the still empty queue
    that finds the caller first among the consumers, it returns SUCCESS
    with exactly the item sent and the queue is empty again; resumed with
    another wake-up reason than MSG_QUEUE_DATA_AVAILABLE, or finding the
    queue empty, it returns -ETIMEOUT, stores nothing and changes
    nothing. *)
Theorem msgQueueReceive_wait_outcome (p : nat) (w : Z) (k : kernel) :
  itemCount (msgQueues k p) = 0%nat ->
  w <> TASK_NO_WAIT ->
  let A := taskPool_currentTask k in
  (exists c, snd (msgQueueReceive (Some p) w k) = Suspended c) ->
  In A (consumerWaitQueue (msgQueues (fst (msgQueueReceive (Some p) w k)) p)) /\
  (forall (e0 : kernel) (r : nat) (x : list Byte.byte) (rest : taskQueueType) (w' : Z),
     msgQueueAt (msgQueues e0 p) r 0 ->
     consumerWaitQueue (msgQueues e0 p) = A :: rest ->
     length x = itemSize (msgQueues e0 p) ->
     let e := fst (msgQueueSend (Some p) x w' e0) in
     exists e' : kernel,
       run (msgQueueReceive (Some p) w) k [e] = Some (e', (SUCCESS, Some x)) /\
       itemCount (msgQueues e' p) = 0%nat) /\
  (forall e : kernel,
     wakeupReason (tcb e A) <> MSG_QUEUE_DATA_AVAILABLE \/
     itemCount (msgQueues e p) = 0%nat ->
     run (msgQueueReceive (Some p) w) k [e] = Some (e, (neg_ETIMEOUT, None))).
Proof.
  intros Hc Hw A [c Hsusp].
  assert (Hempty : msgQueueEmpty (msgQueues k p) = true).
  { unfold msgQueueEmpty. by rewrite Hc. }
  set (k1 := updMsgQueue p
               (fun q => set_consumerWaitQueue
                           (taskQueueAdd (tcb k) (consumerWaitQueue q) A) q) k).
  assert (Hcall : msgQueueReceive (Some p) w k
                  = (taskBlock A WAIT_FOR_MSG_QUEUE_DATA w
                       ≫= (fun _ => msgQueueReceiveWoken p A)) k1).
  { rewrite msgQueueReceive_unfold. cbn zeta. rewrite Hempty. cbn [negb].
    by rewrite (proj2 (Z.eqb_neq _ _) Hw). }
  set (k2 := scheduleNextTask (taskBlockMark A WAIT_FOR_MSG_QUEUE_DATA w k1)).
  assert (Hleft : msgQueueReceive (Some p) w k
                  = (k2, Suspended (msgQueueReceiveWoken p A))).
  { rewrite Hcall in Hsusp |- *. rewrite taskBlock_bind in Hsusp |- *.
    cbn zeta in Hsusp |- *. fold k2 in Hsusp |- *.
    destruct (decide _); [|done].
    rewrite msgQueueReceiveWoken_eq in Hsusp.
    destruct (_ && _); discriminate Hsusp. }
  assert (Hrun : forall e, run (msgQueueReceive (Some p) w) k [e]
                           = match msgQueueReceiveWoken p A e with
                             | (e', Returned v) => Some (e', v)
                             | _ => None
                             end).
  { intros e. by rewrite run_cons, Hleft, run_nil. }
  split; [|split].
  - rewrite Hleft. cbn [fst]. unfold k2.
    rewrite (proj2 (proj2 (scheduleNextTask_primitives _))).
    change (msgQueues (taskBlockMark A WAIT_FOR_MSG_QUEUE_DATA w k1))
      with (msgQueues k1).
    unfold k1. rewrite updMsgQueue_eq. cbn. rewrite taskQueueAdd_In. by left.
  - intros e0 r x rest w' Hat Hq Hx e.
    destruct (msgQueueSend_appends p x w' e0 r 0 Hat) as
      (e1 & Hsend & Hat1 & Hitems & _); [by destruct Hat as (_ & ? & _)|done|].
    assert (He : e = e1).
    { subst e. rewrite run_nil in Hsend.
      destruct (msgQueueSend (Some p) x w' e0) as [k0 [rc| |]]; try discriminate Hsend.
      by injection Hsend as -> _. }
    assert (Hwr : wakeupReason (tcb e A) = MSG_QUEUE_DATA_AVAILABLE).
    { subst e. rewrite msgQueueSend_room.
      - by apply (msgQueueBufferWrite_wakes p x e0 A rest).
      - unfold msgQueueFull. apply Nat.eqb_neq.
        destruct Hat as (_ & HL & _ & _ & _ & _ & Hcnt & _). lia. }
    rewrite He in *. clear He e.
    destruct (msgQueueReceive_takes p w e1 r 0 Hat1)
      as (e' & Hrecv & Hat' & Hhead & _).
    assert (Hne : msgQueueEmpty (msgQueues e1 p) = false).
    { unfold msgQueueEmpty. destruct Hat1 as (_ & _ & _ & _ & _ & _ & -> & _). done. }
    exists e'. rewrite Hrun, msgQueueReceiveWoken_eq, Hwr, Hne.
    rewrite bool_decide_eq_true_2 by done. cbn [andb negb].
    rewrite run_nil, (msgQueueReceive_data p w e1 Hne) in Hrecv.
    injection Hrecv as <- Hitem. split.
    + do 3 f_equal. rewrite Hitem.
      change (0 + 1)%nat with 1%nat in Hitems. rewrite Hhead in Hitems.
      unfold msgQueueItems in Hitems. cbn [seq List.map app] in Hitems.
      injection Hitems as Hs. by rewrite Hs.
    + by destruct Hat' as (_ & _ & _ & _ & _ & _ & ? & _).
  - intros e Hbad. rewrite Hrun, msgQueueReceiveWoken_eq.
    destruct Hbad as [Hwr|He].
    + by rewrite (bool_decide_eq_false_2 _ Hwr).
    + unfold msgQueueEmpty. rewrite He. cbn. by rewrite andb_false_r.
Qed.

Lemma msgQueueReceive_wait_outcome_witness :
  exists e' : kernel,
    run (msgQueueReceive (Some 0%nat) 5) kernelMsgQueue
        [fst (msgQueueSend (Some 0%nat) [Byte.x07; Byte.x08] 0 kernelMsgQueueWait)]
    = Some (e', (SUCCESS, Some [Byte.x07; Byte.x08])) /\
    itemCount (msgQueues e' 0%nat) = 0%nat.
Proof.
  assert (Hc : itemCount (msgQueues kernelMsgQueue 0%nat) = 0%nat)
    by (vm_compute; reflexivity).
  assert (Hw : 5 <> TASK_NO_WAIT) by (vm_compute; intros H; discriminate H).
  assert (Hs : exists c, snd (msgQueueReceive (Some 0%nat) 5 kernelMsgQueue)
                         = Suspended c)
    by (apply isSuspended_true; vm_compute; reflexivity).
  assert (Hat : msgQueueAt (msgQueues kernelMsgQueueWait 0%nat) 2 0)
    by (unfold msgQueueAt; vm_compute; repeat split; lia).
  assert (Hq : consumerWaitQueue (msgQueues kernelMsgQueueWait 0%nat)
               = taskPool_currentTask kernelMsgQueue :: [])
    by (vm_compute; reflexivity).
  assert (Hx : length [Byte.x07; Byte.x08]
               = itemSize (msgQueues kernelMsgQueueWait 0%nat))
    by (vm_compute; reflexivity).
  exact (proj1 (proj2 (msgQueueReceive_wait_outcome 0%nat 5 kernelMsgQueue Hc Hw Hs))
           kernelMsgQueueWait 2%nat [Byte.x07; Byte.x08] [] 0 Hat Hq Hx).
Defined.

(** X13.  A [msgQueueSend] with a non-zero [waitTicks] on a full queue puts
    the caller on the producer wait queue.  Once it has given the processor
    away: resumed right after a receive from the still full queue that
    finds the caller first among the producers, it returns SUCCESS, the
    queue is full again and holds the items that were left, in their order,
    followed by the item sent; resumed with another wake-up reason than
    MSG_QUEUE_SPACE_AVAILABE, or finding the queue full, it returns
    -ETIMEOUT and changes nothing. *)
Theorem msgQueueSend_wait_outcome (p : nat) (x : list Byte.byte) (w : Z) (k : kernel) :
  itemCount (msgQueues k p) = queueLength (msgQueues k p) ->
  w <> TASK_NO_WAIT ->
  let A := taskPool_currentTask k in
  (exists c, snd (msgQueueSend (Some p) x w k) = Suspended c) ->
  In A (producerWaitQueue (msgQueues (fst (msgQueueSend (Some p) x w k)) p)) /\
  (forall (e0 : kernel) (r : nat) (rest : taskQueueType) (w' : Z),
     let L := queueLength (msgQueues e0 p) in
     msgQueueAt (msgQueues e0 p) r L ->
     producerWaitQueue (msgQueues e0 p) = A :: rest ->
     length x = itemSize (msgQueues e0 p) ->
     let e := fst (msgQueueReceive (Some p) w' e0) in
     exists e' : kernel,
       run (msgQueueSend (Some p) x w) k [e] = Some (e', SUCCESS) /\
       itemCount (msgQueues e' p) = queueLength (msgQueues e' p) /\
       msgQueueItems (msgQueues e' p) ((r + 1) mod L) L
       = tl (msgQueueItems (msgQueues e0 p) r L) ++ [x]) /\
  (forall e : kernel,
     wakeupReason (tcb e A) <> MSG_QUEUE_SPACE_AVAILABE \/
     itemCount (msgQueues e p) = queueLength (msgQueues e p) ->
     run (msgQueueSend (Some p) x w) k [e] = Some (e, neg_ETIMEOUT)).
Proof.
  intros Hc Hw A [c Hsusp].
  assert (Hfull : msgQueueFull (msgQueues k p) = true).
  { unfold msgQueueFull. rewrite Hc. apply Nat.eqb_refl. }
  set (k1 := updMsgQueue p
               (fun q => set_producerWaitQueue
                           (taskQueueAdd (tcb k) (producerWaitQueue q) A) q) k).
  assert (Hcall : msgQueueSend (Some p) x w k
                  = (taskBlock A WAIT_FOR_MSG_QUEUE_SPACE w
                       ≫= (fun _ => msgQueueSendWoken p x A)) k1).
  { rewrite msgQueueSend_unfold. cbn zeta. rewrite Hfull. cbn [negb].
    by rewrite (proj2 (Z.eqb_neq _ _) Hw). }
  set (k2 := scheduleNextTask (taskBlockMark A WAIT_FOR_MSG_QUEUE_SPACE w k1)).
  assert (Hleft : msgQueueSend (Some p) x w k
                  = (k2, Suspended (msgQueueSendWoken p x A))).
  { rewrite Hcall in Hsusp |- *. rewrite taskBlock_bind in Hsusp |- *.
    cbn zeta in Hsusp |- *. fold k2 in Hsusp |- *.
    destruct (decide _); [|done].
    rewrite msgQueueSendWoken_eq in Hsusp.
    destruct (_ && _); discriminate Hsusp. }
  assert (Hrun : forall e, run (msgQueueSend (Some p) x w) k [e]
                           = match msgQueueSendWoken p x A e with
                             | (e', Returned v) => Some (e', v)
                             | _ => None
                             end).
  { intros e. by rewrite run_cons, Hleft, run_nil. }
  split; [|split].
  - rewrite Hleft. cbn [fst]. unfold k2.
    rewrite (proj2 (proj2 (scheduleNextTask_primitives _))).
    change (msgQueues (taskBlockMark A WAIT_FOR_MSG_QUEUE_SPACE w k1))
      with (msgQueues k1).
    unfold k1. rewrite updMsgQueue_eq. cbn. rewrite taskQueueAdd_In. by left.
  - intros e0 r rest w' L Hat Hq Hx e.
    assert (HL : (0 < L)%nat) by (by destruct Hat as (_ & ? & _)).
    assert (Hat0 : msgQueueAt (msgQueues e0 p) r (S (L - 1))).
    { by replace (S (L - 1)) with L by lia. }
    assert (Hne : msgQueueEmpty (msgQueues e0 p) = false).
    { unfold msgQueueEmpty. apply Nat.eqb_neq.
      destruct Hat as (_ & _ & _ & _ & _ & _ & Hcnt & _). fold L in Hcnt. lia. }
    destruct (msgQueueReceive_takes p w' e0 r (L - 1) Hat0)
      as (e1 & Hrecv & Hat1 & Hhead & HL1 & HS1).
    rewrite run_nil, (msgQueueReceive_data p w' e0 Hne) in Hrecv.
    injection Hrecv as He1 _.
    assert (He : e = e1).
    { subst e. by rewrite (msgQueueReceive_data p w' e0 Hne). }
    assert (Hwr : wakeupReason (tcb e1 A) = MSG_QUEUE_SPACE_AVAILABE).
    { rewrite <- He1. by apply (msgQueueBufferRead_wakes p e0 A rest). }
    rewrite He. clear He e. fold L in Hat1, Hhead, HL1.
    assert (Hroom : msgQueueFull (msgQueues e1 p) = false).
    { unfold msgQueueFull. apply Nat.eqb_neq.
      destruct Hat1 as (_ & _ & _ & _ & _ & _ & Hcnt & _). lia. }
    destruct (msgQueueSend_appends p x w e1 ((r + 1) mod L) (L - 1) Hat1)
      as (e2 & Hsend & Hat2 & Hitems & HL2 & _); [lia|congruence|].
    rewrite run_nil, (msgQueueSend_room p x w e1 Hroom) in Hsend.
    injection Hsend as He2.
    exists e2. rewrite Hrun, msgQueueSendWoken_eq, Hwr, Hroom.
    rewrite bool_decide_eq_true_2 by done. cbn [andb negb].
    rewrite He2. split; [done|].
    replace (L - 1 + 1)%nat with L in Hat2, Hitems by lia. split.
    + destruct Hat2 as (_ & _ & _ & _ & _ & _ & -> & _). lia.
    + rewrite Hitems. f_equal.
      replace (S (L - 1)) with L in Hhead by lia. by rewrite Hhead.
  - intros e Hbad. rewrite Hrun, msgQueueSendWoken_eq.
    destruct Hbad as [Hwr|He].
    + by rewrite (bool_decide_eq_false_2 _ Hwr).
    + unfold msgQueueFull. rewrite He, Nat.eqb_refl. cbn.
      by rewrite andb_false_r.
Qed.

Lemma msgQueueSend_wait_outcome_witness :
  exists e' : kernel,
    run (msgQueueSend (Some 0%nat) [Byte.x07; Byte.x08] 5) kernelMsgQueueFull
        [fst (msgQueueReceive (Some 0%nat) 0 kernelMsgQueueFullWait)]
    = Some (e', SUCCESS) /\
    itemCount (msgQueues e' 0%nat) = queueLength (msgQueues e' 0%nat) /\
    msgQueueItems (msgQueues e' 0%nat)
      ((2 + 1) mod queueLength (msgQueues kernelMsgQueueFullWait 0%nat))
      (queueLength (msgQueues kernelMsgQueueFullWait 0%nat))
    = tl (msgQueueItems (msgQueues kernelMsgQueueFullWait 0%nat) 2
            (queueLength (msgQueues kernelMsgQueueFullWait 0%nat)))
      ++ [[Byte.x07; Byte.x08]].
Proof.
  assert (Hc : itemCount (msgQueues kernelMsgQueueFull 0%nat)
               = queueLength (msgQueues kernelMsgQueueFull 0%nat))
    by (vm_compute; reflexivity).
  assert (Hw : 5 <> TASK_NO_WAIT) by (vm_compute; intros H; discriminate H).
  assert (Hs : exists c, snd (msgQueueSend (Some 0%nat) [Byte.x07; Byte.x08] 5
                                kernelMsgQueueFull) = Suspended c)
    by (apply isSuspended_true; vm_compute; reflexivity).
  assert (Hat : msgQueueAt (msgQueues kernelMsgQueueFullWait 0%nat) 2
                  (queueLength (msgQueues kernelMsgQueueFullWait 0%nat)))
    by (unfold msgQueueAt; vm_compute; repeat split; lia).
  assert (Hq : producerWaitQueue (msgQueues kernelMsgQueueFullWait 0%nat)
               = taskPool_currentTask kernelMsgQueueFull :: [])
    by (vm_compute; reflexivity).
  assert (Hx : length [Byte.x07; Byte.x08]
               = itemSize (msgQueues kernelMsgQueueFullWait 0%nat))
    by (vm_compute; reflexivity).
  exact (proj1 (proj2 (msgQueueSend_wait_outcome 0%nat [Byte.x07; Byte.x08] 5
                         kernelMsgQueueFull Hc Hw Hs))
           kernelMsgQueueFullWait 2%nat [] 0 Hat Hq Hx).
Defined.
(** ** More on the timers *)

Lemma set_ticksToExpire_isRunning (v : Z) (x : timerNodeType) :
  isRunning (set_ticksToExpire v x) = isRunning x.
Proof. done. Qed.

Lemma set_ticksToExpire_twice (v w : Z) (x : timerNodeType) :
  set_ticksToExpire v (set_ticksToExpire w x) = set_ticksToExpire v x.
Proof. done. Qed.

(** A turn of the loop of [processTimers] starts no timer, and unlinks the
    node only when it stops the timer. *)
Lemma processTimerNode_isRunning (p : nat) (k : kernel) :
  isRunning (timers (processTimerNode p k) p) = true ->
  isRunning (timers k p) = true /\
  timerList (processTimerNode p k) = timerList k.
Proof.
  destruct (timerTick_frame p k) as (_ & _ & Hl & _).
  pose proof (timerTick_timers_eq p k) as Ht.
  destruct (processTimerNode_cases p k) as [[Hd E]|[Hd E]]; rewrite E.
  - rewrite Ht, set_ticksToExpire_isRunning. by intros ->.
  - pose proof (timerExpire_k4 p (timerTick p k)) as (H4 & _ & H4l & _).
    destruct (timerExpire_cases p (timerTick p k)) as [[Hm E2]|[Hm E2]];
      cbv zeta in E2; rewrite E2; clear E2.
    + set (k4 := updTimer p _ _) in *. unfold timerStop.
      destruct (isRunning (timers k4 p)) eqn:Hr.
      * cbn. rewrite fn_lookup_insert. cbn. intros H. discriminate H.
      * rewrite Hr. intros H. discriminate H.
    + rewrite H4l, Hl, H4, set_ticksToExpire_isRunning, Ht,
        set_ticksToExpire_isRunning.
      by intros ->.
Qed.

Lemma processTimerNode_inv (p : nat) (k : kernel) :
  timerInv k -> timerInv (processTimerNode p k).
Proof.
  intros [Hnd Hinv]. split; [by apply processTimerNode_list_NoDup|].
  intros q. destruct (decide (q = p)) as [->|Hne].
  - split.
    + intros Hin.
      destruct (isRunning (timers (processTimerNode p k) p)) eqn:Hr; [done|].
      exfalso.
      assert (Hrun : isRunning (timers k p) = true).
      { by apply Hinv, (processTimerNode_list_sub p k). }
      destruct (Z.eq_dec (ticksLeft (timers k p)) 0) as [Hd|Hd].
      * destruct (mode (timers k p)) eqn:Hm.
        -- destruct (processTimerNode_single_shot p k Hd Hm Hrun) as [_ El].
           rewrite El in Hin.
           by apply (timerListNodeDelete_NoDup (timerList k) p Hnd).
        -- destruct (processTimerNode_periodic p k Hd Hm) as [Et _].
           rewrite Et, set_ticksToExpire_isRunning in Hr. congruence.
      * destruct (processTimerNode_running p k Hd) as (Et & _).
        rewrite Et, set_ticksToExpire_isRunning in Hr. congruence.
    + intros Hr. destruct (processTimerNode_isRunning p k Hr) as [Hrun El].
      rewrite El. by apply Hinv.
  - rewrite (processTimerNode_timers_other p k q Hne), <- Hinv. split.
    + apply processTimerNode_list_sub.
    + by apply processTimerNode_list_other.
Qed.

Lemma processTimersWalk_inv (nodes : list nat) :
  forall k : kernel, timerInv k -> timerInv (processTimersWalk nodes k).
Proof.
  induction nodes as [|h nodes IH]; intros k Hk; [done|].
  simpl. by apply IH, processTimerNode_inv.
Qed.

Lemma processTimers_inv (k : kernel) : timerInv k -> timerInv (processTimers k).
Proof. apply processTimersWalk_inv. Qed.

Lemma timerStart_running (p : nat) (n : Z) (k : kernel) :
  isRunning (timers k p) = true -> timerStart p n k = k.
Proof. intros Hr. unfold timerStart. by rewrite Hr. Qed.

Lemma timerStart_stopped (p : nat) (n : Z) (k : kernel) :
  isRunning (timers k p) = false ->
  timers (timerStart p n k) p
  = set_ticksToExpire n (set_intervalTicks n (set_isRunning true (timers k p))) /\
  (forall q, q <> p -> timers (timerStart p n k) q = timers k q) /\
  timerList (timerStart p n k) = p :: timerList k /\
  tcb (timerStart p n k) = tcb k /\
  readyQueue (timerStart p n k) = readyQueue k /\
  blockedQueue (timerStart p n k) = blockedQueue k /\
  timeoutHandlerQueue (timerStart p n k) = timeoutHandlerQueue k.
Proof.
  intros Hr. unfold timerStart. rewrite Hr. cbn.
  rewrite !fn_lookup_insert. split; [done|]. split; [|done].
  intros q Hne. by rewrite !fn_lookup_insert_ne.
Qed.

Lemma timerStop_stopped (p : nat) (k : kernel) :
  isRunning (timers k p) = false -> timerStop p k = k.
Proof. intros Hr. unfold timerStop. by rewrite Hr. Qed.

Lemma timerStart_inv (p : nat) (n : Z) (k : kernel) :
  timerInv k -> timerInv (timerStart p n k).
Proof.
  intros [Hnd Hinv]. destruct (isRunning (timers k p)) eqn:Hr.
  - by rewrite timerStart_running.
  - destruct (timerStart_stopped p n k Hr) as (Ep & Eq & El & _).
    assert (Hp : ~ In p (timerList k)).
    { rewrite Hinv, Hr. intros H. discriminate H. }
    split.
    + rewrite El. constructor; [by rewrite list_elem_of_In|done].
    + intros q. rewrite El. destruct (decide (q = p)) as [->|Hne].
      * rewrite Ep. cbn. tauto.
      * rewrite (Eq q Hne), <- Hinv. cbn. split; [|tauto].
        intros [?|?]; [congruence|done].
Qed.



Lemma exampleKernel_timerInv : timerInv exampleKernel.
Proof.
  split; [constructor|]. intros p. cbn. split; [done|]. intros H. discriminate H.
Qed.


(** X15.  [timerStart] on a running timer changes nothing, so a second
    start is ignored; [timerStop] on a stopped timer changes nothing, so a
    second stop is ignored.  A stopped timer that is started and stopped
    again is stopped, with both [intervalTicks] and [ticksToExpire] the
    ticks given; [timerList], the other timers, the tasks, the queues and
    the pending handlers are as before the start. *)
Theorem timerStart_timerStop_roundtrip (k : kernel) (p : nat) (n m : Z) :
  timerStart p m (timerStart p n k) = timerStart p n k /\
  timerStop p (timerStop p k) = timerStop p k /\
  (isRunning (timers k p) = false ->
   let k' := timerStop p (timerStart p n k) in
   timers k' p = set_ticksToExpire n (set_intervalTicks n (timers k p)) /\
   (forall q, q <> p -> timers k' q = timers k q) /\
   timerList k' = timerList k /\
   tcb k' = tcb k /\ readyQueue k' = readyQueue k /\
   blockedQueue k' = blockedQueue k /\
   timeoutHandlerQueue k' = timeoutHandlerQueue k).
Proof.
  split; [|split].
  - destruct (isRunning (timers k p)) eqn:Hr.
    + rewrite (timerStart_running p n k Hr). by apply timerStart_running.
    + apply timerStart_running.
      destruct (timerStart_stopped p n k Hr) as (-> & _). done.
  - destruct (isRunning (timers k p)) eqn:Hr.
    + apply timerStop_stopped.
      destruct (timerStop_running p k Hr) as (-> & _). done.
    + rewrite (timerStop_stopped p k Hr). by apply timerStop_stopped.
  - intros Hr k'.
    destruct (timerStart_stopped p n k Hr) as (Ep & Eq & El & Et & Erq & Ebq & Eh).
    assert (Hrun : isRunning (timers (timerStart p n k) p) = true) by (by rewrite Ep).
    destruct (timerStop_running p (timerStart p n k) Hrun) as [Sp Sl].
    destruct (timerStop_frame p (timerStart p n k)) as (St & Srq & Sh).
    subst k'. split; [|split; [|split; [|split; [|split; [|split]]]]].
    + rewrite Sp, Ep. destruct (timers k p) as [h i t md r]. cbn in Hr |- *.
      by rewrite Hr.
    + intros q Hne. rewrite timerStop_timers_ne by done. by apply Eq.
    + rewrite Sl, El. cbn. by rewrite decide_True.
    + by rewrite St.
    + by rewrite Srq.
    + unfold timerStop. rewrite Hrun. cbn. exact Ebq.
    + by rewrite Sh.
Qed.

Lemma timerStart_timerStop_roundtrip_witness :
  timerList (timerStop 2 (timerStart 2 3 kernelTimersStarted))
  = timerList kernelTimersStarted.
Proof.
  exact (proj1 (proj2 (proj2
           (proj2 (proj2 (timerStart_timerStop_roundtrip kernelTimersStarted 2 3 0))
              eq_refl)))).
Defined.

Lemma expiredHandlers_expiredTimers (tm : nat -> timerNodeType) (nodes : list nat) :
  expiredHandlers tm nodes
  = List.map (fun q => timeoutHandler (tm q)) (expiredTimers tm nodes).
Proof. done. Qed.

Lemma expiredTimers_In (tm : nat -> timerNodeType) (nodes : list nat) (p : nat) :
  In p (expiredTimers tm nodes) <-> In p nodes /\ ticksLeft (tm p) = 0.
Proof. unfold expiredTimers. by rewrite filter_In, Z.eqb_eq. Qed.

Lemma ticksPassed_S (j : nat) (k : kernel) :
  ticksPassed (S j) k = processTimers (ticksPassed j k).
Proof. done. Qed.

Lemma ticksPassed_inv (j : nat) (k : kernel) :
  timerInv k -> timerInv (ticksPassed j k).
Proof.
  intros Hk. induction j as [|j IH]; [done|].
  rewrite ticksPassed_S. by apply processTimers_inv.
Qed.

(** A running timer of the list with more than one tick left loses one
    tick at each call of [processTimers]. *)
Lemma ticksPassed_counts (k : kernel) (p : nat) (j : nat) :
  timerInv k -> In p (timerList k) ->
  Z.of_nat j < ticksToExpire (timers k p) ->
  timers (ticksPassed j k) p
  = set_ticksToExpire (ticksToExpire (timers k p) - Z.of_nat j) (timers k p) /\
  In p (timerList (ticksPassed j k)).
Proof.
  intros Hk Hin. induction j as [|j IH]; intros Hj.
  - split; [|done]. cbn. rewrite Z.sub_0_r. by destruct (timers k p).
  - destruct IH as [Et El]; [lia|].
    destruct (ticksPassed_inv j k Hk) as [Hnd Hinv].
    rewrite ticksPassed_S.
    destruct (processTimersWalk_visit (timerList (ticksPassed j k)) p Hnd El
                (ticksPassed j k) Hnd El (proj1 (Hinv p) El)) as [Hrun _].
    fold (processTimers (ticksPassed j k)) in Hrun.
    assert (Hl : ticksLeft (timers (ticksPassed j k) p)
                 = ticksToExpire (timers k p) - Z.of_nat (S j)).
    { rewrite Et. unfold ticksLeft. cbn [ticksToExpire set_ticksToExpire].
      rewrite (proj2 (Z.ltb_lt _ _)) by lia. lia. }
    destruct Hrun as [Ht Hin']; [rewrite Hl; lia|].
    split; [|done]. by rewrite Ht, Hl, Et.
Qed.

(** X16.  A stopped timer started with [n] ticks expires at the [n]-th
    call of [processTimers] after the start, and at the first one when [n]
    is 0: before that call it is on [timerList] with one tick less after
    each call and is not among the timers whose handlers the call queues;
    that call queues its handler.  After it a PERIODIC timer is as
    [timerStart] left it, so that it expires every [n] calls, and a
    SINGLE_SHOT timer is stopped and off the list.  Each call appends to
    [timeoutHandlerQueue] the handlers of the timers that expire at it. *)
Theorem timer_fires_after_interval (k : kernel) (p : nat) (n : Z) :
  timerInv k ->
  isRunning (timers k p) = false ->
  0 <= n ->
  let k0 := timerStart p n k in
  let d := ticksBefore n in
  let expired j := expiredTimers (timers (ticksPassed j k0))
                                 (timerList (ticksPassed j k0)) in
  (forall j, (j <= d)%nat ->
     timers (ticksPassed j k0) p
     = set_ticksToExpire (n - Z.of_nat j) (timers k0 p) /\
     In p (timerList (ticksPassed j k0))) /\
  (forall j, (j < d)%nat -> ~ In p (expired j)) /\
  In p (expired d) /\
  (forall j,
     timeoutHandlerQueue (ticksPassed (S j) k0)
     = timeoutHandlerQueue (ticksPassed j k0)
       ++ List.map (fun q => timeoutHandler (timers (ticksPassed j k0) q))
                   (expired j)) /\
  (mode (timers k p) = TIMER_MODE_PERIODIC ->
   timers (ticksPassed (S d) k0) p = timers k0 p /\
   In p (timerList (ticksPassed (S d) k0))) /\
  (mode (timers k p) = TIMER_MODE_SINGLE_SHOT ->
   timers (ticksPassed (S d) k0) p = set_isRunning false (timers k0 p) /\
   ~ In p (timerList (ticksPassed (S d) k0))).
Proof.
  intros Hk Hr Hn k0 d expired.
  destruct (timerStart_stopped p n k Hr) as (Ep & _ & El & _).
  fold k0 in Ep, El.
  assert (Hk0 : timerInv k0) by (by apply timerStart_inv).
  assert (Hin0 : In p (timerList k0)) by (rewrite El; by left).
  assert (Ht0 : ticksToExpire (timers k0 p) = n) by (by rewrite Ep).
  assert (Hi0 : intervalTicks (timers k0 p) = n) by (by rewrite Ep).
  assert (Hm0 : mode (timers k0 p) = mode (timers k p)) by (by rewrite Ep).
  assert (Hd : Z.of_nat d = Z.max n 1 - 1) by (unfold d, ticksBefore; lia).
  assert (Hcount : forall j, (j <= d)%nat ->
            timers (ticksPassed j k0) p
            = set_ticksToExpire (n - Z.of_nat j) (timers k0 p) /\
            In p (timerList (ticksPassed j k0))).
  { intros j Hj. destruct (decide (j = 0%nat)) as [->|Hj0].
    - split; [|done]. cbn. rewrite Z.sub_0_r, <- Ht0. by destruct (timers k0 p).
    - rewrite <- Ht0. apply ticksPassed_counts; [done|done|lia]. }
  assert (Hleft : forall j, (j <= d)%nat ->
            ticksLeft (timers (ticksPassed j k0) p)
            = Z.max (n - Z.of_nat j - 1) 0).
  { intros j Hj. destruct (Hcount j Hj) as [-> _].
    unfold ticksLeft. cbn [ticksToExpire set_ticksToExpire].
    destruct (0 <? n - Z.of_nat j) eqn:E; [apply Z.ltb_lt in E|apply Z.ltb_ge in E]; lia. }
  split; [exact Hcount|]. split; [|split; [|split]].
  - intros j Hj. unfold expired. rewrite expiredTimers_In, Hleft by lia. lia.
  - unfold expired. rewrite expiredTimers_In, Hleft by lia.
    split; [by apply Hcount|lia].
  - intros j. rewrite ticksPassed_S. unfold expired, processTimers.
    rewrite processTimersWalk_handlers by (apply ticksPassed_inv, Hk0).
    by rewrite expiredHandlers_expiredTimers.
  - destruct (Hcount d (le_n d)) as [Et Hin].
    destruct (ticksPassed_inv d k0 Hk0) as [Hnd Hinv].
    destruct (processTimersWalk_visit (timerList (ticksPassed d k0)) p Hnd Hin
                (ticksPassed d k0) Hnd Hin (proj1 (Hinv p) Hin)) as [_ Hexp].
    fold (processTimers (ticksPassed d k0)) in Hexp.
    rewrite <- ticksPassed_S in Hexp.
    destruct Hexp as [Hper Hone]; [rewrite Hleft by lia; lia|].
    rewrite Et in Hper, Hone.
    cbn [mode intervalTicks set_ticksToExpire] in Hper, Hone.
    rewrite Hm0, Hi0, set_ticksToExpire_twice in Hper, Hone.
    assert (Hsame : set_ticksToExpire n (timers k0 p) = timers k0 p).
    { rewrite <- Ht0 at 1. by destruct (timers k0 p). }
    rewrite Hsame in Hper, Hone. by split.
Qed.

Lemma timer_fires_after_interval_witness :
  timers (ticksPassed 3 (timerStart 2 3 kernelTimersStarted)) 2%nat
  = timers (timerStart 2 3 kernelTimersStarted) 2%nat /\
  In 2%nat (timerList (ticksPassed 3 (timerStart 2 3 kernelTimersStarted))).
Proof.
  assert (Hk : timerInv kernelTimersStarted).
  { unfold kernelTimersStarted.
    apply timerStart_inv, timerStart_inv, timerStart_inv, exampleKernel_timerInv. }
  assert (Hn : 0 <= 3) by lia.
  exact (proj1 (proj2 (proj2 (proj2 (proj2
           (timer_fires_after_interval kernelTimersStarted 2 3 Hk eq_refl Hn)))))
           eq_refl).
Defined.
(** ** More on the scheduler *)

Lemma prioSorted_ext (f g : taskId -> taskHandleType) (q : taskQueueType) :
  (forall u, priority (f u) = priority (g u)) ->
  prioSorted f q -> prioSorted g q.
Proof.
  intros Hfg. induction q as [|h q IH]; [done|].
  intros [Hh Hq]. split; [|by apply IH].
  intros u Hu. rewrite <- !Hfg. by apply Hh.
Qed.

Lemma taskQueueAdd_sorted (f : taskId -> taskHandleType) (q : taskQueueType) (t : taskId) :
  prioSorted f q -> prioSorted f (taskQueueAdd f q t).
Proof.
  induction q as [|h q IH]; intros Hs; [by split|].
  destruct Hs as [Hh Hq]. simpl.
  destruct (priority (f h) <=? priority (f t)) eqn:E.
  - apply Z.leb_le in E. split; [|by apply IH].
    intros u Hu. apply taskQueueAdd_In in Hu as [->|Hu]; [done|by apply Hh].
  - apply Z.leb_gt in E. split; [|by split].
    intros u [<-|Hu]; [lia|]. specialize (Hh u Hu). lia.
Qed.

Lemma taskQueueAdd_Permutation (f : taskId -> taskHandleType) (q : taskQueueType)
    (t : taskId) :
  Permutation (taskQueueAdd f q t) (t :: q).
Proof.
  induction q as [|h q IH]; [done|]. simpl.
  destruct (priority (f h) <=? priority (f t)); [|done].
  rewrite IH. apply perm_swap.
Qed.

(** X17.  [scheduleNextTask] on a ready queue that is in priority order
    leaves it in priority order.  When the current task is RUNNING, or the
    queue is not empty, the task it makes the current one is RUNNING and
    no task of the ready queue has a numerically lower priority.  No task
    is lost: when the current task is RUNNING, the current task and the
    ready queue hold the same tasks before and after; otherwise the new
    current task and ready queue are the tasks of the old ready queue. *)
Theorem scheduleNextTask_runs_best (k : kernel) :
  prioSorted (tcb k) (readyQueue k) ->
  let cur := taskPool_currentTask k in
  let k' := scheduleNextTask k in
  let cur' := taskPool_currentTask k' in
  prioSorted (tcb k') (readyQueue k') /\
  (status (tcb k cur) = TASK_STATUS_RUNNING \/ readyQueue k <> [] ->
   status (tcb k' cur') = TASK_STATUS_RUNNING /\
   forall u, In u (readyQueue k') ->
             priority (tcb k' cur') <= priority (tcb k' u)) /\
  (status (tcb k cur) = TASK_STATUS_RUNNING ->
   Permutation (cur' :: readyQueue k') (cur :: readyQueue k)) /\
  (status (tcb k cur) <> TASK_STATUS_RUNNING -> readyQueue k <> [] ->
   cur' :: readyQueue k' = readyQueue k).
Proof.
  intros Hs cur k' cur'.
  pose proof (scheduleNextTask_frame k) as (_ & Hp & _). fold k' in Hp.
  destruct (readyQueue k) as [|h q] eqn:Hq.
  - assert (E : k' = k) by (apply scheduleNextTask_stay; by left).
    subst cur'. rewrite E, Hq. split; [done|]. split; [|by split].
    intros [Hrun|Hne]; [|done]. by split.
  - destruct Hs as [Hh Hsq].
    destruct (decide (status (tcb k cur) = TASK_STATUS_RUNNING)) as [Hrun|Hrun].
    + destruct (Z.le_gt_cases (priority (tcb k h)) (priority (tcb k cur))) as [Hle|Hgt].
      * destruct (scheduleNextTask_switch k h q Hq Hrun Hle) as (Eq & Ec & Et & _).
        fold k' in Eq, Ec, Et. fold cur in Eq, Et. subst cur'. rewrite Eq, Ec.
        split; [|split; [|split; [|done]]].
        -- apply (prioSorted_ext (tcb k)); [done|]. by apply taskQueueAdd_sorted.
        -- intros _. split.
           ++ rewrite Et. by rewrite decide_True.
           ++ intros u Hu. rewrite !Hp.
              apply taskQueueAdd_In in Hu as [->|Hu]; [done|by apply Hh].
        -- intros _. rewrite taskQueueAdd_Permutation. apply perm_swap.
      * assert (E : k' = k).
        { apply scheduleNextTask_stay. right. split; [done|].
          exists h, q. split; [done|]. unfold cur in Hgt. lia. }
        subst cur'. rewrite E, Hq. fold cur.
        split; [by split|]. split; [|split; [done|done]].
        intros _. split; [done|]. intros u [<-|Hu]; [lia|].
        specialize (Hh u Hu). lia.
    + destruct (scheduleNextTask_dispatch k h q Hq Hrun) as (Eq & Ec & Et & _).
      fold k' in Eq, Ec, Et. subst cur'. rewrite Eq, Ec.
      split; [|split; [|split; [done|done]]].
      * by apply (prioSorted_ext (tcb k)).
      * intros _. split.
        -- rewrite Et. by rewrite decide_True.
        -- intros u Hu. rewrite !Hp. by apply Hh.
Qed.

Lemma scheduleNextTask_runs_best_witness :
  let k := taskSetReady taskH RESUME exampleKernel in
  prioSorted (tcb (scheduleNextTask k)) (readyQueue (scheduleNextTask k)) /\
  Permutation (taskPool_currentTask (scheduleNextTask k)
                 :: readyQueue (scheduleNextTask k))
              (taskPool_currentTask k :: readyQueue k).
Proof.
  intros k.
  assert (Hs : prioSorted (tcb k) (readyQueue k)).
  { replace (readyQueue k) with [taskH; idleTask] by (vm_compute; reflexivity).
    split; [|split; [|exact I]].
    - intros u [<-|[]]. vm_compute. intros H. discriminate H.
    - intros u []. }
  destruct (scheduleNextTask_runs_best k Hs) as (H1 & _ & H3 & _).
  split; [exact H1|]. apply H3. vm_compute. reflexivity.
Defined.

Lemma taskYield_state (k : kernel) : fst (taskYield k) = scheduleNextTask k.
Proof. unfold taskYield. by destruct (decide _). Qed.

(** What a call of the scheduler leaves of the TCBs: all but the status. *)
Lemma scheduleNextTask_status_only (k : kernel) (t : taskId) :
  set_status (status (tcb (scheduleNextTask k) t)) (tcb k t)
  = tcb (scheduleNextTask k) t.
Proof.
  destruct (readyQueue k) as [|h q] eqn:Hq.
  - rewrite scheduleNextTask_stay by (by left). by destruct (tcb k t).
  - destruct (decide (status (tcb k (taskPool_currentTask k)) = TASK_STATUS_RUNNING))
      as [Hrun|Hrun].
    + destruct (Z.le_gt_cases (priority (tcb k h))
                  (priority (tcb k (taskPool_currentTask k)))) as [Hle|Hgt].
      * destruct (scheduleNextTask_switch k h q Hq Hrun Hle) as (_ & _ & Et & _).
        rewrite Et. destruct (decide (t = h)); [done|].
        destruct (decide _); [done|]. by destruct (tcb k t).
      * rewrite scheduleNextTask_stay; [by destruct (tcb k t)|].
        right. split; [done|]. exists h, q. split; [done|lia].
    + destruct (scheduleNextTask_dispatch k h q Hq Hrun) as (_ & _ & Et & _).
      rewrite Et. destruct (decide (t = h)); [done|]. by destruct (tcb k t).
Qed.

Lemma roundRobin_step (c : taskId) (r low : taskQueueType) (P : Z) (k : kernel) :
  roundRobin (c :: r) low P k ->
  roundRobin (r ++ [c]) low P (scheduleNextTask k) /\
  (r = [] -> scheduleNextTask k = k) /\
  (r <> [] -> taskPool_currentTask (scheduleNextTask k) <> c) /\
  blockedQueue (scheduleNextTask k) = blockedQueue k /\
  (forall t, ~ In t (c :: r) -> tcb (scheduleNextTask k) t = tcb k t).
Proof.
  intros ((Hc & Hq & Hrun & Hready) & Hnd & Hprio & Hlow).
  destruct r as [|h r'].
  - assert (E : scheduleNextTask k = k).
    { apply scheduleNextTask_stay. rewrite Hc. cbn in Hq.
      destruct low as [|l low']; [by left|right].
      split; [done|]. exists l, low'. split; [done|].
      rewrite (Hprio c) by (by left). apply Hlow. by left. }
    rewrite E. cbn [app]. split; [|done]. by split.
  - cbn [app] in Hq.
    assert (Hh : priority (tcb k h) = P) by (apply Hprio; right; by left).
    assert (Hcp : priority (tcb k c) = P) by (apply Hprio; by left).
    destruct (scheduleNextTask_switch k h (r' ++ low) Hq) as (Eq & Ec & Et & Eb).
    { by rewrite Hc. }
    { rewrite Hc. lia. }
    rewrite Hc in Eq, Et.
    rewrite taskQueueAdd_middle in Eq.
    2:{ intros u Hu. rewrite Hcp, (Hprio u); [lia|]. right. by right. }
    2:{ intros u Hu. rewrite Hcp. by apply Hlow. }
    pose proof Hnd as Hnd0.
    apply list.NoDup_cons in Hnd as [Hcn Hnd].
    apply list.NoDup_cons in Hnd as [Hhn Hnd'].
    rewrite list_elem_of_In in Hcn, Hhn.
    assert (Hhc : h <> c) by (intros ->; apply Hcn; by left).
    split; [|split; [done|split; [|split; [done|]]]].
    + split; [|split; [|split]].
      * cbn [app]. split; [done|]. split; [by rewrite Eq, <- app_assoc|].
        split; [by rewrite Et, decide_True|].
        intros t Ht. rewrite Et.
        assert (t <> h).
        { intros ->. apply in_app_or in Ht as [Ht|[Ht|[]]]; [done|congruence]. }
        rewrite decide_False by done.
        apply in_app_or in Ht as [Ht|[<-|[]]].
        -- rewrite decide_False; [|intros ->; apply Hcn; by right].
           apply Hready. by right.
        -- by rewrite decide_True.
      * change (h :: r' ++ [c]) with ((h :: r') ++ [c]).
        rewrite <- Permutation_cons_append. exact Hnd0.
      * intros t Ht.
        rewrite <- (scheduleNextTask_status_only k t). cbn. apply Hprio.
        change (h :: r' ++ [c]) with ((h :: r') ++ [c]) in Ht.
        apply in_app_or in Ht as [Ht|[<-|[]]]; [by right|by left].
      * intros t Ht. rewrite <- (scheduleNextTask_status_only k t). cbn.
        by apply Hlow.
    + intros _. by rewrite Ec.
    + intros t Ht. rewrite Et.
      rewrite decide_False; [|intros ->; apply Ht; right; by left].
      rewrite decide_False; [done|]. intros ->. apply Ht. by left.
Qed.

Lemma roundRobin_turns (low : taskQueueType) (P : Z) (a : list taskId) :
  forall (b : list taskId) (k : kernel),
    roundRobin (a ++ b) low P k ->
    let k' := Nat.iter (length a) scheduleNextTask k in
    roundRobin (b ++ a) low P k' /\
    blockedQueue k' = blockedQueue k /\
    (forall t, set_status (status (tcb k' t)) (tcb k t) = tcb k' t) /\
    (forall t, ~ In t (a ++ b) -> tcb k' t = tcb k t).
Proof.
  induction a as [|x a IH]; intros b k Hk; cbn zeta.
  - cbn. rewrite app_nil_r. split; [done|]. split; [done|].
    split; [|done]. intros t. by destruct (tcb k t).
  - cbn [length]. rewrite Nat.iter_succ_r.
    cbn [app] in Hk.
    destruct (roundRobin_step x (a ++ b) low P k Hk) as (H1 & _ & _ & Hb & Hf).
    rewrite <- app_assoc in H1.
    destruct (IH (b ++ [x]) (scheduleNextTask k) H1) as (I1 & Ib & Is & If).
    rewrite <- app_assoc in I1. cbn [app] in I1.
    split; [done|]. split; [congruence|]. split.
    + intros t. rewrite <- Is at 2.
      rewrite <- (scheduleNextTask_status_only k t). by destruct (tcb k t).
    + intros t Ht. rewrite If, Hf; [done|done|].
      intros Hin. apply Ht. cbn [app].
      apply in_app_or in Hin as [Hin|Hin]; [right; apply in_or_app; by left|].
      apply in_app_or in Hin as [Hin|[<-|[]]]; [|by left].
      right. apply in_or_app. by right.
Qed.

Lemma yields_scheduleNextTask (n : nat) (k : kernel) :
  yields n k = Nat.iter n scheduleNextTask k.
Proof.
  unfold yields. induction n as [|n IH]; [done|].
  by rewrite !Nat.iter_succ, IH, taskYield_state.
Qed.

(** X18.  Round robin among the tasks of the best priority.  With task [c]
    running, the tasks [r] of the same priority next in the ready queue and
    only tasks of numerically greater priority behind them: [taskYield]
    returns at once and changes nothing when [r] is empty; otherwise it
    gives the processor to the first task of [r] and queues [c] behind the
    last one.  When each of the tasks has yielded once, [c] runs again, and
    the TCBs and the ready and blocked queues are as at the start. *)
Theorem taskYield_round_robin (c : taskId) (r low : taskQueueType) (P : Z)
    (k : kernel) :
  roundRobin (c :: r) low P k ->
  roundRobin (r ++ [c]) low P (fst (taskYield k)) /\
  (r = [] -> taskYield k = (k, Returned tt)) /\
  (r <> [] -> isSuspended (snd (taskYield k)) = true) /\
  let k' := yields (S (length r)) k in
  taskPool_currentTask k' = c /\
  readyQueue k' = readyQueue k /\
  blockedQueue k' = blockedQueue k /\
  (forall t, tcb k' t = tcb k t).
Proof.
  intros Hk.
  destruct (roundRobin_step c r low P k Hk) as (H1 & Hstay & Hmove & _).
  split; [by rewrite taskYield_state|]. split; [|split].
  - intros Hr. unfold taskYield. rewrite (Hstay Hr). by rewrite decide_True.
  - intros Hr. unfold taskYield. rewrite decide_False; [done|].
    destruct Hk as ((<- & _) & _). by apply Hmove.
  - cbn zeta. rewrite yields_scheduleNextTask.
    assert (Hk' : roundRobin ((c :: r) ++ []) low P k) by (by rewrite app_nil_r).
    destruct (roundRobin_turns low P (c :: r) [] k Hk') as (I1 & Ib & Is & If).
    cbn [length] in I1, Ib, Is, If. cbn [app] in I1.
    set (k' := Nat.iter (S (length r)) scheduleNextTask k) in *.
    destruct I1 as ((Ec & Eq & Erun & Eready) & _).
    destruct Hk as ((Hc & Hq & Hrun & Hready) & _).
    split; [done|]. split; [congruence|]. split; [done|].
    intros t. rewrite <- Is.
    destruct (decide (t = c)) as [->|Hne].
    + rewrite Erun, <- Hrun. by destruct (tcb k c).
    + destruct (in_dec Nat.eq_dec t r) as [Hin|Hin].
      * rewrite (Eready t Hin), <- (Hready t Hin). by destruct (tcb k t).
      * rewrite If; [by destruct (tcb k t)|].
        rewrite app_nil_r. intros [?|?]; [congruence|done].
Qed.

Lemma taskYield_round_robin_witness :
  taskPool_currentTask (yields 4 kernelRoundRobin) = 4%nat /\
  readyQueue (yields 4 kernelRoundRobin) = readyQueue kernelRoundRobin.
Proof.
  assert (Hk : roundRobin [4; 5; 6; 7]%nat [idleTask] 150 kernelRoundRobin).
  { split; [|split; [|split]].
    - split; [reflexivity|]. split; [reflexivity|]. split; [reflexivity|].
      intros t [<-|[<-|[<-|[]]]]; reflexivity.
    - apply (bool_decide_unpack _). vm_compute. exact I.
    - intros t [<-|[<-|[<-|[<-|[]]]]]; reflexivity.
    - intros t [<-|[]]. reflexivity. }
  destruct (taskYield_round_robin 4%nat [5; 6; 7]%nat [idleTask] 150
              kernelRoundRobin Hk) as (_ & _ & _ & Hc & Hq & _).
  split; [exact Hc|exact Hq].
Defined.

(** ** Sleeping through the ticks *)

Lemma sameTasks_refl (k : kernel) : sameTasks k k.
Proof. by repeat split. Qed.

Lemma sameTasks_trans (k1 k2 k3 : kernel) :
  sameTasks k1 k2 -> sameTasks k2 k3 -> sameTasks k1 k3.
Proof.
  intros (A1 & A2 & A3 & A4 & A5) (B1 & B2 & B3 & B4 & B5).
  repeat split; congruence.
Qed.

Lemma timerTick_sameTasks (p : nat) (k : kernel) : sameTasks k (timerTick p k).
Proof. unfold timerTick. destruct (0 <? _); by repeat split. Qed.

Lemma timerStop_sameTasks (p : nat) (k : kernel) : sameTasks k (timerStop p k).
Proof. unfold timerStop. destruct (isRunning _); by repeat split. Qed.

(** A turn of the loop of [processTimers] leaves the tasks alone, or
    wakes the timer task. *)
Lemma processTimerNode_tasks (p : nat) (k : kernel) :
  sameTasks k (processTimerNode p k) \/
  exists k0, sameTasks k k0 /\
             sameTasks (taskSetReady timerTask TIMER_TIMEOUT k0)
                       (processTimerNode p k).
Proof.
  unfold processTimerNode. cbv zeta.
  pose proof (timerTick_sameTasks p k) as H1.
  destruct (ticksToExpire _ =? 0); [|by left].
  unfold timerExpire. cbv zeta.
  set (k2 := with_timeoutHandlerQueue _ (timerTick p k)).
  assert (H2 : sameTasks k k2) by (destruct H1 as (? & ? & ? & ? & ?); by repeat split).
  set (k4 := updTimer p _ (timerTaskNotify k2)).
  assert (H4 : sameTasks (timerTaskNotify k2) k4) by (by repeat split).
  assert (H5 : sameTasks (timerTaskNotify k2)
                 (if decide (mode (timers k4 p) = TIMER_MODE_SINGLE_SHOT)
                  then timerStop p k4 else k4)).
  { destruct (decide _); [|done].
    apply (sameTasks_trans _ k4); [done|apply timerStop_sameTasks]. }
  revert H5. generalize (if decide (mode (timers k4 p) = TIMER_MODE_SINGLE_SHOT)
                         then timerStop p k4 else k4).
  intros k5 H5. clear H4. unfold timerTaskNotify in H5.
  destruct (decide (status (tcb k2 timerTask) = TASK_STATUS_BLOCKED)).
  - right. by exists k2.
  - left. by apply (sameTasks_trans _ k2).
Qed.

Lemma processTimerNode_task_frame (p : nat) (k : kernel) (u : taskId) :
  u <> timerTask ->
  let k' := processTimerNode p k in
  tcb k' u = tcb k u /\
  (In u (blockedQueue k) -> In u (blockedQueue k')) /\
  (NoDup (blockedQueue k) -> NoDup (blockedQueue k')) /\
  (In u (readyQueue k') -> In u (readyQueue k)) /\
  taskPool_currentTask k' = taskPool_currentTask k.
Proof.
  intros Hne k'.
  destruct (processTimerNode_tasks p k)
    as [(E1 & E2 & E3 & E4 & _)|(k0 & (A1 & A2 & A3 & A4 & _) & (E1 & E2 & E3 & E4 & _))];
    fold k' in E1, E2, E3, E4; rewrite E1, E2, E3, E4.
  - done.
  - rewrite taskSetReady_tcb_ne, taskSetReady_blockedQueue,
      taskSetReady_readyQueue by done.
    rewrite A1, A2, A3. split; [done|]. split; [|split; [|split; [|done]]].
    + by apply taskQueueRemove_In_ne.
    + apply taskQueueRemove_NoDup.
    + rewrite taskQueueAdd_In. by intros [?|?].
Qed.

Lemma processTimersWalk_task_frame (nodes : list nat) (u : taskId) :
  u <> timerTask ->
  forall k : kernel,
    let k' := processTimersWalk nodes k in
    tcb k' u = tcb k u /\
    (In u (blockedQueue k) -> In u (blockedQueue k')) /\
    (NoDup (blockedQueue k) -> NoDup (blockedQueue k')) /\
    (In u (readyQueue k') -> In u (readyQueue k)) /\
    taskPool_currentTask k' = taskPool_currentTask k.
Proof.
  intros Hne.
  induction nodes as [|h nodes IH]; intros k; cbn zeta; simpl processTimersWalk;
    [by repeat split|].
  cbn zeta in IH.
  destruct (processTimerNode_task_frame h k u Hne) as (A1 & A2 & A3 & A4 & A5).
  destruct (IH (processTimerNode h k)) as (B1 & B2 & B3 & B4 & B5).
  split; [congruence|]. split; [tauto|]. split; [tauto|]. split; [tauto|congruence].
Qed.

Lemma processTimers_task_frame (k : kernel) (u : taskId) :
  u <> timerTask ->
  let k' := processTimers k in
  tcb k' u = tcb k u /\
  (In u (blockedQueue k) -> In u (blockedQueue k')) /\
  (NoDup (blockedQueue k) -> NoDup (blockedQueue k')) /\
  (In u (readyQueue k') -> In u (readyQueue k)) /\
  taskPool_currentTask k' = taskPool_currentTask k.
Proof. intros Hne. by apply processTimersWalk_task_frame. Qed.

Lemma checkTimeoutNode_current (h : taskId) (k : kernel) :
  taskPool_currentTask (checkTimeoutNode h k) = taskPool_currentTask k.
Proof.
  by destruct (checkTimeoutNode_cases h k) as [->|[->| ->]].
Qed.

Lemma checkTimeoutNode_ready_sub (h : taskId) (k : kernel) (u : taskId) :
  In u (readyQueue (checkTimeoutNode h k)) ->
  In u (readyQueue k) \/ (u = h /\ remainingSleepTicks (tcb k h) = 1).
Proof.
  destruct (Z.lt_trichotomy (remainingSleepTicks (tcb k h)) 1) as [Hr|[Hr|Hr]].
  - rewrite checkTimeoutNode_idle by lia. by left.
  - rewrite checkTimeoutNode_expire by done.
    rewrite taskSetReady_readyQueue, taskQueueAdd_In.
    intros [->|Hin]; [by right|by left].
  - rewrite checkTimeoutNode_count by lia. by left.
Qed.

Lemma checkTimeoutWalk_current (nodes : list taskId) :
  forall k : kernel,
    taskPool_currentTask (checkTimeoutWalk nodes k) = taskPool_currentTask k.
Proof.
  induction nodes as [|h nodes IH]; intros k; simpl; [done|].
  by rewrite IH, checkTimeoutNode_current.
Qed.

Lemma checkTimeoutWalk_NoDup (nodes : list taskId) :
  forall k : kernel,
    NoDup (blockedQueue k) -> NoDup (blockedQueue (checkTimeoutWalk nodes k)).
Proof.
  induction nodes as [|h nodes IH]; intros k Hk; simpl; [done|].
  by apply IH, checkTimeoutNode_blocked_NoDup.
Qed.

Lemma checkTimeoutWalk_ready_sub (nodes : list taskId) (u : taskId) :
  NoDup nodes ->
  forall k : kernel,
    In u (readyQueue (checkTimeoutWalk nodes k)) ->
    In u (readyQueue k) \/ (In u nodes /\ remainingSleepTicks (tcb k u) = 1).
Proof.
  induction 1 as [|h nodes Hh Hnd IH]; intros k; simpl; [by left|].
  rewrite list_elem_of_In in Hh.
  intros Hin. destruct (IH _ Hin) as [Hr|[Hn Hr]].
  - destruct (checkTimeoutNode_ready_sub h k u Hr) as [?|[-> ?]]; [by left|].
    right. split; [by left|done].
  - right. split; [by right|].
    rewrite checkTimeoutNode_tcb_other in Hr; [done|]. by intros ->.
Qed.

(** The scheduler leaves a task alone that is neither the current one nor
    in the ready queue. *)
Lemma scheduleNextTask_bystander (k : kernel) (t : taskId) :
  ~ In t (readyQueue k) ->
  taskPool_currentTask k <> t ->
  let k' := scheduleNextTask k in
  tcb k' t = tcb k t /\
  blockedQueue k' = blockedQueue k /\
  ~ In t (readyQueue k') /\
  taskPool_currentTask k' <> t.
Proof.
  intros Hq Hc k'. subst k'.
  destruct (readyQueue k) as [|h q] eqn:Eq.
  - rewrite scheduleNextTask_stay by (by left). by rewrite Eq.
  - assert (Hh : t <> h) by (intros ->; apply Hq; by left).
    assert (Htq : ~ In t q) by (intros ?; apply Hq; by right).
    destruct (decide (status (tcb k (taskPool_currentTask k)) = TASK_STATUS_RUNNING))
      as [Hrun|Hrun].
    + destruct (Z.le_gt_cases (priority (tcb k h))
                  (priority (tcb k (taskPool_currentTask k)))) as [Hle|Hgt].
      * destruct (scheduleNextTask_switch k h q Eq Hrun Hle) as (E1 & E2 & E3 & E4).
        rewrite E1, E2, E3, E4, !decide_False by done.
        split; [done|]. split; [done|]. split; [|done].
        rewrite taskQueueAdd_In. intros [?|?]; [congruence|done].
      * rewrite scheduleNextTask_stay; [by rewrite Eq|].
        right. split; [done|]. exists h, q. split; [done|lia].
    + destruct (scheduleNextTask_dispatch k h q Eq Hrun) as (E1 & E2 & E3 & E4).
      rewrite E1, E2, E3, E4, decide_False by done. done.
Qed.

(** A READY task of the ready queue stays so, or is given the processor. *)
Lemma scheduleNextTask_ready_task (k : kernel) (t : taskId) :
  In t (readyQueue k) ->
  taskPool_currentTask k <> t ->
  status (tcb k t) = TASK_STATUS_READY ->
  let k' := scheduleNextTask k in
  blockedQueue k' = blockedQueue k /\
  ((status (tcb k' t) = TASK_STATUS_READY /\ In t (readyQueue k')) \/
   (status (tcb k' t) = TASK_STATUS_RUNNING /\ taskPool_currentTask k' = t)).
Proof.
  intros Hq Hc Hs k'. subst k'.
  destruct (readyQueue k) as [|h q] eqn:Eq; [done|].
  destruct (decide (status (tcb k (taskPool_currentTask k)) = TASK_STATUS_RUNNING))
    as [Hrun|Hrun].
  - destruct (Z.le_gt_cases (priority (tcb k h))
                (priority (tcb k (taskPool_currentTask k)))) as [Hle|Hgt].
    + destruct (scheduleNextTask_switch k h q Eq Hrun Hle) as (E1 & E2 & E3 & E4).
      rewrite E1, E2, E3, E4. split; [done|].
      destruct (decide (t = h)) as [->|Hne]; [by right|left].
      rewrite decide_False by done. split; [done|].
      rewrite taskQueueAdd_In. right. by destruct Hq.
    + rewrite scheduleNextTask_stay; [rewrite Eq; split; [done|by left]|].
      right. split; [done|]. exists h, q. split; [done|lia].
  - destruct (scheduleNextTask_dispatch k h q Eq Hrun) as (E1 & E2 & E3 & E4).
    rewrite E1, E2, E3, E4. split; [done|].
    destruct (decide (t = h)) as [->|Hne]; [by right|left].
    split; [done|]. by destruct Hq.
Qed.

Section SYSTICK_HANDLER_facts.
Variables (t : taskId) (k : kernel).
Hypothesis Hk : waitsBlocked t k.

Let k1 := processTimers k.
Let k2 := checkTimeout k1.

Lemma SYSTICK_HANDLER_unfold : SYSTICK_HANDLER k = scheduleNextTask k2.
  Proof.
    destruct Hk as (_ & Hin & _ & _ & Hne).
    destruct (processTimers_task_frame k t Hne) as (_ & Hb & _).
    unfold SYSTICK_HANDLER. cbv zeta. fold k1.
    specialize (Hb Hin). fold k1 in Hb.
    destruct (blockedQueue k1); [done|]. done.
  Qed.

Lemma SYSTICK_HANDLER_k1 :
    tcb k1 t = tcb k t /\ waitsBlocked t k1.
  Proof.
    destruct Hk as (Hnd & Hin & Hrq & Hc & Hne).
    destruct (processTimers_task_frame k t Hne) as (A1 & A2 & A3 & A4 & A5).
    fold k1 in A1, A2, A3, A4, A5.
    split; [done|]. split; [tauto|]. split; [tauto|]. split; [tauto|].
    split; [congruence|done].
  Qed.

  (** A tick takes one tick off a waiting task that has more than one
      left, and passes by a task that has none. *)
Lemma SYSTICK_HANDLER_waits :
    remainingSleepTicks (tcb k t) <> 1 ->
    tcb (SYSTICK_HANDLER k) t
    = set_remainingSleepTicks
        (if 1 <? remainingSleepTicks (tcb k t)
         then remainingSleepTicks (tcb k t) - 1
         else remainingSleepTicks (tcb k t)) (tcb k t) /\
    waitsBlocked t (SYSTICK_HANDLER k).
  Proof.
    intros Hr. rewrite SYSTICK_HANDLER_unfold.
    destruct SYSTICK_HANDLER_k1 as (E1 & Hnd & Hin & Hrq & Hc & Hne).
    destruct (checkTimeoutWalk_visit (blockedQueue k1) t Hnd Hin k1 Hnd Hin)
      as (Hcount & _ & Hidle).
    fold (checkTimeout k1) in Hcount, Hidle. fold k2 in Hcount, Hidle.
    rewrite E1 in Hcount, Hidle.
    assert (H2 : tcb k2 t
                 = set_remainingSleepTicks
                     (if 1 <? remainingSleepTicks (tcb k t)
                      then remainingSleepTicks (tcb k t) - 1
                      else remainingSleepTicks (tcb k t)) (tcb k t) /\
                 In t (blockedQueue k2)).
    { destruct (1 <? remainingSleepTicks (tcb k t)) eqn:E.
      - apply Hcount. by apply Z.ltb_lt.
      - apply Z.ltb_ge in E. destruct Hidle as [-> ?]; [lia|].
        split; [by destruct (tcb k t)|done]. }
    destruct H2 as [H2 Hin2].
    assert (Hrq2 : ~ In t (readyQueue k2)).
    { intros Hc2.
      destruct (checkTimeoutWalk_ready_sub (blockedQueue k1) t Hnd k1 Hc2)
        as [?|[_ ?]]; [done|congruence]. }
    assert (Hc2 : taskPool_currentTask k2 <> t).
    { unfold k2, checkTimeout. by rewrite checkTimeoutWalk_current. }
    destruct (scheduleNextTask_bystander k2 t Hrq2 Hc2) as (S1 & S2 & S3 & S4).
    split; [by rewrite S1|].
    split; [rewrite S2; by apply checkTimeoutWalk_NoDup|].
    split; [by rewrite S2|]. done.
  Qed.

  (** The tick that takes the last tick off a waiting task wakes it. *)
Lemma SYSTICK_HANDLER_wakes :
    remainingSleepTicks (tcb k t) = 1 ->
    let k' := SYSTICK_HANDLER k in
    remainingSleepTicks (tcb k' t) = 0 /\
    wakeupReason (tcb k' t) = timeoutReason (tcb k t) /\
    ~ In t (blockedQueue k') /\
    ((status (tcb k' t) = TASK_STATUS_READY /\ In t (readyQueue k')) \/
     (status (tcb k' t) = TASK_STATUS_RUNNING /\ taskPool_currentTask k' = t)).
  Proof.
    intros Hr k'. subst k'. rewrite SYSTICK_HANDLER_unfold.
    destruct SYSTICK_HANDLER_k1 as (E1 & Hnd & Hin & Hrq & Hc & Hne).
    destruct (checkTimeoutWalk_visit (blockedQueue k1) t Hnd Hin k1 Hnd Hin)
      as (_ & Hexp & _).
    fold (checkTimeout k1) in Hexp. fold k2 in Hexp.
    rewrite E1 in Hexp. destruct (Hexp Hr) as (H2 & Hrq2 & Hb2).
    assert (Hc2 : taskPool_currentTask k2 <> t).
    { unfold k2, checkTimeout. by rewrite checkTimeoutWalk_current. }
    assert (Hs2 : status (tcb k2 t) = TASK_STATUS_READY) by (by rewrite H2).
    destruct (scheduleNextTask_ready_task k2 t Hrq2 Hc2 Hs2) as (S1 & S2).
    pose proof (scheduleNextTask_status_only k2 t) as S3.
    rewrite <- S3, H2, S1. done.
  Qed.
End SYSTICK_HANDLER_facts.

Lemma systicks_S (j : nat) (k : kernel) :
  systicks (S j) k = SYSTICK_HANDLER (systicks j k).
Proof. done. Qed.

Lemma set_remainingSleepTicks_same (x : taskHandleType) :
  set_remainingSleepTicks (remainingSleepTicks x) x = x.
Proof. by destruct x. Qed.

(** A waiting task with [n] ticks left still waits after fewer than [n]
    ticks, with one tick less after each. *)
Lemma systicks_waits (t : taskId) (k : kernel) (n : nat) :
  waitsBlocked t k ->
  remainingSleepTicks (tcb k t) = Z.of_nat n ->
  forall j, (j < n)%nat ->
    tcb (systicks j k) t
    = set_remainingSleepTicks (Z.of_nat (n - j)) (tcb k t) /\
    waitsBlocked t (systicks j k).
Proof.
  intros Hk Hn. induction j as [|j IH]; intros Hj.
  - split; [|done]. cbn [systicks Nat.iter].
    rewrite Nat.sub_0_r, <- Hn. by rewrite set_remainingSleepTicks_same.
  - destruct IH as [Et Hw]; [lia|].
    rewrite systicks_S.
    destruct (SYSTICK_HANDLER_waits t (systicks j k) Hw) as [E1 E2].
    { rewrite Et. cbn. lia. }
    split; [|done]. rewrite E1, Et. cbn [remainingSleepTicks set_remainingSleepTicks].
    rewrite (proj2 (Z.ltb_lt _ _)) by lia.
    replace (Z.of_nat (n - j) - 1) with (Z.of_nat (n - S j)) by lia.
    by destruct (tcb k t).
Qed.

(** The tick that takes its last tick off wakes it. *)
Lemma systicks_wakes (t : taskId) (k : kernel) (n : nat) :
  waitsBlocked t k ->
  remainingSleepTicks (tcb k t) = Z.of_nat n ->
  (0 < n)%nat ->
  let k' := systicks n k in
  remainingSleepTicks (tcb k' t) = 0 /\
  wakeupReason (tcb k' t) = timeoutReason (tcb k t) /\
  ~ In t (blockedQueue k') /\
  ((status (tcb k' t) = TASK_STATUS_READY /\ In t (readyQueue k')) \/
   (status (tcb k' t) = TASK_STATUS_RUNNING /\ taskPool_currentTask k' = t)).
Proof.
  intros Hk Hn Hpos. destruct n as [|m]; [lia|]. cbn zeta.
  destruct (systicks_waits t k (S m) Hk Hn m) as [Et Hw]; [lia|].
  rewrite systicks_S.
  destruct (SYSTICK_HANDLER_wakes t (systicks m k) Hw) as (H1 & H2 & H3 & H4).
  { rewrite Et. cbn. lia. }
  split; [done|]. split; [|done].
  rewrite H2, Et. by destruct (tcb k t).
Qed.

(** X19.  A task that waits on the blocked-timeout list with [n] ticks
    left is woken by the [n]-th tick interrupt and by no earlier one: after
    each earlier tick it still waits, with one tick less; after the [n]-th
    it is off the list with no tick left and wake-up reason
    SLEEP_TIME_TIMEOUT if it was blocked for SLEEP and WAIT_TIMEOUT
    otherwise, and it is READY in the ready queue or already RUNNING as the
    current task.  With no tick left at the start the ticks never wake
    it. *)
Theorem sleep_wakes_on_time (t : taskId) (k : kernel) (n : nat) :
  waitsBlocked t k ->
  remainingSleepTicks (tcb k t) = Z.of_nat n ->
  (forall j, (j < n)%nat ->
     tcb (systicks j k) t
     = set_remainingSleepTicks (Z.of_nat (n - j)) (tcb k t) /\
     waitsBlocked t (systicks j k)) /\
  ((0 < n)%nat ->
   let k' := systicks n k in
   remainingSleepTicks (tcb k' t) = 0 /\
   wakeupReason (tcb k' t) = timeoutReason (tcb k t) /\
   ~ In t (blockedQueue k') /\
   ((status (tcb k' t) = TASK_STATUS_READY /\ In t (readyQueue k')) \/
    (status (tcb k' t) = TASK_STATUS_RUNNING /\ taskPool_currentTask k' = t))) /\
  (n = 0%nat ->
   forall j, tcb (systicks j k) t = tcb k t /\ waitsBlocked t (systicks j k)).
Proof.
  intros Hk Hn.
  split; [by apply systicks_waits|]. split; [by apply systicks_wakes|].
  intros ->. induction j as [|j [Et Hw]]; [done|].
  rewrite systicks_S.
  destruct (SYSTICK_HANDLER_waits t (systicks j k) Hw) as [E1 E2].
  { rewrite Et, Hn. cbn. lia. }
  split; [|done]. rewrite E1, Et.
  destruct (1 <? remainingSleepTicks (tcb k t)) eqn:E;
    [apply Z.ltb_lt in E; lia|].
  apply set_remainingSleepTicks_same.
Qed.

Lemma sleep_wakes_on_time_witness :
  remainingSleepTicks (tcb (systicks 3 kernelSleepers) taskM) = 0 /\
  wakeupReason (tcb (systicks 3 kernelSleepers) taskM)
  = timeoutReason (tcb kernelSleepers taskM).
Proof.
  assert (Hk : waitsBlocked taskM kernelSleepers).
  { split; [apply (bool_decide_unpack _); vm_compute; exact I|].
    split; [simpl; tauto|].
    split; [intros [H|[]]; discriminate H|].
    split; intros H; discriminate H. }
  destruct (sleep_wakes_on_time taskM kernelSleepers 3 Hk eq_refl) as (_ & H & _).
  destruct H as (H1 & H2 & _); [lia|].
  split; [exact H1|exact H2].
Defined.
(** ** Starting the scheduler *)

Lemma taskStart_facts (t : taskId) (k : kernel) :
  readyQueue (taskStart t k) = taskQueueAdd (tcb k) (readyQueue k) t /\
  (forall u, priority (tcb (taskStart t k) u) = priority (tcb k u)) /\
  blockedQueue (taskStart t k) = blockedQueue k.
Proof.
  assert (Hp : forall u, priority ((<[t:=set_status TASK_STATUS_READY (tcb k t)]> (tcb k)) u)
                         = priority (tcb k u)).
  { intros u. destruct (decide (t = u)) as [->|Hne].
    - by rewrite fn_lookup_insert.
    - by rewrite fn_lookup_insert_ne. }
  unfold taskStart. cbn. split; [by apply taskQueueAdd_ext|done].
Qed.

Lemma taskQueueAdd_cons (f : taskId -> taskHandleType) (q : taskQueueType) (t : taskId) :
  exists h q', taskQueueAdd f q t = h :: q'.
Proof.
  destruct q as [|h q]; simpl; [by eexists _, _|].
  destruct (_ <=? _); by eexists _, _.
Qed.

(** X20.  [schedulerStart] always finds a first task: the ready queue
    holds at least the idle task it has just started.  The first task is
    RUNNING and is the current task; together with the ready queue it makes
    up the tasks that were ready, the timer task and the idle task.  When
    the ready queue was in priority order it still is, and no task in it has
    a numerically lower priority than the first task.  When the timer task
    has the numerically lowest priority of all these tasks, it runs
    first. *)
Theorem schedulerStart_runs_best (k : kernel) :
  exists k' : kernel,
    schedulerStart k = Some k' /\
    let first := taskPool_currentTask k' in
    status (tcb k' first) = TASK_STATUS_RUNNING /\
    currentTask k' = Some first /\
    Permutation (first :: readyQueue k') (idleTask :: timerTask :: readyQueue k) /\
    (forall u, priority (tcb k' u) = priority (tcb k u)) /\
    (prioSorted (tcb k) (readyQueue k) ->
     prioSorted (tcb k') (readyQueue k') /\
     forall u, In u (readyQueue k') ->
               priority (tcb k' first) <= priority (tcb k' u)) /\
    ((forall u, In u (idleTask :: readyQueue k) ->
                priority (tcb k timerTask) < priority (tcb k u)) ->
     first = timerTask /\
     readyQueue k' = taskQueueAdd (tcb k) (readyQueue k) idleTask).
Proof.
  unfold schedulerStart, timerTaskStart. cbv zeta.
  destruct (taskStart_facts timerTask k) as (Q1 & P1 & _).
  destruct (taskStart_facts idleTask (taskStart timerTask k)) as (Q2 & P2 & _).
  set (k2 := taskStart idleTask (taskStart timerTask k)) in *.
  assert (Hq : readyQueue k2
               = taskQueueAdd (tcb k)
                   (taskQueueAdd (tcb k) (readyQueue k) timerTask) idleTask).
  { rewrite Q2, Q1. by apply taskQueueAdd_ext. }
  assert (Hp : forall u, priority (tcb k2 u) = priority (tcb k u)).
  { intros u. by rewrite P2, P1. }
  clear Q1 Q2 P1 P2.
  destruct (readyQueue k2) as [|h q] eqn:E.
  { destruct (taskQueueAdd_cons (tcb k)
                (taskQueueAdd (tcb k) (readyQueue k) timerTask) idleTask)
      as (h & q' & Hc). congruence. }
  cbn [taskQueueGet]. eexists. split; [reflexivity|]. cbn.
  assert (Hp' : forall u, priority ((<[h:=set_status TASK_STATUS_RUNNING (tcb k2 h)]> (tcb k2)) u)
                          = priority (tcb k u)).
  { intros u. rewrite <- Hp. destruct (decide (h = u)) as [->|Hne].
    - by rewrite fn_lookup_insert.
    - by rewrite fn_lookup_insert_ne. }
  split; [by rewrite fn_lookup_insert|]. split; [done|].
  split; [|split; [exact Hp'|split]].
  - rewrite Hq, taskQueueAdd_Permutation. constructor.
    apply taskQueueAdd_Permutation.
  - intros Hs.
    assert (Hs2 : prioSorted (tcb k) (h :: q)).
    { rewrite Hq. by apply taskQueueAdd_sorted, taskQueueAdd_sorted. }
    destruct Hs2 as [Hh Hsq]. split.
    + by apply (prioSorted_ext (tcb k)).
    + intros u Hu. rewrite !Hp'. by apply Hh.
  - intros Hbest.
    assert (Ht : taskQueueAdd (tcb k) (readyQueue k) timerTask
                 = timerTask :: readyQueue k).
    { apply (taskQueueAdd_middle (tcb k) [] (readyQueue k) timerTask).
      - intros u [].
      - intros u Hu. apply Hbest. by right. }
    rewrite Ht, taskQueueAdd_behind in Hq.
    2:{ specialize (Hbest idleTask (or_introl eq_refl)). lia. }
    by injection Hq as -> ->.
Qed.
(** ** From the expiry of a timer to the timer task *)

Lemma processTimerNode_tasks_cases (p : nat) (k : kernel) :
  let k' := processTimerNode p k in
  (status (tcb k timerTask) = TASK_STATUS_BLOCKED /\
   ticksLeft (timers k p) = 0 /\
   exists k0, sameTasks k k0 /\
              sameTasks (taskSetReady timerTask TIMER_TIMEOUT k0) k') \/
  (~ (status (tcb k timerTask) = TASK_STATUS_BLOCKED /\
      ticksLeft (timers k p) = 0) /\
   sameTasks k k').
Proof.
  unfold processTimerNode. cbv zeta.
  pose proof (timerTick_sameTasks p k) as H1.
  assert (Ht : ticksToExpire (timers (timerTick p k) p) = ticksLeft (timers k p)).
  { by rewrite timerTick_timers_eq. }
  rewrite Ht. clear Ht.
  destruct (Z.eqb_spec (ticksLeft (timers k p)) 0) as [Hd|Hd];
    [|right; split; [tauto|done]].
  unfold timerExpire. cbv zeta.
  set (k2 := with_timeoutHandlerQueue _ (timerTick p k)).
  assert (H2 : sameTasks k k2) by (destruct H1 as (? & ? & ? & ? & ?); by repeat split).
  set (k4 := updTimer p _ (timerTaskNotify k2)).
  assert (H4 : sameTasks (timerTaskNotify k2) k4) by (by repeat split).
  assert (H5 : sameTasks (timerTaskNotify k2)
                 (if decide (mode (timers k4 p) = TIMER_MODE_SINGLE_SHOT)
                  then timerStop p k4 else k4)).
  { destruct (decide _); [|done].
    apply (sameTasks_trans _ k4); [done|apply timerStop_sameTasks]. }
  revert H5. generalize (if decide (mode (timers k4 p) = TIMER_MODE_SINGLE_SHOT)
                         then timerStop p k4 else k4).
  intros k5 H5. clear H4. unfold timerTaskNotify in H5.
  assert (Hs : status (tcb k2 timerTask) = status (tcb k timerTask)).
  { destruct H2 as (-> & _). done. }
  destruct (decide (status (tcb k2 timerTask) = TASK_STATUS_BLOCKED)) as [Hb|Hb].
  - left. rewrite Hs in Hb. split; [done|]. split; [done|]. by exists k2.
  - right. rewrite Hs in Hb. split; [tauto|]. by apply (sameTasks_trans _ k2).
Qed.

Lemma processTimersWalk_awake_tasks (nodes : list nat) :
  forall k : kernel,
    status (tcb k timerTask) <> TASK_STATUS_BLOCKED ->
    sameTasks k (processTimersWalk nodes k).
Proof.
  induction nodes as [|h nodes IH]; intros k Hs; simpl; [apply sameTasks_refl|].
  destruct (processTimerNode_tasks_cases h k) as [(Hb & _)|(_ & Hsame)]; [done|].
  apply (sameTasks_trans _ (processTimerNode h k)); [done|].
  apply IH. destruct Hsame as (-> & _). done.
Qed.

(** The walk wakes the timer task once, at the first timer that expires. *)
Lemma processTimersWalk_wake_once (nodes : list nat) (p : nat) :
  In p nodes ->
  forall k : kernel,
    ticksLeft (timers k p) = 0 ->
    status (tcb k timerTask) = TASK_STATUS_BLOCKED ->
    exists k0, sameTasks k k0 /\
               sameTasks (taskSetReady timerTask TIMER_TIMEOUT k0)
                         (processTimersWalk nodes k).
Proof.
  induction nodes as [|h nodes IH]; intros Hin k Hd Hb; [done|]. simpl.
  destruct (processTimerNode_tasks_cases h k)
    as [(_ & _ & k0 & H0 & H1)|(Hnot & Hsame)].
  - exists k0. split; [done|].
    apply (sameTasks_trans _ (processTimerNode h k)); [done|].
    apply processTimersWalk_awake_tasks.
    destruct H1 as (-> & _). by rewrite taskSetReady_tcb_eq.
  - assert (Hne : p <> h) by (intros ->; tauto).
    destruct Hin as [?|Hin]; [congruence|].
    destruct (IH Hin (processTimerNode h k)) as (k0 & H0 & H1).
    + by rewrite processTimerNode_timers_other.
    + destruct Hsame as (-> & _). done.
    + exists k0. split; [|done]. by apply (sameTasks_trans _ (processTimerNode h k)).
Qed.

Lemma checkTimeoutNode_priority (t : taskId) (k : kernel) (u : taskId) :
  priority (tcb (checkTimeoutNode t k) u) = priority (tcb k u).
Proof.
  assert (Hp : forall v, priority (tcb (updTask t (set_remainingSleepTicks v) k) u)
                         = priority (tcb k u)).
  { intros v. destruct (decide (u = t)) as [->|Hne].
    - by rewrite updTask_tcb_eq.
    - by rewrite updTask_tcb_ne. }
  destruct (checkTimeoutNode_cases t k) as [->|[->| ->]]; [done|apply Hp|].
  rewrite taskSetReady_priority. apply Hp.
Qed.

Lemma checkTimeoutNode_timeoutHandlerQueue (t : taskId) (k : kernel) :
  timeoutHandlerQueue (checkTimeoutNode t k) = timeoutHandlerQueue k.
Proof. by destruct (checkTimeoutNode_cases t k) as [->|[->| ->]]. Qed.

(** The task at the head of the ready queue stays there through
    [checkTimeout] when no task has a numerically lower priority and it is
    not itself waiting for a time-out. *)
Lemma checkTimeoutWalk_head (nodes : list taskId) (h : taskId) :
  forall (k : kernel) (q : taskQueueType),
    readyQueue k = h :: q ->
    (forall u, priority (tcb k h) <= priority (tcb k u)) ->
    remainingSleepTicks (tcb k h) <= 0 ->
    let k' := checkTimeoutWalk nodes k in
    (exists q', readyQueue k' = h :: q') /\
    tcb k' h = tcb k h /\
    (forall u, priority (tcb k' u) = priority (tcb k u)) /\
    timeoutHandlerQueue k' = timeoutHandlerQueue k.
Proof.
  induction nodes as [|t nodes IH]; intros k q Hq Hbest Hrem; cbn zeta;
    simpl checkTimeoutWalk; [by eauto|].
  cbn zeta in IH.
  assert (Hnode : (exists q', readyQueue (checkTimeoutNode t k) = h :: q') /\
                  tcb (checkTimeoutNode t k) h = tcb k h).
  { destruct (Z.lt_trichotomy (remainingSleepTicks (tcb k t)) 1) as [Hr|[Hr|Hr]].
    - rewrite checkTimeoutNode_idle by lia. by eauto.
    - assert (Hne : h <> t) by (intros ->; lia).
      rewrite checkTimeoutNode_expire by done.
      rewrite taskSetReady_readyQueue, taskSetReady_tcb_ne, updTask_tcb_ne by done.
      split; [|done].
      change (readyQueue (updTask t (set_remainingSleepTicks 0) k))
        with (readyQueue k).
      rewrite Hq, taskQueueAdd_behind; [by eauto|].
      rewrite updTask_tcb_ne by done.
      destruct (decide (t = t)); [|done].
      rewrite updTask_tcb_eq. apply (Hbest t).
    - assert (Hne : h <> t) by (intros ->; lia).
      rewrite checkTimeoutNode_count by lia.
      rewrite updTask_tcb_ne by done. by eauto. }
  destruct Hnode as [[q' Hq'] Eh].
  destruct (IH (checkTimeoutNode t k) q' Hq') as (H1 & H2 & H3 & H4).
  - intros u. rewrite !checkTimeoutNode_priority. apply Hbest.
  - by rewrite Eh.
  - split; [done|]. split; [congruence|]. split.
    + intros u. by rewrite H3, checkTimeoutNode_priority.
    + by rewrite H4, checkTimeoutNode_timeoutHandlerQueue.
Qed.

Lemma scheduleNextTask_timers (k : kernel) :
  timers (scheduleNextTask k) = timers k /\
  timerList (scheduleNextTask k) = timerList k /\
  timeoutHandlerQueue (scheduleNextTask k) = timeoutHandlerQueue k.
Proof.
  unfold scheduleNextTask, requeueCurrent.
  destruct (negb _); [|done].
  destruct (decide _).
  - destruct (taskQueuePeek _); [|done].
    destruct (_ <=? _); [|done].
    cbv zeta. by destruct (taskQueueGet _) as [[?|] ?].
  - cbv zeta. by destruct (taskQueueGet _) as [[?|] ?].
Qed.

(** X21.  When a timer expires at a tick while the timer task is BLOCKED
    and has the numerically lowest priority of all tasks, the tick interrupt
    hands the processor to the timer task: after [SYSTICK_HANDLER] the
    handler of the timer is in [timeoutHandlerQueue], the timer task is the
    current task, RUNNING, with wake-up reason TIMER_TIMEOUT, and the task
    that was running is READY in the ready queue. *)
Theorem timer_expiry_preempts (k : kernel) (p : nat) :
  NoDup (timerList k) ->
  In p (timerList k) ->
  ticksLeft (timers k p) = 0 ->
  status (tcb k timerTask) = TASK_STATUS_BLOCKED ->
  let cur := taskPool_currentTask k in
  status (tcb k cur) = TASK_STATUS_RUNNING ->
  ~ In cur (blockedQueue k) ->
  ~ In timerTask (readyQueue k) ->
  (forall u, u <> timerTask -> priority (tcb k timerTask) < priority (tcb k u)) ->
  let k' := SYSTICK_HANDLER k in
  In (timeoutHandler (timers k p)) (timeoutHandlerQueue k') /\
  taskPool_currentTask k' = timerTask /\
  status (tcb k' timerTask) = TASK_STATUS_RUNNING /\
  wakeupReason (tcb k' timerTask) = TIMER_TIMEOUT /\
  status (tcb k' cur) = TASK_STATUS_READY /\
  In cur (readyQueue k').
Proof.
  intros Hnd Hin Hd Hb cur Hrun Hcb Htr Hbest k'.
  assert (Hct : cur <> timerTask) by (intros E; rewrite E in Hrun; congruence).
  set (k1 := processTimers k).
  destruct (processTimersWalk_wake_once (timerList k) p Hin k Hd Hb)
    as (k0 & (A1 & A2 & A3 & A4 & _) & (B1 & B2 & B3 & B4 & _)).
  fold (processTimers k) in B1, B2, B3, B4. fold k1 in B1, B2, B3, B4.
  rewrite taskSetReady_readyQueue, A1, A2 in B2.
  rewrite taskSetReady_blockedQueue, A3 in B3.
  assert (T1 : tcb k1 timerTask
               = set_wakeupReason TIMER_TIMEOUT
                   (set_status TASK_STATUS_READY
                      (set_remainingSleepTicks 0 (tcb k timerTask)))).
  { by rewrite B1, taskSetReady_tcb_eq, A1. }
  assert (T2 : forall u, u <> timerTask -> tcb k1 u = tcb k u).
  { intros u Hu. by rewrite B1, taskSetReady_tcb_ne, A1. }
  assert (P1 : forall u, priority (tcb k1 u) = priority (tcb k u)).
  { intros u. by rewrite B1, taskSetReady_priority, A1. }
  assert (Hadd : taskQueueAdd (tcb k) (readyQueue k) timerTask
                 = timerTask :: readyQueue k).
  { apply (taskQueueAdd_middle (tcb k) [] (readyQueue k) timerTask).
    - intros u [].
    - intros u Hu. apply Hbest. by intros ->. }
  rewrite Hadd in B2.
  assert (Hq1 : In (timeoutHandler (timers k p)) (timeoutHandlerQueue k1)).
  { unfold k1, processTimers. rewrite processTimersWalk_handlers by done.
    apply in_or_app. right. unfold expiredHandlers.
    apply (in_map (fun q => timeoutHandler (timers k q))).
    apply filter_In. split; [done|]. by apply Z.eqb_eq. }
  set (k2 := if negb (taskQueueEmpty (blockedQueue k1)) then checkTimeout k1 else k1).
  assert (H2 : (exists q', readyQueue k2 = timerTask :: q') /\
               tcb k2 timerTask = tcb k1 timerTask /\
               (forall u, priority (tcb k2 u) = priority (tcb k1 u)) /\
               timeoutHandlerQueue k2 = timeoutHandlerQueue k1 /\
               tcb k2 cur = tcb k1 cur /\
               taskPool_currentTask k2 = taskPool_currentTask k1).
  { unfold k2. destruct (negb _); [|by eauto 10].
    destruct (checkTimeoutWalk_head (blockedQueue k1) timerTask k1 (readyQueue k) B2)
      as (C1 & C2 & C3 & C4).
    - intros u. rewrite !P1. destruct (decide (u = timerTask)) as [->|Hu]; [done|].
      specialize (Hbest u Hu). lia.
    - by rewrite T1.
    - fold (checkTimeout k1) in C1, C2, C3, C4.
      split; [done|]. split; [done|]. split; [done|]. split; [done|]. split.
      + apply checkTimeoutWalk_other. rewrite B3.
        intros Hc. by apply taskQueueRemove_In in Hc.
      + apply checkTimeoutWalk_current. }
  destruct H2 as ([q' Hq2] & E1 & E2 & E3 & E4 & E5).
  assert (Hcur2 : taskPool_currentTask k2 = cur) by (rewrite E5, B4; exact A4).
  destruct (scheduleNextTask_switch k2 timerTask q' Hq2) as (S1 & S2 & S3 & _).
  { by rewrite Hcur2, E4, T2. }
  { rewrite Hcur2, !E2, !P1. specialize (Hbest cur Hct). lia. }
  destruct (scheduleNextTask_timers k2) as (_ & _ & S4).
  change (SYSTICK_HANDLER k) with (scheduleNextTask k2) in k'. subst k'.
  rewrite S1, S2, !S3, S4, E3, Hcur2.
  rewrite decide_True by done. rewrite decide_False by done.
  rewrite decide_True by done. rewrite E1, T1, E4, T2 by done.
  split; [done|]. split; [done|]. split; [done|]. split; [done|].
  split; [done|]. rewrite taskQueueAdd_In. by left.
Qed.

Lemma timer_expiry_preempts_witness :
  taskPool_currentTask (SYSTICK_HANDLER kernelTimers) = timerTask /\
  status (tcb (SYSTICK_HANDLER kernelTimers) timerTask) = TASK_STATUS_RUNNING /\
  In taskL (readyQueue (SYSTICK_HANDLER kernelTimers)).
Proof.
  assert (Hnd : NoDup (timerList kernelTimers)).
  { apply (bool_decide_unpack _). vm_compute. exact I. }
  assert (Hin : In 0%nat (timerList kernelTimers)) by (simpl; tauto).
  assert (Hcb : ~ In (taskPool_currentTask kernelTimers) (blockedQueue kernelTimers)).
  { intros [H|[]]. discriminate H. }
  assert (Htr : ~ In timerTask (readyQueue kernelTimers)).
  { intros [H|[]]. discriminate H. }
  assert (Hbest : forall u, u <> timerTask ->
            priority (tcb kernelTimers timerTask) < priority (tcb kernelTimers u)).
  { intros u Hu. change (tcb kernelTimers) with exampleTcb.
    destruct u as [|[|[|[|u]]]]; [exfalso; by apply Hu|reflexivity..]. }
  destruct (timer_expiry_preempts kernelTimers 0%nat Hnd Hin eq_refl eq_refl
              eq_refl Hcb Htr Hbest) as (_ & H1 & H2 & _ & _ & H3).
  split; [exact H1|]. split; [exact H2|exact H3].
Defined.
(** ** The boosted owner in the ready queue *)

Lemma taskBlockMark_facts (t : taskId) (reason : blockedReasonType) (w : Z)
    (k : kernel) :
  status (tcb (taskBlockMark t reason w k) t) = TASK_STATUS_BLOCKED /\
  (forall u, u <> t -> tcb (taskBlockMark t reason w k) u = tcb k u) /\
  readyQueue (taskBlockMark t reason w k) = readyQueue k /\
  taskPool_currentTask (taskBlockMark t reason w k) = taskPool_currentTask k.
Proof.
  unfold taskBlockMark. cbn. rewrite !fn_lookup_insert.
  split; [done|]. split; [|done].
  intros u Hne. by rewrite !fn_lookup_insert_ne.
Qed.

(** X22.  The priority boost of [mutexLock] changes the priority field of
    the owner and nothing of the ready queue.  So when the caller blocks on
    a mutex whose owner is queued behind a task [h] of a priority between
    the owner's and the caller's, it is [h] that is given the processor:
    the owner stays in the ready queue, with the caller's priority, behind
    a running task of numerically greater priority. *)
Theorem mutexLock_boost_keeps_queue (p : nat) (w : Z) (k : kernel)
    (owner h : taskId) (q : taskQueueType) :
  let cur := taskPool_currentTask k in
  locked (mutexes k p) = true ->
  ownerTask (mutexes k p) = Some owner ->
  w <> TASK_NO_WAIT ->
  readyQueue k = h :: q ->
  In owner q ->
  owner <> h ->
  priority (tcb k cur) < priority (tcb k h) ->
  priority (tcb k cur) < priority (tcb k owner) ->
  let k' := fst (mutexLock true p w k) in
  isSuspended (snd (mutexLock true p w k)) = true /\
  taskPool_currentTask k' = h /\
  status (tcb k' h) = TASK_STATUS_RUNNING /\
  readyQueue k' = q /\
  priority (tcb k' owner) = priority (tcb k cur) /\
  priority (tcb k' owner) < priority (tcb k' h).
Proof.
  intros cur Hl Ho Hw Hq Hin Hoh Hh Hown.
  assert (Hhc : h <> cur) by (intros ->; lia).
  assert (Hoc : owner <> cur) by (intros ->; lia).
  rewrite mutexLock_unfold. cbv zeta. fold cur.
  set (k1 := mutexInherit true p cur k).
  destruct (mutexInherit_mutex true p cur k p) as (Hl1 & _).
  destruct (mutexInherit_frame true p cur k) as (Hc1 & Hq1 & _).
  fold k1 in Hl1, Hc1, Hq1.
  rewrite Hl1, Hl. cbn [negb andb].
  rewrite (proj2 (Z.eqb_neq _ _) Hw). cbn [andb].
  set (k2 := updMutex p _ k1).
  rewrite taskBlock_bind. cbv zeta.
  destruct (taskBlockMark_facts cur WAIT_FOR_MUTEX w k2) as (B1 & B2 & B3 & B4).
  set (k3 := taskBlockMark cur WAIT_FOR_MUTEX w k2) in *.
  change (readyQueue k2) with (readyQueue k1) in B3.
  change (taskPool_currentTask k2) with (taskPool_currentTask k1) in B4.
  change (tcb k2) with (tcb k1) in B2.
  rewrite Hq1, Hq in B3. rewrite Hc1 in B4. fold cur in B4.
  destruct (scheduleNextTask_dispatch k3 h q B3) as (S1 & S2 & S3 & _).
  { rewrite B4, B1. done. }
  change (taskPool_currentTask k2) with (taskPool_currentTask k1).
  rewrite Hc1. fold cur. rewrite S2.
  rewrite decide_False by done. cbn [fst snd isSuspended].
  rewrite S1, S2, !S3. rewrite decide_True by done.
  rewrite decide_False by done.
  assert (P : forall u, u <> cur -> priority (tcb k3 u) = priority (tcb k1 u)).
  { intros u Hu. by rewrite B2. }
  change (priority (set_status TASK_STATUS_RUNNING (tcb k3 h)))
    with (priority (tcb k3 h)).
  rewrite !P by done. unfold k1. rewrite !mutexInherit_priority, Ho.
  rewrite bool_decide_eq_true_2 by done.
  rewrite bool_decide_eq_false_2 by congruence.
  fold cur. split; [done|]. split; [done|]. split; [done|]. split; [done|].
  split; lia.
Qed.

Lemma mutexLock_boost_keeps_queue_witness :
  let k' := fst (mutexLock true 0 5 kernelInversion) in
  taskPool_currentTask k' = taskM /\
  In taskL (readyQueue k') /\
  priority (tcb k' taskL) < priority (tcb k' taskM).
Proof.
  intros k'.
  assert (Hw : 5 <> TASK_NO_WAIT) by (vm_compute; intros H; discriminate H).
  assert (Hq : readyQueue kernelInversion = taskM :: [taskL; idleTask])
    by (vm_compute; reflexivity).
  assert (Hin : In taskL [taskL; idleTask]) by (by left).
  assert (Hne : taskL <> taskM) by (intros H; discriminate H).
  assert (Hl : locked (mutexes kernelInversion 0%nat) = true)
    by (vm_compute; reflexivity).
  assert (Ho : ownerTask (mutexes kernelInversion 0%nat) = Some taskL)
    by (vm_compute; reflexivity).
  assert (Hh : priority (tcb kernelInversion (taskPool_currentTask kernelInversion))
               < priority (tcb kernelInversion taskM))
    by (vm_compute; reflexivity).
  assert (Hown : priority (tcb kernelInversion (taskPool_currentTask kernelInversion))
                 < priority (tcb kernelInversion taskL))
    by (vm_compute; reflexivity).
  destruct (mutexLock_boost_keeps_queue 0%nat 5 kernelInversion taskL taskM
              [taskL; idleTask] Hl Ho Hw Hq Hin Hne Hh Hown)
    as (_ & H1 & _ & H2 & _ & H3).
  fold k' in H1, H2, H3.
  split; [exact H1|]. split; [rewrite H2; exact Hin|exact H3].
Defined.
(** ** A timed wait that nobody ends *)

Lemma removeAll_In (ws : list taskId) (u : taskId) :
  forall q : taskQueueType,
    In u (fold_left taskQueueRemove ws q) -> In u q.
Proof.
  induction ws as [|w ws IH]; intros q; simpl; [done|].
  intros Hin. by apply (taskQueueRemove_In q w), IH.
Qed.

Lemma removeAll_NoDup (ws : list taskId) :
  forall q : taskQueueType, NoDup q -> NoDup (fold_left taskQueueRemove ws q).
Proof.
  induction ws as [|w ws IH]; intros q Hq; simpl; [done|].
  by apply IH, taskQueueRemove_NoDup.
Qed.

Lemma removeAll_keeps (ws : list taskId) (u : taskId) :
  ~ In u ws ->
  forall q : taskQueueType, In u q -> In u (fold_left taskQueueRemove ws q).
Proof.
  induction ws as [|w ws IH]; intros Hn q Hq; simpl; [done|].
  apply IH; [intros ?; apply Hn; by right|].
  apply taskQueueRemove_In_ne; [|done]. intros ->. apply Hn. by left.
Qed.

Lemma removeAll_gone (ws : list taskId) (u : taskId) :
  In u ws ->
  forall q : taskQueueType, NoDup q -> ~ In u (fold_left taskQueueRemove ws q).
Proof.
  induction ws as [|w ws IH]; intros Hin q Hq; simpl; [done|].
  destruct (decide (u = w)) as [->|Hne].
  - intros Hc. apply removeAll_In in Hc.
    by apply (taskQueueRemove_NoDup_notin q w).
  - destruct Hin as [?|Hin]; [congruence|].
    by apply IH, taskQueueRemove_NoDup.
Qed.

Lemma unwaitAll_semaphore (ws : list taskId) :
  forall s : semaphoreHandleType,
    let s' := fold_left (fun s t => semaphoreUnwait t s) ws s in
    count s' = count s /\
    maxCount s' = maxCount s /\
    semWaitQueue s' = fold_left taskQueueRemove ws (semWaitQueue s).
Proof.
  induction ws as [|w ws IH]; intros s; cbn zeta; simpl; [done|].
  destruct (IH (semaphoreUnwait w s)) as (H1 & H2 & H3). cbn zeta in H1, H2, H3.
  by rewrite H1, H2, H3.
Qed.

Lemma wokenBetween_same (p : nat) (k k' : kernel) :
  blockedQueue k' = blockedQueue k ->
  semaphores k' = semaphores k ->
  wokenBetween p [] k k'.
Proof. intros Hb Hs. split; cbn; [done|by rewrite Hs]. Qed.

Lemma wokenBetween_trans (p : nat) (ws1 ws2 : list taskId) (k k1 k2 : kernel) :
  wokenBetween p ws1 k k1 -> wokenBetween p ws2 k1 k2 ->
  wokenBetween p (ws1 ++ ws2) k k2.
Proof.
  intros [A1 A2] [B1 B2]. split; rewrite fold_left_app; congruence.
Qed.

Lemma processTimerNode_woken (p : nat) (h : nat) (k : kernel) :
  exists ws, wokenBetween p ws k (processTimerNode h k).
Proof.
  destruct (processTimerNode_tasks h k)
    as [(_ & _ & E3 & _ & E5)
       |(k0 & (_ & _ & A3 & _ & A5) & (_ & _ & E3 & _ & E5))].
  - exists []. by apply wokenBetween_same.
  - exists [timerTask]. split; cbn.
    + by rewrite E3, taskSetReady_blockedQueue, A3.
    + by rewrite E5, taskSetReady_semaphores, A5.
Qed.

Lemma processTimersWalk_woken_between (p : nat) (nodes : list nat) :
  forall k : kernel, exists ws, wokenBetween p ws k (processTimersWalk nodes k).
Proof.
  induction nodes as [|h nodes IH]; intros k; simpl.
  - exists []. by apply wokenBetween_same.
  - destruct (processTimerNode_woken p h k) as [ws1 H1].
    destruct (IH (processTimerNode h k)) as [ws2 H2].
    exists (ws1 ++ ws2). by apply (wokenBetween_trans p ws1 ws2 k _ _ H1).
Qed.

Lemma checkTimeoutNode_woken (p : nat) (t : taskId) (k : kernel) :
  exists ws, wokenBetween p ws k (checkTimeoutNode t k).
Proof.
  destruct (checkTimeoutNode_cases t k) as [->|[->| ->]].
  - exists []. by apply wokenBetween_same.
  - exists []. by apply wokenBetween_same.
  - exists [t]. by split.
Qed.

Lemma checkTimeoutWalk_woken_between (p : nat) (nodes : list taskId) :
  forall k : kernel, exists ws, wokenBetween p ws k (checkTimeoutWalk nodes k).
Proof.
  induction nodes as [|h nodes IH]; intros k; simpl.
  - exists []. by apply wokenBetween_same.
  - destruct (checkTimeoutNode_woken p h k) as [ws1 H1].
    destruct (IH (checkTimeoutNode h k)) as [ws2 H2].
    exists (ws1 ++ ws2). by apply (wokenBetween_trans p ws1 ws2 k _ _ H1).
Qed.

Lemma scheduleNextTask_blockedQueue (k : kernel) :
  blockedQueue (scheduleNextTask k) = blockedQueue k.
Proof.
  unfold scheduleNextTask, requeueCurrent.
  destruct (negb _); [|done].
  destruct (decide _).
  - destruct (taskQueuePeek _); [|done].
    destruct (_ <=? _); [|done].
    cbv zeta. by destruct (taskQueueGet _) as [[?|] ?].
  - cbv zeta. by destruct (taskQueueGet _) as [[?|] ?].
Qed.

(** A tick wakes tasks and does nothing else to the blocked-timeout list
    and to a semaphore. *)
Lemma SYSTICK_HANDLER_woken (p : nat) (k : kernel) :
  exists ws, wokenBetween p ws k (SYSTICK_HANDLER k).
Proof.
  unfold SYSTICK_HANDLER. cbv zeta.
  destruct (processTimersWalk_woken_between p (timerList k) k) as [ws1 H1].
  fold (processTimers k) in H1.
  assert (H2 : exists ws2, wokenBetween p ws2 (processTimers k)
                 (if negb (taskQueueEmpty (blockedQueue (processTimers k)))
                  then checkTimeout (processTimers k) else processTimers k)).
  { destruct (negb _).
    - apply checkTimeoutWalk_woken_between.
    - exists []. by apply wokenBetween_same. }
  destruct H2 as [ws2 H2].
  exists ((ws1 ++ ws2) ++ []).
  apply (wokenBetween_trans p _ _ k _ _ (wokenBetween_trans p _ _ k _ _ H1 H2)).
  apply wokenBetween_same; [apply scheduleNextTask_blockedQueue|].
  apply scheduleNextTask_primitives.
Qed.

Lemma systicks_woken (p : nat) (j : nat) (k : kernel) :
  exists ws, wokenBetween p ws k (systicks j k).
Proof.
  induction j as [|j [ws1 H1]].
  - exists []. by apply wokenBetween_same.
  - destruct (SYSTICK_HANDLER_woken p (systicks j k)) as [ws2 H2].
    exists (ws1 ++ ws2). rewrite systicks_S.
    by apply (wokenBetween_trans p ws1 ws2 k _ _ H1).
Qed.

(** A task leaves the wait queue of the semaphore exactly when it leaves
    the blocked-timeout list. *)
Lemma wokenBetween_waiter (p : nat) (ws : list taskId) (k k' : kernel) (u : taskId) :
  wokenBetween p ws k k' ->
  count (semaphores k' p) = count (semaphores k p) /\
  (NoDup (blockedQueue k) -> In u (blockedQueue k') ->
   In u (semWaitQueue (semaphores k p)) ->
   In u (semWaitQueue (semaphores k' p))) /\
  (NoDup (semWaitQueue (semaphores k p)) -> In u (blockedQueue k) ->
   ~ In u (blockedQueue k') ->
   ~ In u (semWaitQueue (semaphores k' p))).
Proof.
  intros [Hb Hs].
  destruct (unwaitAll_semaphore ws (semaphores k p)) as (H1 & _ & H3).
  cbn zeta in H1, H3. rewrite Hs, H1, H3, Hb.
  split; [done|]. split.
  - intros Hnd Hin Hw. apply removeAll_keeps; [|done].
    intros Hc. by apply (removeAll_gone ws u Hc (blockedQueue k) Hnd).
  - intros Hnd Hin Hout. apply removeAll_gone; [|done].
    destruct (in_dec Nat.eq_dec u ws) as [?|Hn]; [done|].
    exfalso. apply Hout. by apply removeAll_keeps.
Qed.

Lemma taskBlockMark_blocked (t : taskId) (reason : blockedReasonType) (w : Z)
    (k : kernel) :
  let k' := taskBlockMark t reason w k in
  tcb k' t
  = set_remainingSleepTicks (if w =? TASK_MAX_WAIT then 0 else w)
      (set_blockedReason reason (set_status TASK_STATUS_BLOCKED (tcb k t))) /\
  (forall u, In u (blockedQueue k') <-> u = t \/ In u (blockedQueue k)) /\
  (NoDup (blockedQueue k) -> ~ In t (blockedQueue k) -> NoDup (blockedQueue k')) /\
  semaphores k' = semaphores k.
Proof.
  unfold taskBlockMark. cbn. rewrite !fn_lookup_insert.
  split; [done|]. split; [|split; [|done]].
  - intros u. apply taskQueueAdd_In.
  - intros Hnd Hin. rewrite taskQueueAdd_Permutation.
    constructor; [by rewrite list_elem_of_In|done].
Qed.

(** The state in which a [semaphoreTake] that has to wait gives the
    processor away. *)
Lemma semaphoreTake_blocks (p : nat) (w : Z) (k : kernel) (h : taskId)
    (q : taskQueueType) :
  let A := taskPool_currentTask k in
  count (semaphores k p) = 0 ->
  w <> TASK_NO_WAIT ->
  readyQueue k = h :: q ->
  h <> A ->
  let kb := taskBlockMark A WAIT_FOR_SEMAPHORE w
              (updSemaphore p
                 (set_semWaitQueue
                    (taskQueueAdd (tcb k) (semWaitQueue (semaphores k p)) A)) k) in
  semaphoreTake p w k
  = (scheduleNextTask kb,
     Suspended (gets (fun e => wakeupReason (tcb e A))
                  ≫= (fun reason =>
                        if decide (reason = SEMAPHORE_TAKEN)
                        then mret RET_SUCCESS else mret RET_TIMEOUT))) /\
  taskPool_currentTask (scheduleNextTask kb) = h /\
  readyQueue (scheduleNextTask kb) = q /\
  tcb (scheduleNextTask kb) A = tcb kb A.
Proof.
  intros A Hc Hw Hq Hne kb.
  destruct (taskBlockMark_facts A WAIT_FOR_SEMAPHORE w
              (updSemaphore p
                 (set_semWaitQueue
                    (taskQueueAdd (tcb k) (semWaitQueue (semaphores k p)) A)) k))
    as (B1 & _ & B3 & B4).
  fold kb in B1, B3, B4.
  change (readyQueue (updSemaphore _ _ k)) with (readyQueue k) in B3.
  change (taskPool_currentTask (updSemaphore _ _ k)) with A in B4.
  rewrite Hq in B3.
  destruct (scheduleNextTask_dispatch kb h q B3) as (S1 & S2 & S3 & _).
  { rewrite B4, B1. done. }
  split; [|split; [done|split; [done|]]].
  - rewrite semaphoreTake_unfold. cbv zeta. rewrite Hc. cbn [Z.eqb negb].
    rewrite (proj2 (Z.eqb_neq _ _) Hw).
    rewrite taskBlock_bind. cbv zeta. fold A. fold kb.
    rewrite S2.
    change (taskPool_currentTask (updSemaphore _ _ k)) with A.
    by rewrite decide_False.
  - rewrite S3. rewrite decide_False; [done|]. by intros ->.
Qed.

(** X23.  A [semaphoreTake] with [n > 0] wait ticks on a semaphore without
    a unit, which nobody gives meanwhile, times out at the [n]-th tick.
    The call gives the processor away; through the first [n - 1] ticks the
    caller stays on the blocked-timeout list and on the wait queue of the
    semaphore; the [n]-th tick takes it off both and leaves it with wake-up
    reason WAIT_TIMEOUT; the count is 0 throughout.  Resumed with this
    wake-up reason, the call returns RET_TIMEOUT. *)
Theorem semaphoreTake_times_out (p : nat) (k : kernel) (n : nat) (h : taskId)
    (q : taskQueueType) :
  let A := taskPool_currentTask k in
  let w := Z.of_nat n in
  count (semaphores k p) = 0 ->
  (0 < n)%nat ->
  w <> TASK_MAX_WAIT ->
  A <> timerTask ->
  readyQueue k = h :: q ->
  ~ In A (readyQueue k) ->
  NoDup (blockedQueue k) ->
  ~ In A (blockedQueue k) ->
  NoDup (semWaitQueue (semaphores k p)) ->
  ~ In A (semWaitQueue (semaphores k p)) ->
  let k1 := fst (semaphoreTake p w k) in
  isSuspended (snd (semaphoreTake p w k)) = true /\
  (forall j, (j < n)%nat ->
     In A (blockedQueue (systicks j k1)) /\
     In A (semWaitQueue (semaphores (systicks j k1) p)) /\
     count (semaphores (systicks j k1) p) = 0) /\
  (let e := systicks n k1 in
   ~ In A (blockedQueue e) /\
   ~ In A (semWaitQueue (semaphores e p)) /\
   count (semaphores e p) = 0 /\
   wakeupReason (tcb e A) = WAIT_TIMEOUT) /\
  (forall e : kernel,
     wakeupReason (tcb e A) = WAIT_TIMEOUT ->
     run (semaphoreTake p w) k [e] = Some (e, RET_TIMEOUT)).
Proof.
  intros A w Hc Hn Hmax Ht Hq Hrq Hbn Hbq Hsn Hsq k1.
  assert (Hw : w <> TASK_NO_WAIT) by (unfold w, TASK_NO_WAIT; lia).
  assert (Hne : h <> A) by (intros ->; apply Hrq; rewrite Hq; by left).
  destruct (semaphoreTake_blocks p w k h q Hc Hw Hq Hne) as (Hcall & Hcur & Hrq1 & Htcb).
  fold A in Hcall, Hcur, Hrq1, Htcb.
  set (k0 := updSemaphore p
               (set_semWaitQueue
                  (taskQueueAdd (tcb k) (semWaitQueue (semaphores k p)) A)) k) in *.
  destruct (taskBlockMark_blocked A WAIT_FOR_SEMAPHORE w k0) as (T1 & T2 & T3 & T4).
  set (kb := taskBlockMark A WAIT_FOR_SEMAPHORE w k0) in *.
  assert (Ek1 : k1 = scheduleNextTask kb) by (unfold k1; by rewrite Hcall).
  assert (Hb1 : blockedQueue k1 = blockedQueue kb).
  { rewrite Ek1. apply scheduleNextTask_blockedQueue. }
  assert (Hs1 : semaphores k1 p
                = set_semWaitQueue
                    (taskQueueAdd (tcb k) (semWaitQueue (semaphores k p)) A)
                    (semaphores k p)).
  { rewrite Ek1, (proj1 (scheduleNextTask_primitives kb)), T4.
    unfold k0. by rewrite updSemaphore_eq. }
  assert (Htcb1 : tcb k1 A
                  = set_remainingSleepTicks w
                      (set_blockedReason WAIT_FOR_SEMAPHORE
                         (set_status TASK_STATUS_BLOCKED (tcb k A)))).
  { rewrite Ek1, Htcb, T1. by rewrite (proj2 (Z.eqb_neq _ _) Hmax). }
  assert (Hwb : waitsBlocked A k1).
  { split; [rewrite Hb1; by apply T3|]. split; [rewrite Hb1, T2; by left|].
    split; [|split; [|done]].
    - rewrite Ek1, Hrq1. intros Hin. apply Hrq. rewrite Hq. by right.
    - rewrite Ek1, Hcur. done. }
  assert (Hrem : remainingSleepTicks (tcb k1 A) = Z.of_nat n) by (by rewrite Htcb1).
  assert (Hin1 : In A (semWaitQueue (semaphores k1 p))).
  { rewrite Hs1. cbn. rewrite taskQueueAdd_In. by left. }
  assert (Hnd1 : NoDup (semWaitQueue (semaphores k1 p))).
  { rewrite Hs1. cbn. rewrite taskQueueAdd_Permutation.
    constructor; [by rewrite list_elem_of_In|done]. }
  assert (Hc1 : count (semaphores k1 p) = 0) by (by rewrite Hs1).
  split; [by rewrite Hcall|]. split; [|split].
  - intros j Hj.
    destruct (systicks_waits A k1 n Hwb Hrem j Hj) as (_ & _ & Hin & _).
    destruct (systicks_woken p j k1) as [ws Hws].
    destruct (wokenBetween_waiter p ws k1 (systicks j k1) A Hws) as (W1 & W2 & _).
    split; [done|]. split; [|by rewrite W1].
    apply W2; [by destruct Hwb|done|done].
  - cbn zeta.
    destruct (systicks_wakes A k1 n Hwb Hrem Hn) as (_ & Hwr & Hout & _).
    destruct (systicks_woken p n k1) as [ws Hws].
    destruct (wokenBetween_waiter p ws k1 (systicks n k1) A Hws) as (W1 & _ & W3).
    split; [done|]. split; [|split; [by rewrite W1|]].
    + apply W3; [done| |done]. by destruct Hwb as (_ & ? & _).
    + rewrite Hwr, Htcb1. done.
  - intros e He. rewrite run_cons, Hcall, run_nil, semaphoreTake_woken.
    fold A. rewrite He. done.
Qed.

Lemma semaphoreTake_times_out_witness :
  let k1 := fst (semaphoreTake 0 (Z.of_nat 5) exampleKernel) in
  wakeupReason (tcb (systicks 5 k1) taskL) = WAIT_TIMEOUT /\
  run (semaphoreTake 0 (Z.of_nat 5)) exampleKernel [systicks 5 k1]
  = Some (systicks 5 k1, RET_TIMEOUT).
Proof.
  intros k1.
  assert (Hn : (0 < 5)%nat) by lia.
  assert (Hmax : Z.of_nat 5 <> TASK_MAX_WAIT) by (intros H; discriminate H).
  assert (Ht : taskPool_currentTask exampleKernel <> timerTask)
    by (intros H; discriminate H).
  assert (Hrq : ~ In (taskPool_currentTask exampleKernel) (readyQueue exampleKernel)).
  { intros [H|[]]. discriminate H. }
  assert (Hbn : NoDup (blockedQueue exampleKernel)).
  { apply (bool_decide_unpack _). vm_compute. exact I. }
  assert (Hbq : ~ In (taskPool_currentTask exampleKernel) (blockedQueue exampleKernel)).
  { intros [H|[]]. discriminate H. }
  assert (Hsn : NoDup (semWaitQueue (semaphores exampleKernel 0%nat)))
    by constructor.
  assert (Hsq : ~ In (taskPool_currentTask exampleKernel)
                     (semWaitQueue (semaphores exampleKernel 0%nat)))
    by (intros []).
  destruct (semaphoreTake_times_out 0%nat exampleKernel 5 idleTask [] eq_refl Hn
              Hmax Ht eq_refl Hrq Hbn Hbq Hsn Hsq)
    as (_ & _ & (_ & _ & _ & Hwr) & Hrun).
  split; [exact Hwr|exact (Hrun _ Hwr)].
Defined.

Lemma removeAll_nil (ws : list taskId) : fold_left taskQueueRemove ws [] = [].
Proof. by induction ws as [|w ws IH]. Qed.

(** *** A tick inside [semaphoreTake] *)

Lemma semaphoreTake_split (p : nat) (w : Z) (k : kernel) :
  semaphoreTake p w k = semaphoreTakeRest p w (semaphoreTakeTest p k) k.
Proof.
  unfold semaphoreTake, semaphoreTakeRest, semaphoreTakeTest.
  unfold mbind at 1, call_bind at 1, gets at 1. cbn [res_bind].
  by destruct (negb _).
Qed.

Lemma semaphoreTakeRest_unit (p : nat) (w : Z) (k : kernel) :
  semaphoreTakeRest p w true k
  = (updSemaphore p (set_count (count (semaphores k p) - 1)) k,
     Returned RET_SUCCESS).
Proof. reflexivity. Qed.

Lemma semaphoreTakeRest_wait (p : nat) (w : Z) (k : kernel) :
  w <> TASK_NO_WAIT ->
  semaphoreTakeRest p w false k
  = let cur := taskPool_currentTask k in
    (taskBlock cur WAIT_FOR_SEMAPHORE w
       ≫= (fun _ =>
             gets (fun e => wakeupReason (tcb e cur))
               ≫= (fun reason =>
                     if decide (reason = SEMAPHORE_TAKEN)
                     then mret RET_SUCCESS else mret RET_TIMEOUT)))
      (updSemaphore p
         (set_semWaitQueue
            (taskQueueAdd (tcb k) (semWaitQueue (semaphores k p)) cur)) k).
Proof.
  intros Hw. unfold semaphoreTakeRest.
  rewrite (proj2 (Z.eqb_neq _ _) Hw). reflexivity.
Qed.

(** A tick leaves the count of a semaphore as it is, and an empty wait
    queue empty. *)
Lemma SYSTICK_HANDLER_semaphore (p : nat) (k : kernel) :
  count (semaphores (SYSTICK_HANDLER k) p) = count (semaphores k p) /\
  maxCount (semaphores (SYSTICK_HANDLER k) p) = maxCount (semaphores k p) /\
  (semWaitQueue (semaphores k p) = [] ->
   semWaitQueue (semaphores (SYSTICK_HANDLER k) p) = []).
Proof.
  destruct (SYSTICK_HANDLER_woken p k) as [ws [_ Hs]].
  destruct (unwaitAll_semaphore ws (semaphores k p)) as (H1 & H2 & H3).
  cbn zeta in H1, H2, H3. rewrite Hs, H1, H2, H3.
  split; [done|]. split; [done|]. intros ->. apply removeAll_nil.
Qed.

(** X5.  [semaphoreTake] has no critical section, and the tick interrupt
    can be taken between the test of the count and the decrement.  Run
    without interruption on a semaphore with one unit, the call takes the
    unit and returns RET_SUCCESS.  But when the caller has seen the unit
    and a tick hands the processor to another task, which takes the unit
    (RET_SUCCESS, count 0), and a later tick lets the caller continue, the
    caller decrements all the same: it returns RET_SUCCESS too and leaves
    the count at -1. *)
Theorem semaphoreTake_interrupted_underflow (p : nat) (w wB : Z) (k : kernel) :
  let A := taskPool_currentTask k in
  count (semaphores k p) = 1 ->
  let k1 := SYSTICK_HANDLER k in
  taskPool_currentTask k1 <> A ->
  let k2 := fst (semaphoreTake p wB k1) in
  let k3 := SYSTICK_HANDLER k2 in
  taskPool_currentTask k3 = A ->
  let k4 := fst (semaphoreTakeRest p w true k3) in
  semaphoreTake p w k
  = (updSemaphore p (set_count 0) k, Returned RET_SUCCESS) /\
  semaphoreTakeTest p k = true /\
  snd (semaphoreTake p wB k1) = Returned RET_SUCCESS /\
  count (semaphores k2 p) = 0 /\
  snd (semaphoreTakeRest p w true k3) = Returned RET_SUCCESS /\
  count (semaphores k4 p) = -1.
Proof.
  intros A Hc k1 HB k2 k3 HA k4.
  destruct (SYSTICK_HANDLER_semaphore p k) as (C1 & _).
  fold k1 in C1. rewrite Hc in C1.
  assert (H2 : semaphoreTake p wB k1
               = (updSemaphore p (set_count 0) k1, Returned RET_SUCCESS)).
  { rewrite semaphoreTake_unfold. cbv zeta. by rewrite C1. }
  assert (C2 : count (semaphores k2 p) = 0).
  { unfold k2. rewrite H2. cbn [fst]. by rewrite updSemaphore_eq. }
  destruct (SYSTICK_HANDLER_semaphore p k2) as (C3 & _).
  fold k3 in C3. rewrite C2 in C3.
  split; [rewrite semaphoreTake_unfold; cbv zeta; by rewrite Hc|].
  split; [unfold semaphoreTakeTest; by rewrite Hc|].
  split; [by rewrite H2|]. split; [done|]. split; [done|].
  unfold k4. rewrite semaphoreTakeRest_unit. cbn [fst].
  by rewrite updSemaphore_eq, C3.
Qed.

Lemma semaphoreTake_interrupted_underflow_witness :
  let k := updSemaphore 0 (set_count 1) kernelTwoTasks in
  let k2 := fst (semaphoreTake 0 0 (SYSTICK_HANDLER k)) in
  let k4 := fst (semaphoreTakeRest 0 0 true (SYSTICK_HANDLER k2)) in
  taskPool_currentTask k = 4%nat /\
  taskPool_currentTask (SYSTICK_HANDLER k) = 5%nat /\
  taskPool_currentTask (SYSTICK_HANDLER k2) = 4%nat /\
  count (semaphores k4 0%nat) = -1.
Proof.
  intros k k2 k4.
  assert (HB : taskPool_currentTask (SYSTICK_HANDLER k) <> taskPool_currentTask k).
  { vm_compute. intros H. discriminate H. }
  assert (HA : taskPool_currentTask (SYSTICK_HANDLER k2) = taskPool_currentTask k).
  { vm_compute. reflexivity. }
  destruct (semaphoreTake_interrupted_underflow 0%nat 0 0 k eq_refl HB HA)
    as (_ & _ & _ & _ & _ & H).
  split; [reflexivity|]. split; [vm_compute; reflexivity|].
  split; [exact HA|exact H].
Defined.

(** X24.  The tick interrupt can also be taken between the test of the
    count and the entry into the wait queue.  When the caller of a
    [semaphoreTake] with a non-zero [waitTicks] has seen no unit and a tick
    hands the processor to another task, which gives the semaphore (nobody
    waits yet: the count becomes 1), and a later tick lets the caller
    continue, the caller enters the wait queue and blocks although a unit is
    there: "count is 0 or the wait queue is empty" does not hold then. *)
Theorem semaphoreTake_interrupted_misses_unit (p : nat) (w : Z) (k : kernel)
    (h : taskId) (q : taskQueueType) :
  let A := taskPool_currentTask k in
  count (semaphores k p) = 0 ->
  maxCount (semaphores k p) <> 0 ->
  semWaitQueue (semaphores k p) = [] ->
  w <> TASK_NO_WAIT ->
  let k1 := SYSTICK_HANDLER k in
  taskPool_currentTask k1 <> A ->
  let k2 := fst (semaphoreGive p k1) in
  let k3 := SYSTICK_HANDLER k2 in
  taskPool_currentTask k3 = A ->
  readyQueue k3 = h :: q ->
  h <> A ->
  let k4 := fst (semaphoreTakeRest p w false k3) in
  semaphoreTakeTest p k = false /\
  snd (semaphoreGive p k1) = RET_SUCCESS /\
  count (semaphores k2 p) = 1 /\
  isSuspended (snd (semaphoreTakeRest p w false k3)) = true /\
  status (tcb k4 A) = TASK_STATUS_BLOCKED /\
  In A (semWaitQueue (semaphores k4 p)) /\
  count (semaphores k4 p) = 1 /\
  ~ semaphoreInv (semaphores k4 p).
Proof.
  intros A Hc Hmax Hq Hw k1 HB k2 k3 HA Hrq Hne k4.
  destruct (SYSTICK_HANDLER_semaphore p k) as (C1 & M1 & Q1).
  fold k1 in C1, M1, Q1. rewrite Hc in C1. specialize (Q1 Hq).
  assert (H2 : semaphoreGive p k1
               = (updSemaphore p (set_count 1)
                    (updSemaphore p (set_semWaitQueue []) k1), RET_SUCCESS)).
  { unfold semaphoreGive. rewrite C1, M1.
    rewrite (proj2 (Z.eqb_neq 0 _)) by congruence. cbn [negb].
    rewrite Q1. cbn. rewrite fn_lookup_insert. cbn. by rewrite C1. }
  assert (C2 : count (semaphores k2 p) = 1).
  { unfold k2. rewrite H2. cbn [fst]. by rewrite updSemaphore_eq. }
  destruct (SYSTICK_HANDLER_semaphore p k2) as (C3 & _ & _).
  fold k3 in C3. rewrite C2 in C3.
  set (k0 := updSemaphore p
               (set_semWaitQueue
                  (taskQueueAdd (tcb k3) (semWaitQueue (semaphores k3 p)) A)) k3).
  destruct (taskBlockMark_blocked A WAIT_FOR_SEMAPHORE w k0) as (T1 & _ & _ & T4).
  destruct (taskBlockMark_facts A WAIT_FOR_SEMAPHORE w k0) as (B1 & _ & B3 & B4).
  set (kb := taskBlockMark A WAIT_FOR_SEMAPHORE w k0) in *.
  change (readyQueue k0) with (readyQueue k3) in B3.
  change (taskPool_currentTask k0) with (taskPool_currentTask k3) in B4.
  rewrite Hrq in B3. rewrite HA in B4.
  destruct (scheduleNextTask_dispatch kb h q B3) as (S1 & S2 & S3 & _).
  { rewrite B4, B1. done. }
  assert (Hrest : semaphoreTakeRest p w false k3
                  = (scheduleNextTask kb,
                     Suspended
                       (gets (fun e => wakeupReason (tcb e A))
                          ≫= (fun reason =>
                                if decide (reason = SEMAPHORE_TAKEN)
                                then mret RET_SUCCESS else mret RET_TIMEOUT)))).
  { rewrite (semaphoreTakeRest_wait p w k3 Hw). cbv zeta. rewrite HA. fold k0.
    rewrite taskBlock_bind. cbv zeta. fold kb.
    change (taskPool_currentTask k0) with (taskPool_currentTask k3).
    rewrite S2, HA. by rewrite decide_False. }
  assert (Hs4 : semaphores k4 p
                = set_semWaitQueue
                    (taskQueueAdd (tcb k3) (semWaitQueue (semaphores k3 p)) A)
                    (semaphores k3 p)).
  { unfold k4. rewrite Hrest. cbn [fst].
    rewrite (proj1 (scheduleNextTask_primitives kb)), T4.
    unfold k0. by rewrite updSemaphore_eq. }
  assert (Hin : In A (semWaitQueue (semaphores k4 p))).
  { rewrite Hs4. cbn. rewrite taskQueueAdd_In. by left. }
  assert (C4 : count (semaphores k4 p) = 1) by (by rewrite Hs4).
  split; [unfold semaphoreTakeTest; by rewrite Hc|].
  split; [by rewrite H2|]. split; [done|].
  split; [by rewrite Hrest|]. split.
  { unfold k4. rewrite Hrest. cbn [fst].
    rewrite S3, decide_False by (by intros ->). done. }
  split; [done|]. split; [done|].
  intros Hinv. unfold semaphoreInv in Hinv.
  rewrite Hinv in Hin; [done|]. rewrite C4. lia.
Qed.

Lemma semaphoreTake_interrupted_misses_unit_witness :
  let k2 := fst (semaphoreGive 0 (SYSTICK_HANDLER kernelTwoTasks)) in
  let k4 := fst (semaphoreTakeRest 0 5 false (SYSTICK_HANDLER k2)) in
  taskPool_currentTask kernelTwoTasks = 4%nat /\
  taskPool_currentTask (SYSTICK_HANDLER kernelTwoTasks) = 5%nat /\
  taskPool_currentTask (SYSTICK_HANDLER k2) = 4%nat /\
  In 4%nat (semWaitQueue (semaphores k4 0%nat)) /\
  count (semaphores k4 0%nat) = 1.
Proof.
  intros k2 k4.
  assert (Hmax : maxCount (semaphores kernelTwoTasks 0%nat) <> 0).
  { vm_compute. intros H. discriminate H. }
  assert (Hw : 5 <> TASK_NO_WAIT) by (vm_compute; intros H; discriminate H).
  assert (HB : taskPool_currentTask (SYSTICK_HANDLER kernelTwoTasks)
               <> taskPool_currentTask kernelTwoTasks).
  { vm_compute. intros H. discriminate H. }
  assert (HA : taskPool_currentTask (SYSTICK_HANDLER k2)
               = taskPool_currentTask kernelTwoTasks).
  { vm_compute. reflexivity. }
  assert (Hrq : readyQueue (SYSTICK_HANDLER k2) = 5%nat :: [idleTask]).
  { vm_compute. reflexivity. }
  assert (Hne : 5%nat <> taskPool_currentTask kernelTwoTasks).
  { vm_compute. intros H. discriminate H. }
  destruct (semaphoreTake_interrupted_misses_unit 0%nat 5 kernelTwoTasks 5%nat
              [idleTask] eq_refl Hmax eq_refl Hw HB HA Hrq Hne)
    as (_ & _ & _ & _ & _ & Hin & Hcnt & _).
  split; [reflexivity|]. split; [vm_compute; reflexivity|].
  split; [exact HA|]. split; [exact Hin|exact Hcnt].
Defined.
(** ** [condVarWait] without the mutex *)

(** X25.  [condVarWait] on a condition variable without a mutex returns
    [false] at once and changes nothing.  It does not look at what
    [mutexUnlock] returns: a caller that does not own the mutex waits all
    the same.  With another task first in the ready queue, the call then
    gives the processor to that task with the caller BLOCKED on the wait
    queue of the condition variable, and every mutex is as it was. *)
Theorem condVarWait_edges (pi : bool) (cv : nat) (w : Z) (k : kernel) :
  let A := taskPool_currentTask k in
  (pMutex (condVars k cv) = None -> condVarWait pi cv w k = (k, Returned false)) /\
  (forall (m : nat) (h : taskId) (q : taskQueueType),
     pMutex (condVars k cv) = Some m ->
     ownerTask (mutexes k m) <> Some A ->
     readyQueue k = h :: q ->
     h <> A ->
     let k1 := fst (condVarWait pi cv w k) in
     isSuspended (snd (condVarWait pi cv w k)) = true /\
     mutexes k1 = mutexes k /\
     In A (condVarWaitQueue (condVars k1 cv)) /\
     status (tcb k1 A) = TASK_STATUS_BLOCKED /\
     taskPool_currentTask k1 = h).
Proof.
  intros A. split.
  - intros Hm. unfold condVarWait.
    unfold mbind at 1, call_bind at 1, gets at 1. cbn [res_bind].
    rewrite Hm. reflexivity.
  - intros m h q Hm Ho Hq Hne k1. subst k1.
    pose proof (proj1 (mutexUnlock_errors pi m k) Ho) as Hunlock.
    set (k2 := updCondVar cv
                 (set_condVarWaitQueue
                    (taskQueueAdd (tcb k) (condVarWaitQueue (condVars k cv)) A)) k).
    assert (Hwait : condVarWait pi cv w k
                    = (taskBlock A WAIT_FOR_COND_VAR w
                         ≫= (fun _ => condVarWaitWoken pi cv A)) k2).
    { rewrite (condVarWait_unfold pi cv w k m Hm).
      rewrite (bind_returned _ _ k k tt).
      2:{ rewrite (condVarMutex_eq cv _ k m Hm).
          by rewrite (bind_returned _ _ k k _ Hunlock). }
      unfold mbind at 1, call_bind at 1, gets at 1. cbn [res_bind].
      unfold mbind at 1, call_bind at 1, modify at 1. cbn [res_bind].
      reflexivity. }
    destruct (taskBlockMark_facts A WAIT_FOR_COND_VAR w k2) as (B1 & _ & B3 & B4).
    set (kb := taskBlockMark A WAIT_FOR_COND_VAR w k2) in *.
    change (readyQueue k2) with (readyQueue k) in B3.
    change (taskPool_currentTask k2) with A in B4.
    rewrite Hq in B3.
    destruct (scheduleNextTask_dispatch kb h q B3) as (S1 & S2 & S3 & _).
    { rewrite B4, B1. done. }
    rewrite Hwait, taskBlock_bind. cbv zeta. fold kb.
    change (taskPool_currentTask k2) with A.
    rewrite S2, decide_False by done. cbn [fst snd isSuspended].
    split; [done|]. split; [|split; [|split; [|done]]].
    + by rewrite (proj1 (scheduleNextTask_frame kb)).
    + rewrite (proj1 (proj2 (scheduleNextTask_primitives kb))).
      change (condVars kb) with (condVars k2).
      unfold k2. rewrite updCondVar_eq. cbn. rewrite taskQueueAdd_In. by left.
    + rewrite S3, decide_False by (by intros ->). done.
Qed.

Lemma condVarWait_edges_witness :
  let k1 := fst (condVarWait true 0 5 exampleKernel) in
  isSuspended (snd (condVarWait true 0 5 exampleKernel)) = true /\
  mutexes k1 = mutexes exampleKernel /\
  In taskL (condVarWaitQueue (condVars k1 0%nat)).
Proof.
  intros k1.
  assert (Ho : ownerTask (mutexes exampleKernel 0%nat)
               <> Some (taskPool_currentTask exampleKernel))
    by (intros H; discriminate H).
  assert (Hne : idleTask <> taskPool_currentTask exampleKernel)
    by (intros H; discriminate H).
  destruct (proj2 (condVarWait_edges true 0%nat 5 exampleKernel) 0%nat idleTask []
              eq_refl Ho eq_refl Hne) as (H1 & H2 & H3 & _).
  split; [exact H1|]. split; [exact H2|exact H3].
Defined.
